(** * PythonBulkDataIO: the spreadsheet import scripts

    A shallow embedding of the four run-once import scripts
    ([main.py], [mainWithRadar.py], [tallyDealers.py], [verifiedDealers.py])
    and the properties of their value cleaning, record assembly, batch
    insert and geofence upsert.

    Part I holds the definitions, one module per script after the pieces of
    the Python runtime, pandas, psycopg2 and requests that the scripts call.
    Part II holds the lemmas and theorems. *)

From Stdlib Require Import String Ascii List ZArith Lia Bool DecimalString PeanoNat.
Import ListNotations.
Open Scope string_scope.

(* ================================================================== *)
(** * Part I: definitions *)
(* ================================================================== *)

(** ** The Python runtime

    A [str] is modelled as a [string] whose characters are the code points
    0..255 (Latin-1); [isspace] and [lower] are Python's tables restricted to
    that range. *)
Module Py.

(** [str.isspace]: TAB..CR, FS..US, SPACE, NEL (0x85) and NBSP (0xA0). *)
Definition isspace (c : ascii) : bool :=
  let n := nat_of_ascii c in
  (Nat.leb 9 n && Nat.leb n 13) || (Nat.leb 28 n && Nat.leb n 32)
  || Nat.eqb n 133 || Nat.eqb n 160.

Fixpoint lstrip (s : string) : string :=
  match s with
  | EmptyString => EmptyString
  | String c r => if isspace c then lstrip r else s
  end.

Fixpoint rstrip (s : string) : string :=
  match s with
  | EmptyString => EmptyString
  | String c r =>
      match rstrip r with
      | EmptyString => if isspace c then EmptyString else String c EmptyString
      | r' => String c r'
      end
  end.

(** [s.strip()] *)
Definition strip (s : string) : string := rstrip (lstrip s).

(** [str.lower] on one code point: A..Z and the Latin-1 capitals
    0xC0..0xDE (the multiplication sign 0xD7 apart) move up by 32. *)
Definition lower_char (c : ascii) : ascii :=
  let n := nat_of_ascii c in
  if (Nat.leb 65 n && Nat.leb n 90)
     || (Nat.leb 192 n && Nat.leb n 222 && negb (Nat.eqb n 215))
  then ascii_of_nat (n + 32) else c.

(** [s.lower()] *)
Fixpoint lower (s : string) : string :=
  match s with
  | EmptyString => EmptyString
  | String c r => String (lower_char c) (lower r)
  end.

(** [bool(s)] for a [str]: the empty string is false. *)
Definition str_truthy (s : string) : bool :=
  match s with EmptyString => false | String _ _ => true end.

(** [s[:n]] *)
Definition slice_to (n : nat) (s : string) : string := substring 0 n s.

Definition newline : ascii := ascii_of_nat 10.

(** The pattern [\.0$] tried at the start of [s]: [Some rest] when it matches,
    with [rest] the text after the match.  Without [re.MULTILINE], [$]
    matches at the end of the string and just before a newline that ends it. *)
Definition match_dot0_end (s : string) : option string :=
  match s with
  | String c1 (String c2 rest) =>
      if Ascii.eqb c1 "." && Ascii.eqb c2 "0"
      then match rest with
           | EmptyString => Some rest
           | String c EmptyString => if Ascii.eqb c newline then Some rest else None
           | _ => None
           end
      else None
  | _ => None
  end.

(** [re.sub(r'\.0$', '', s)]: scan left to right; at a match emit the empty
    replacement and go on after it, otherwise copy one character.  After a
    match only the empty string or the final newline is left, where the
    pattern cannot match again. *)
Fixpoint re_sub_dot0 (s : string) : string :=
  match s with
  | EmptyString => EmptyString
  | String c r =>
      match match_dot0_end s with
      | Some rest => rest
      | None => String c (re_sub_dot0 r)
      end
  end.

(** [str(n)] for an [int]. *)
Definition str_of_int (n : Z) : string := NilZero.string_of_int (Z.to_int n).

(** The scalar values a DataFrame cell holds after [pandas.read_excel]. *)
Inductive cell : Type :=
| CNone                      (* None *)
| CNaN                       (* float('nan') *)
| CNaT                       (* pandas.NaT *)
| CNA                        (* pandas.NA *)
| CBool (b : bool)
| CInt (n : Z)
| CFloat (repr : string)     (* a float that is not NaN, named by its repr *)
| CStr (s : string)
| CDate (text : string).     (* a date, datetime or Timestamp, named by its str *)

(** [str(value)] *)
Definition str (v : cell) : string :=
  match v with
  | CNone => "None"
  | CNaN => "nan"
  | CNaT => "NaT"
  | CNA => "<NA>"
  | CBool true => "True"
  | CBool false => "False"
  | CInt n => str_of_int n
  | CFloat r => r
  | CStr s => s
  | CDate t => t
  end.

(** [pandas.isna(value)] on a scalar. *)
Definition isna (v : cell) : bool :=
  match v with
  | CNone | CNaN | CNaT | CNA => true
  | _ => false
  end.

(** [value is None] *)
Definition is_none (v : cell) : bool :=
  match v with CNone => true | _ => false end.

(** [bool(value)]; [None] stands for the TypeError that [bool(pandas.NA)]
    raises. *)
Definition truthy (v : cell) : option bool :=
  match v with
  | CNone => Some false
  | CNaN => Some true
  | CNaT => Some true
  | CNA => None
  | CBool b => Some b
  | CInt n => Some (negb (Z.eqb n 0))
  | CFloat r => Some (negb (String.eqb r "0.0" || String.eqb r "-0.0"))
  | CStr s => Some (str_truthy s)
  | CDate _ => Some true
  end.

(** A number as pandas and [float] hand it back: an [int], a float named by
    its repr, or NaN. *)
Inductive num : Type :=
| NInt (n : Z)
| NFloat (repr : string)
| NNaN.

Definition cell_of_num (x : num) : cell :=
  match x with
  | NInt n => CInt n
  | NFloat r => CFloat r
  | NNaN => CNaN
  end.

(** What the runtime computes on floats and is left open here. *)
Record numerics : Type := {
  (* repr(float(n)) of an int *)
  float_of_int : Z -> string;
  (* int(x) of the float with this repr, by truncation; None for an infinity *)
  int_of_float : string -> option Z;
  (* float(s) of a str; None for the ValueError *)
  float_of_str : string -> option num;
  (* the number pandas.to_numeric reads in a str; None when it reads none *)
  numeric_of_str : string -> option num
}.

(** A number as a float: [float(x)]. *)
Definition as_float (N : numerics) (x : num) : cell :=
  match x with
  | NInt n => CFloat (float_of_int N n)
  | NFloat r => CFloat r
  | NNaN => CNaN
  end.

(** [float(value)]; [None] stands for the TypeError or ValueError raised. *)
Definition float (N : numerics) (v : cell) : option cell :=
  match v with
  | CNaN => Some CNaN
  | CFloat r => Some (CFloat r)
  | CInt n => Some (CFloat (float_of_int N n))
  | CBool b => Some (CFloat (if b then "1.0" else "0.0"))
  | CStr s => option_map (as_float N) (float_of_str N s)
  | CNone | CNaT | CNA | CDate _ => None
  end.

(** [repr(s)] of a [str]: double quotes when the text holds a single quote
    and no double quote, single quotes otherwise; the quote and the backslash
    are escaped, TAB, LF and CR are written as letters, and every other code
    point that is not printable as [\xhh]. *)
Definition dquote : ascii := ascii_of_nat 34.
Definition squote : ascii := ascii_of_nat 39.
Definition backslash : ascii := ascii_of_nat 92.

Definition printable (c : ascii) : bool :=
  let n := nat_of_ascii c in
  (Nat.leb 32 n && Nat.leb n 126) || (Nat.leb 161 n && negb (Nat.eqb n 173)).

Definition hex_digit (n : nat) : ascii :=
  nth n (list_ascii_of_string "0123456789abcdef") "0"%char.

Fixpoint contains (c : ascii) (s : string) : bool :=
  match s with
  | EmptyString => false
  | String d r => Ascii.eqb c d || contains c r
  end.

Definition repr_char (quote c : ascii) : string :=
  let n := nat_of_ascii c in
  if Ascii.eqb c quote || Ascii.eqb c backslash
  then String backslash (String c EmptyString)
  else if Nat.eqb n 9 then String backslash "t"
  else if Nat.eqb n 10 then String backslash "n"
  else if Nat.eqb n 13 then String backslash "r"
  else if printable c then String c EmptyString
  else String backslash
         (String "x" (String (hex_digit (n / 16))
                        (String (hex_digit (n mod 16)) EmptyString))).

Fixpoint repr_body (quote : ascii) (s : string) : string :=
  match s with
  | EmptyString => EmptyString
  | String c r => repr_char quote c ++ repr_body quote r
  end.

Definition repr_str (s : string) : string :=
  let quote := if contains squote s && negb (contains dquote s)
               then dquote else squote in
  String quote (repr_body quote s ++ String quote EmptyString).

(** The objects a record tuple holds: a scalar, or the list of brand names. *)
Inductive pyobj : Type :=
| Scalar (c : cell)
| StrList (items : list string).

(** [str(x)] of a tuple element; a list shows the repr of its items. *)
Definition obj_str (x : pyobj) : string :=
  match x with
  | Scalar c => str c
  | StrList l => "[" ++ String.concat ", " (map repr_str l) ++ "]"
  end.

Definition obj_is_none (x : pyobj) : bool :=
  match x with Scalar c => is_none c | StrList _ => false end.

Definition obj_truthy (x : pyobj) : option bool :=
  match x with
  | Scalar c => truthy c
  | StrList l => Some (match l with [] => false | _ => true end)
  end.

Definition obj_float (N : numerics) (x : pyobj) : option cell :=
  match x with
  | Scalar c => float N c
  | StrList _ => None
  end.

(** A record tuple, and [t[i]]. *)
Definition tuple : Type := list pyobj.

Definition item (t : tuple) (i : nat) : option pyobj := nth_error t i.

End Py.

(** ** pandas: rows, columns and the column operations of the scripts *)
Module Pandas.
Import Py.

(** A row as [DataFrame.iterrows] yields it: labels with their values. *)
Definition series : Type := list (string * cell).

(** [row[label]]; [None] stands for the KeyError. *)
Fixpoint get (r : series) (label : string) : option cell :=
  match r with
  | [] => None
  | (k, v) :: rest => if String.eqb k label then Some v else get rest label
  end.

(** [pandas.to_numeric(column, errors='coerce')] on one cell of a column
    that holds Python objects: numbers stay, a bool counts as 1 or 0, a
    missing value, an empty or unreadable str and every other object give
    NaN. *)
Definition to_numeric1 (N : numerics) (c : cell) : num :=
  match c with
  | CInt n => NInt n
  | CFloat r => NFloat r
  | CBool b => NInt (if b then 1 else 0)%Z
  | CStr s =>
      match s with
      | EmptyString => NNaN
      | _ => match numeric_of_str N s with Some x => x | None => NNaN end
      end
  | CNone | CNaN | CNaT | CNA | CDate _ => NNaN
  end.

Definition is_int (x : num) : bool :=
  match x with NInt _ => true | _ => false end.

Definition is_bool (c : cell) : bool :=
  match c with CBool _ => true | _ => false end.

(** A cell of a column of dates: a date or NaT. *)
Definition is_datetime (c : cell) : bool :=
  match c with CDate _ | CNaT => true | _ => false end.

(** The column, when it holds Python objects or numbers: a column of bools
    alone is numeric already and passes through; ints alone make an integer
    column; anything else makes a float64 column, where the ints become
    floats.  A column pandas holds as datetime64 (dates and NaT alone) is
    not covered: there [to_numeric] returns the int64 view of the
    timestamps, and the theorems on [to_numeric] leave such columns out. *)
Definition to_numeric (N : numerics) (col : list cell) : list cell :=
  if forallb is_bool col then col
  else
    let xs := map (to_numeric1 N) col in
    if forallb is_int xs then map cell_of_num xs else map (as_float N) xs.

(** [column.fillna(0)] on a numeric column: in a float64 column the fill
    value is the float 0.0. *)
Definition fillna0 (col : list cell) : list cell :=
  map (fun c => match c with CNaN => CFloat "0.0" | _ => c end) col.

(** An int as int64 holds it: outside the range it wraps around. *)
Definition wrap_int64 (n : Z) : Z :=
  ((n + 2 ^ 63) mod 2 ^ 64 - 2 ^ 63)%Z.

(** [astype(int)] on one cell of a numeric column; [None] stands for the
    error raised on a value that is not finite.  The result is an int64: an
    int beyond its range (held in a uint64 column) wraps around. *)
Definition astype_int1 (N : numerics) (c : cell) : option Z :=
  match c with
  | CInt n => Some (wrap_int64 n)
  | CBool b => Some (if b then 1 else 0)%Z
  | CFloat r => int_of_float N r
  | _ => None
  end.

Fixpoint astype_int (N : numerics) (col : list cell) : option (list Z) :=
  match col with
  | [] => Some []
  | c :: rest =>
      match astype_int1 N c, astype_int N rest with
      | Some n, Some ns => Some (n :: ns)
      | _, _ => None
      end
  end.

(** The dtype inference that [Series.apply] runs on the collected results
    ([convert_dtype=True], the default).  Results that are all [None], int,
    float or NaN and hold a float, a NaN, or a [None] beside an int come back
    as a float64 column: [None] is stored as NaN and an int as a float.
    Every other list of results is stored as it is; this is the inference
    of pandas up to 2.x.  pandas 3 stores results that are all str or [None]
    as a str column with NaN for [None], which is not modelled: the theorems
    use this definition on results that hold a float, and on a text column
    only where [fillna] follows and leaves the same texts either way. *)
Definition plain_number (c : cell) : bool :=
  match c with CNone | CNaN | CInt _ | CFloat _ => true | _ => false end.

Definition is_floating (c : cell) : bool :=
  match c with CNaN | CFloat _ => true | _ => false end.

Definition is_integer (c : cell) : bool :=
  match c with CInt _ => true | _ => false end.

Definition store_float64 (N : numerics) (c : cell) : cell :=
  match c with
  | CNone => CNaN
  | CInt n => CFloat (float_of_int N n)
  | _ => c
  end.

Definition maybe_convert_objects (N : numerics) (results : list cell) : list cell :=
  if forallb plain_number results
     && (existsb is_floating results
         || (existsb is_none results && existsb is_integer results))
  then map (store_float64 N) results
  else results.

(** [column.apply(f)] *)
Definition apply (N : numerics) (f : cell -> cell) (col : list cell) : list cell :=
  maybe_convert_objects N (map f col).

End Pandas.

(** ** psycopg2: one connection, its transaction and the table behind it *)
Module Pg.
Import Py.

(** The exceptions the scripts tell apart: [psycopg2.Error] (with its
    subclasses) and every other [Exception]. *)
Inductive exn : Type := DbError | OtherError.

(** An HTTP request as [requests.put(url, headers=..., data=...)] sends it.
    A form value is a text, or the [json.dumps] of a list of floats or of a
    dict. *)
Inductive form_value : Type :=
| Text (s : string)
| JsonFloats (xs : list cell)
| JsonDict (members : list (string * pyobj)).

Record request : Type := {
  url : string;
  headers : list (string * string);
  data : list (string * form_value)
}.

(** What the HTTP call comes back with: a status code and body, or an
    exception of [requests]. *)
Inductive response : Type :=
| Status (code : nat) (text : string)
| Failure.

(** What a run does to the outside, in order. *)
Inductive event : Type :=
| Connect (ok : bool)
| SetAutocommit (b : bool)
| Execute (page : list tuple) (ok : bool)
| Commit (ok : bool)
| Rollback
| Close
| Put (i : nat) (req : request).

(** The table and the session of the script.  [table] holds the rows every
    session sees; [staged] the rows written in the open transaction. *)
Record world : Type := {
  table : list tuple;
  staged : list tuple;
  connected : bool;
  autocommit : bool;
  log : list event
}.

(** What the outside decides: whether [connect] fails, which page of the
    batch fails, whether [commit] fails, and each with which exception. *)
Record env : Type := {
  connect_error : option exn;
  execute_error : nat -> option exn;
  commit_error : option exn
}.

Definition record (ev : event) (w : world) : world :=
  {| table := table w; staged := staged w; connected := connected w;
     autocommit := autocommit w; log := log w ++ [ev] |}.

(** [psycopg2.connect(db_url)]: a new session starts with autocommit off and
    nothing staged. *)
Definition connect (e : env) (w : world) : world * option exn :=
  match connect_error e with
  | Some x => (record (Connect false) w, Some x)
  | None =>
      (record (Connect true)
         {| table := table w; staged := []; connected := true;
            autocommit := false; log := log w |}, None)
  end.

(** [conn.autocommit = b] *)
Definition set_autocommit (b : bool) (w : world) : world :=
  record (SetAutocommit b)
    {| table := table w; staged := staged w; connected := connected w;
       autocommit := b; log := log w |}.

(** The rows of one executed page: with autocommit on they are in the table
    at once, otherwise they wait in the transaction. *)
Definition write (page : list tuple) (w : world) : world :=
  if autocommit w
  then {| table := table w ++ page; staged := staged w; connected := connected w;
          autocommit := autocommit w; log := log w |}
  else {| table := table w; staged := staged w ++ page; connected := connected w;
          autocommit := autocommit w; log := log w |}.

(** [conn.commit()] *)
Definition commit (e : env) (w : world) : world * option exn :=
  match commit_error e with
  | Some x => (record (Commit false) w, Some x)
  | None =>
      (record (Commit true)
         {| table := table w ++ staged w; staged := []; connected := connected w;
            autocommit := autocommit w; log := log w |}, None)
  end.

(** [conn.rollback()], as an event and its effect on the transaction.  The
    call itself is taken to return; what is stated of a run after a rollback
    concerns the table and the log, which are the same when it raises. *)
Definition rollback (w : world) : world :=
  record Rollback
    {| table := table w; staged := []; connected := connected w;
       autocommit := autocommit w; log := log w |}.

(** [conn.close()]: what was not committed is lost. *)
Definition close (w : world) : world :=
  record Close
    {| table := table w; staged := []; connected := false;
       autocommit := autocommit w; log := log w |}.

(** [extras._paginate]: pages of [page_size] items, the last one possibly
    shorter ([page_size] is 100 or 500 in the scripts). [room] counts the free places of the page being filled and
    [page] holds it in reverse. *)
Fixpoint paginate_from {A : Type} (page_size room : nat) (page : list A)
    (seq : list A) : list (list A) :=
  match seq with
  | [] => match page with [] => [] | _ => [rev page] end
  | x :: rest =>
      match room with
      | O => rev page :: paginate_from page_size (page_size - 1) [x] rest
      | S room' => paginate_from page_size room' (x :: page) rest
      end
  end.

Definition paginate {A : Type} (page_size : nat) (seq : list A) : list (list A) :=
  paginate_from page_size page_size [] seq.

(** The pages are sent one by one; the first that fails raises and the rest
    is not sent. *)
Fixpoint execute_pages (e : env) (k : nat) (pages : list (list tuple))
    (w : world) : world * option exn :=
  match pages with
  | [] => (w, None)
  | page :: rest =>
      match execute_error e k with
      | Some x => (record (Execute page false) w, Some x)
      | None => execute_pages e (S k) rest (write page (record (Execute page true) w))
      end
  end.

(** [extras.execute_batch(cursor, insert_query, argslist, page_size)] *)
Definition execute_batch (e : env) (page_size : nat) (argslist : list tuple)
    (w : world) : world * option exn :=
  execute_pages e 0 (paginate page_size argslist) w.

(** The default [page_size] of [execute_batch]. *)
Definition default_page_size : nat := 100.

End Pg.

(** ** Helpers shared by the script modules *)

(** A tuple display whose items may raise: the tuple exists when every item
    was computed. *)
Fixpoint sequence {A : Type} (items : list (option A)) : option (list A) :=
  match items with
  | [] => Some []
  | None :: _ => None
  | Some x :: rest =>
      match sequence rest with
      | Some xs => Some (x :: xs)
      | None => None
      end
  end.

(** The value [clean_value] leaves in a cell: [None] or a [str]. *)
Definition cell_of_text (r : option string) : Py.cell :=
  match r with
  | None => Py.CNone
  | Some s => Py.CStr s
  end.

(** [row[label]] as a tuple item. *)
Definition field (row : Pandas.series) (label : string) : option Py.pyobj :=
  option_map Py.Scalar (Pandas.get row label).

(** ** main.py *)
Module Main.
Import Py Pandas Pg.

Definition TARGET_COLUMNS : list string :=
  [ "id"; "user_id"; "type"; "parent_dealer_id"; "name"; "region"; "area"; "phone_no";
    "address"; "total_potential"; "best_potential"; "brand_selling"; "feedbacks";
    "remarks"; "pinCode"; "dateOfBirth"; "anniversaryDate"; "latitude"; "longitude";
    "verification_status"; "business_type"; "nameOfFirm"; "underSalesPromoterName";
    "gstin_no"; "pan_no" ].

Definition EXPECTED_COLUMNS : nat := List.length TARGET_COLUMNS.

(** The labels given to the 24 spreadsheet columns ([df.columns = ...]). *)
Definition DF_COLUMNS : list string :=
  [ "user_id"; "type"; "parent_dealer_id"; "name"; "region"; "area"; "phone_no";
    "address"; "total_potential"; "best_potential"; "brand_selling"; "feedbacks";
    "remarks"; "pinCode"; "dateOfBirth"; "anniversaryDate"; "latitude"; "longitude";
    "verificationStatus"; "business_type"; "nameOfFirm"; "underSalesPromoterName";
    "gstin_no"; "pan_no" ].

Definition clean_value (value : cell) : option string :=
  if isna value then None
  else
    let value_str := strip (str value) in
    if negb (str_truthy value_str) || String.eqb (lower value_str) "nan" then None
    else Some (re_sub_dot0 value_str).

(** [pd.to_numeric(df[col], errors='coerce').fillna(0).astype(int)];
    [None] stands for the error [astype] raises. *)
Definition numeric_col (N : numerics) (col : list cell) : option (list Z) :=
  astype_int N (fillna0 (to_numeric N col)).

(** [pd.to_numeric(df[col], errors='coerce')
       .apply(lambda x: None if pd.isna(x) else x)] *)
Definition numeric_float_col (N : numerics) (col : list cell) : list cell :=
  Pandas.apply N (fun x => if isna x then CNone else x) (to_numeric N col).

(** The brand cell as the loop formats it: [None], or a list of one name. *)
Definition brand_list_or_none (brand_selling_value : cell) : pyobj :=
  if isna brand_selling_value || is_none brand_selling_value
     || String.eqb (lower (strip (str brand_selling_value))) "nan"
  then Scalar CNone
  else StrList [strip (str brand_selling_value)].

(** The tuple display of the loop body; [uuid] is the text of the
    [uuid.uuid4()] drawn for the row.  [None] stands for a KeyError. *)
Definition data_tuple (uuid : string) (row : series) : option tuple :=
  match get row "brand_selling" with
  | None => None
  | Some brand_selling_value =>
      sequence
        [ Some (Scalar (CStr uuid));
          field row "user_id";
          field row "type";
          field row "parent_dealer_id";
          field row "name";
          field row "region";
          field row "area";
          field row "phone_no";
          field row "address";
          field row "total_potential";
          field row "best_potential";
          Some (brand_list_or_none brand_selling_value);
          field row "feedbacks";
          field row "remarks";
          field row "pinCode";
          field row "dateOfBirth";
          field row "anniversaryDate";
          field row "latitude";
          field row "longitude";
          field row "verificationStatus";
          field row "business_type";
          field row "nameOfFirm";
          field row "underSalesPromoterName";
          field row "gstin_no";
          field row "pan_no" ]
  end.

(** [for index, row in df.iterrows(): ...]: the tuple is appended unless its
    length differs from [EXPECTED_COLUMNS]. [uuid4 index] is the identifier
    drawn in the pass over the row at [index]. *)
Fixpoint assemble (uuid4 : nat -> string) (index : nat) (rows : list series)
    (records_to_insert : list tuple) : option (list tuple) :=
  match rows with
  | [] => Some records_to_insert
  | row :: rest =>
      match data_tuple (uuid4 index) row with
      | None => None
      | Some t =>
          if negb (Nat.eqb (List.length t) EXPECTED_COLUMNS)
          then assemble uuid4 (S index) rest records_to_insert
          else assemble uuid4 (S index) rest (records_to_insert ++ [t])
      end
  end.

Definition records (uuid4 : nat -> string) (df : list series) : option (list tuple) :=
  assemble uuid4 0 df [].

(** [insert_data_to_neon(data_to_insert, db_url)].  The result pairs the
    world after the call with the exception that leaves the function. *)
Definition insert_data_to_neon (e : env) (data_to_insert : list tuple)
    (w : world) : world * option exn :=
  (* try: *)
  let '(w1, conn, raised) :=
    match connect e w with
    | (w1, Some x) => (w1, false, Some x)
    | (w1, None) =>
        match execute_batch e default_page_size data_to_insert
                (set_autocommit false w1) with
        | (w2, Some x) => (w2, true, Some x)
        | (w2, None) => let '(w3, r) := commit e w2 in (w3, true, r)
        end
    end in
  (* except psycopg2.Error: ... except Exception: ... *)
  let w2 :=
    match raised with
    | Some DbError => if conn then rollback w1 else w1
    | Some OtherError => w1
    | None => w1
    end in
  (* finally: *)
  (if conn then close w2 else w2, None).

End Main.

(** ** tallyDealers.py *)
Module TallyDealers.
Import Py Pandas Pg.

Definition clean_value (value : cell) : option string :=
  if isna value then None
  else
    let val := strip (str value) in
    if String.eqb (lower val) "nan" || String.eqb val "" then None
    else Some (re_sub_dot0 val).

Definition clean_numeric (N : numerics) (value : cell) : cell :=
  if isna value then CNone
  else
    match float N value with
    | Some x => x
    | None => CNone
    end.

(** [insert_data_to_neon(data_to_insert, db_url)]: only [psycopg2.Error] is
    caught, any other exception leaves the function after the [finally]. *)
Definition insert_data_to_neon (e : env) (data_to_insert : list tuple)
    (w : world) : world * option exn :=
  let '(w1, conn, raised) :=
    match connect e w with
    | (w1, Some x) => (w1, false, Some x)
    | (w1, None) =>
        match execute_batch e 500 data_to_insert (set_autocommit false w1) with
        | (w2, Some x) => (w2, true, Some x)
        | (w2, None) => let '(w3, r) := commit e w2 in (w3, true, r)
        end
    end in
  let '(w2, escaping) :=
    match raised with
    | Some DbError => (if conn then rollback w1 else w1, None)
    | Some OtherError => (w1, Some OtherError)
    | None => (w1, None)
    end in
  (if conn then close w2 else w2, escaping).

End TallyDealers.

(** ** verifiedDealers.py *)
Module VerifiedDealers.
Import Py Pandas Pg.

Definition TARGET_COLUMNS : list string :=
  [ "dealer_code"; "dealer_category"; "is_subdealer"; "dealer_party_name"; "zone";
    "area"; "contact_no1"; "contact_no2"; "email"; "address"; "pin_code";
    "related_sp_name"; "owner_proprietor_name"; "nature_of_firm"; "gst_no"; "pan_no" ].

Definition EXPECTED_COLUMNS : nat := List.length TARGET_COLUMNS.

Definition clean_value (value : cell) : option string :=
  if isna value then None
  else
    let value_str := strip (str value) in
    if String.eqb (lower value_str) "nan" || String.eqb value_str "" then None
    else Some (re_sub_dot0 value_str).

(** [x in [a, b, c]] for strs. *)
Definition str_in (x : string) (l : list string) : bool :=
  existsb (String.eqb x) l.

Definition clean_boolean (value : cell) : option bool :=
  if isna value then None
  else
    let val := lower (strip (str value)) in
    if str_in val ["true"; "yes"; "1"] then Some true
    else if str_in val ["false"; "no"; "0"] then Some false
    else None.

Definition data_tuple (row : series) : option tuple :=
  sequence
    [ field row "dealer_code";
      field row "dealer_category";
      field row "is_subdealer";
      field row "dealer_party_name";
      field row "zone";
      field row "area";
      field row "contact_no1";
      field row "contact_no2";
      field row "email";
      field row "address";
      field row "pin_code";
      field row "related_sp_name";
      field row "owner_proprietor_name";
      field row "nature_of_firm";
      field row "gst_no";
      field row "pan_no" ].

Fixpoint assemble (rows : list series) (records_to_insert : list tuple)
    : option (list tuple) :=
  match rows with
  | [] => Some records_to_insert
  | row :: rest =>
      match data_tuple row with
      | None => None
      | Some t =>
          if Nat.eqb (List.length t) EXPECTED_COLUMNS
          then assemble rest (records_to_insert ++ [t])
          else assemble rest records_to_insert
      end
  end.

Definition records (df : list series) : option (list tuple) := assemble df [].

End VerifiedDealers.

(** ** mainWithRadar.py *)
Module MainWithRadar.
Import Py Pandas Pg.

Definition TARGET_COLUMNS : list string := Main.TARGET_COLUMNS.

Definition EXPECTED_COLUMNS : nat := List.length TARGET_COLUMNS.

Definition clean_value (value : cell) : option string :=
  if isna value then None
  else
    let value_str := strip (str value) in
    if negb (str_truthy value_str) || String.eqb (lower value_str) "nan" then None
    else Some (re_sub_dot0 value_str).

(** [pd.to_numeric(df[col], errors='coerce')
       .apply(lambda x: None if pd.isna(x) else x)] *)
Definition numeric_float_col (N : numerics) (col : list cell) : list cell :=
  Pandas.apply N (fun x => if isna x then CNone else x) (to_numeric N col).

(** How a call of [upsert_radar_geofence] ends: it returns a bool, or an
    exception leaves it. *)
Inductive outcome : Type :=
| Returned (b : bool)
| Raised.

(** A call with the request it sent, if it sent one. *)
Record attempt : Type := {
  sent : option request;
  result : outcome
}.

(** What [json.dumps] accepts among the values of the metadata. *)
Definition serializable (x : pyobj) : bool :=
  match x with
  | Scalar (CNaT | CNA | CDate _) => false
  | _ => true
  end.

(** The metadata dict after the comprehension that drops the [None] values.
    [user_truthy] is [bool(user_id)]. *)
Definition metadata_of (dealer_id user_id region area phone_no verification_status : pyobj)
    (user_truthy : bool) : list (string * pyobj) :=
  let metadata :=
    [ ("dealerId", Scalar (CStr (obj_str dealer_id)));
      ("userId", if user_truthy then Scalar (CStr (obj_str user_id)) else Scalar CNone);
      ("region", region);
      ("area", area);
      ("phoneNo", phone_no);
      ("verificationStatus", verification_status) ] in
  filter (fun kv => negb (obj_is_none (snd kv))) metadata.

(** [upsert_radar_geofence(dealer_data, secret_key)]; [respond] is what the
    Radar API answers to the request. *)
Definition upsert_radar_geofence (N : numerics) (respond : request -> response)
    (dealer_data : tuple) (secret_key : string) : attempt :=
  match item dealer_data 0, item dealer_data 1, item dealer_data 4,
        item dealer_data 5, item dealer_data 6, item dealer_data 7,
        item dealer_data 17, item dealer_data 18, item dealer_data 19 with
  | Some dealer_id, Some user_id, Some name, Some region, Some area,
    Some phone_no, Some latitude, Some longitude, Some verification_status =>
      if obj_is_none latitude || obj_is_none longitude
      then {| sent := None; result := Returned false |}
      else
        match obj_truthy user_id, obj_float N longitude, obj_float N latitude with
        | Some user_truthy, Some lng, Some lat =>
            let metadata :=
              metadata_of dealer_id user_id region area phone_no
                verification_status user_truthy in
            if forallb (fun kv => serializable (snd kv)) metadata
            then
              let req :=
                {| url := "https://api.radar.io/v1/geofences/dealer/dealer:"
                          ++ obj_str dealer_id;
                   headers :=
                     [ ("Authorization", secret_key);
                       ("Content-Type", "application/x-www-form-urlencoded") ];
                   data :=
                     [ ("description", Text (slice_to 120 (obj_str name)));
                       ("type", Text "circle");
                       ("coordinates", JsonFloats [lng; lat]);
                       ("radius", Text "50");
                       ("tag", Text "dealer");
                       ("externalId", Text ("dealer:" ++ obj_str dealer_id));
                       ("metadata", JsonDict metadata) ] |} in
              match respond req with
              | Status code _ =>
                  {| sent := Some req;
                     result := Returned (Nat.eqb code 200 || Nat.eqb code 201) |}
              | Failure => {| sent := Some req; result := Returned false |}
              end
            else {| sent := None; result := Raised |}
        | _, _, _ => {| sent := None; result := Raised |}
        end
  | _, _, _, _, _, _, _, _, _ => {| sent := None; result := Raised |}
  end.

(** [for i, record in enumerate(data_to_insert): ...]: one call per record,
    in order; an exception that leaves a call ends the loop.  The result
    carries [success_count]. *)
Fixpoint radar_import (N : numerics) (respond : nat -> request -> response)
    (radar_key : string) (i : nat) (remaining : list tuple) (success_count : nat)
    (w : world) : world * nat * option exn :=
  match remaining with
  | [] => (w, success_count, None)
  | rec :: rest =>
      let a := upsert_radar_geofence N (respond i) rec radar_key in
      let w' := match sent a with
                | Some req => record (Put i req) w
                | None => w
                end in
      match result a with
      | Raised => (w', success_count, Some OtherError)
      | Returned true => radar_import N respond radar_key (S i) rest (S success_count) w'
      | Returned false => radar_import N respond radar_key (S i) rest success_count w'
      end
  end.

(** [if radar_key:] for the value [os.getenv] gave. *)
Definition key_present (radar_key : option string) : bool :=
  match radar_key with
  | Some k => str_truthy k
  | None => false
  end.

(** [insert_data_to_neon(data_to_insert, db_url, radar_key)] *)
Definition insert_data_to_neon (N : numerics) (e : env)
    (respond : nat -> request -> response) (data_to_insert : list tuple)
    (radar_key : option string) (w : world) : world * option exn :=
  (* try: *)
  let '(w1, conn, raised) :=
    match connect e w with
    | (w1, Some x) => (w1, false, Some x)
    | (w1, None) =>
        match execute_batch e default_page_size data_to_insert
                (set_autocommit false w1) with
        | (w2, Some x) => (w2, true, Some x)
        | (w2, None) =>
            match commit e w2 with
            | (w3, Some x) => (w3, true, Some x)
            | (w3, None) =>
                match radar_key with
                | Some k =>
                    if str_truthy k
                    then let '(w4, _, r) := radar_import N respond k 0 data_to_insert 0 w3 in
                         (w4, true, r)
                    else (w3, true, None)
                | None => (w3, true, None)
                end
            end
        end
    end in
  (* except psycopg2.Error: ... except Exception: ... *)
  let w2 :=
    match raised with
    | Some DbError => if conn then rollback w1 else w1
    | Some OtherError => w1
    | None => w1
    end in
  (* finally: *)
  (if conn then close w2 else w2, None).

End MainWithRadar.

(** ** The vocabulary of the properties *)
Module Spec.
Import Py Pandas Pg.

(** [s] ends with [suffix]. *)
Definition ends_with (suffix s : string) : bool :=
  Nat.leb (String.length suffix) (String.length s)
  && String.eqb (substring (String.length s - String.length suffix)
                   (String.length suffix) s) suffix.

(** [s] with one trailing ".0" removed, if it has one. *)
Definition without_trailing_dot0 (s : string) : string :=
  if ends_with ".0" s then substring 0 (String.length s - 2) s else s.

(** The two texts are equal when case is ignored. *)
Definition equal_ignoring_case (a b : string) : Prop := lower a = lower b.

(** What a [clean_value] owes to a cell: [None] exactly for a missing value
    and for a text that is empty or "nan" once stripped, and otherwise the
    stripped text without one trailing ".0". *)
Definition clean_value_contract (clean : cell -> option string) (v : cell) : Prop :=
  (clean v = None <->
     isna v = true \/ strip (str v) = "" \/ equal_ignoring_case (strip (str v)) "nan")
  /\ (clean v = None \/ clean v = Some (without_trailing_dot0 (strip (str v)))).

(** The last character of a text. *)
Fixpoint last_char (s : string) : option ascii :=
  match s with
  | EmptyString => None
  | String c EmptyString => Some c
  | String _ r => last_char r
  end.

(** A result of [clean_value] that needs no more cleaning: it is not empty,
    is not "nan" in any case, does not end in white space and does not end
    in ".0". *)
Definition fully_clean (s : string) : Prop :=
  s <> ""
  /\ ~ equal_ignoring_case s "nan"
  /\ (forall c, last_char s = Some c -> isspace c = false)
  /\ ends_with ".0" s = false.

(** The world in which a script starts: the table holds [rows], no session
    is open and nothing has happened yet. *)
Definition initial (rows : list tuple) : world :=
  {| table := rows; staged := []; connected := false; autocommit := false;
     log := [] |}.

(** The first exception among the pages [k], [k+1], ... (there are [n]). *)
Fixpoint first_page_error (e : env) (k n : nat) : option exn :=
  match n with
  | O => None
  | S n' =>
      match execute_error e k with
      | Some x => Some x
      | None => first_page_error e (S k) n'
      end
  end.

(** The first exception of a run that connects, sends [n] pages and commits. *)
Definition first_error (e : env) (n : nat) : option exn :=
  match connect_error e with
  | Some x => Some x
  | None =>
      match first_page_error e 0 n with
      | Some x => Some x
      | None => commit_error e
      end
  end.

Definition is_execute (ev : event) : bool :=
  match ev with Execute _ _ => true | _ => false end.

Definition is_put (ev : event) : bool :=
  match ev with Put _ _ => true | _ => false end.

Definition is_put_at (i : nat) (ev : event) : bool :=
  match ev with Put j _ => Nat.eqb i j | _ => false end.

Definition is_connect (ev : event) : bool :=
  match ev with Connect _ => true | _ => false end.

Definition is_commit (ev : event) : bool :=
  match ev with Commit _ => true | _ => false end.

Definition is_commit_ok (ev : event) : bool :=
  match ev with Commit true => true | _ => false end.

Definition is_rollback (ev : event) : bool :=
  match ev with Rollback => true | _ => false end.

Definition is_close (ev : event) : bool :=
  match ev with Close => true | _ => false end.

Definition is_autocommit_off (ev : event) : bool :=
  match ev with SetAutocommit false => true | _ => false end.

Definition is_autocommit_on (ev : event) : bool :=
  match ev with SetAutocommit true => true | _ => false end.

(** The transaction ends at a commit, a rollback or the close. *)
Definition ends_transaction (ev : event) : bool :=
  match ev with Commit _ | Rollback | Close => true | _ => false end.

(** How often [p] holds in a log. *)
Definition count (p : event -> bool) (evs : list event) : nat :=
  List.length (filter p evs).

(** Every [b] event of the log comes after some [a] event. *)
Definition preceded_by (a b : event -> bool) (evs : list event) : Prop :=
  forall pre ev post, evs = (pre ++ ev :: post)%list -> b ev = true -> existsb a pre = true.

(** No [b] event of the log comes after an [a] event. *)
Definition never_after (a b : event -> bool) (evs : list event) : Prop :=
  forall pre ev post, evs = (pre ++ ev :: post)%list -> a ev = true -> existsb b post = false.

(** The two orderings as checks on a log; [seen] tells whether an [a] event
    came before the part at hand. *)
Fixpoint preceded_byb (a b : event -> bool) (seen : bool) (evs : list event) : bool :=
  match evs with
  | [] => true
  | ev :: rest =>
      (if b ev then seen else true) && preceded_byb a b (seen || a ev) rest
  end.

Fixpoint never_afterb (a b : event -> bool) (evs : list event) : bool :=
  match evs with
  | [] => true
  | ev :: rest =>
      (if a ev then negb (existsb b rest) else true) && never_afterb a b rest
  end.

(** The pages a log shows as sent, in order. *)
Fixpoint pages_sent (evs : list event) : list (list tuple) :=
  match evs with
  | [] => []
  | Execute page _ :: rest => page :: pages_sent rest
  | _ :: rest => pages_sent rest
  end.

(** The [try] block the four [insert_data_to_neon] share up to the commit:
    the world it leaves, whether [conn] was bound, and the exception raised. *)
Definition try_block (e : env) (page_size : nat) (data_to_insert : list tuple)
    (w : world) : world * bool * option exn :=
  match connect e w with
  | (w1, Some x) => (w1, false, Some x)
  | (w1, None) =>
      match execute_batch e page_size data_to_insert (set_autocommit false w1) with
      | (w2, Some x) => (w2, true, Some x)
      | (w2, None) => let '(w3, r) := commit e w2 in (w3, true, r)
      end
  end.

(** What a run of [insert_data_to_neon] owes to the table.  The run starts
    from the table [rows], sends [data] in pages of [page_size] and ends in
    the world [w'].
    - The table ends as [rows ++ data] when nothing failed and as [rows]
      otherwise; nothing stays staged and no session stays open.
    - Autocommit is switched off before the first page is sent and is never
      switched on; no page is sent after the commit, the rollback or the
      close, and there is at most one commit.
    - After a database error on an open connection the transaction is
      rolled back, and a connection that was opened is closed. *)
Definition atomic_insert (page_size : nat) (e : env) (rows data : list tuple)
    (w' : world) : Prop :=
  let failure := first_error e (List.length (paginate page_size data)) in
  table w' = match failure with
             | None => (rows ++ data)%list
             | Some _ => rows
             end
  /\ staged w' = []
  /\ connected w' = false
  /\ preceded_by is_autocommit_off is_execute (log w')
  /\ count is_autocommit_on (log w') = 0
  /\ never_after ends_transaction is_execute (log w')
  /\ count is_commit (log w') <= 1
  /\ (connect_error e = None -> failure = Some DbError -> In Rollback (log w'))
  /\ (connect_error e = None -> In Close (log w')).

(** What a run of mainWithRadar.py owes to the geofencing API.  The run
    ends in the world [w'].
    - Every PUT comes after a successful commit; when a PUT was sent the key
      is present, nothing failed in the insert and the table holds the batch.
    - The record at an index gets at most one PUT, and a PUT at index [i] is
      the request [upsert_radar_geofence] sends for the record [i].
    - Nothing is tried twice: one connect, at most one commit, and the pages
      sent are the first pages of the batch, each once and in order. *)
Definition radar_after_commit (N : numerics) (e : env)
    (respond : nat -> request -> response) (rows data : list tuple)
    (radar_key : option string) (w' : world) : Prop :=
  preceded_by is_commit_ok is_put (log w')
  /\ (existsb is_put (log w') = true ->
        MainWithRadar.key_present radar_key = true
        /\ first_error e (List.length (paginate default_page_size data)) = None
        /\ table w' = (rows ++ data)%list)
  /\ (forall i, count (is_put_at i) (log w') <= 1)
  /\ (forall i req, In (Put i req) (log w') ->
        exists t k, nth_error data i = Some t /\ radar_key = Some k
                    /\ MainWithRadar.sent (MainWithRadar.upsert_radar_geofence N (respond i) t k)
                       = Some req)
  /\ count is_connect (log w') = 1
  /\ count is_commit (log w') <= 1
  /\ (exists rest, (pages_sent (log w') ++ rest)%list = paginate default_page_size data).

(** [t[i]] for the index [i] of [label] in a column list. *)
Fixpoint index_of (label : string) (columns : list string) : option nat :=
  match columns with
  | [] => None
  | c :: rest =>
      if String.eqb c label then Some 0 else option_map S (index_of label rest)
  end.

Definition column (columns : list string) (t : tuple) (label : string) : option pyobj :=
  match index_of label columns with
  | Some i => item t i
  | None => None
  end.

(** The value of a form field of a request. *)
Fixpoint form_field (label : string) (form : list (string * form_value))
    : option form_value :=
  match form with
  | [] => None
  | (k, v) :: rest => if String.eqb k label then Some v else form_field label rest
  end.

(** The row carries every label of [labels]. *)
Definition has_columns (labels : list string) (row : series) : bool :=
  forallb (fun c => match get row c with Some _ => true | None => false end) labels.

(** Where the loop of main.py takes the item of a target column from: the
    identifier is drawn, the brand cell is formatted, and the verification
    status is the column labelled "verificationStatus". *)
Definition main_source (uuid : string) (row : series) (target : string)
    : option pyobj :=
  if String.eqb target "id" then Some (Scalar (CStr uuid))
  else if String.eqb target "brand_selling"
  then option_map Main.brand_list_or_none (get row "brand_selling")
  else if String.eqb target "verification_status" then field row "verificationStatus"
  else field row target.

(** [recs] holds one tuple per row of [df], in order; the tuple of row [i]
    has one item per column of [columns], and its item [k] is what [source]
    gives for the row and the column [k]. *)
Definition one_tuple_per_row (source : nat -> series -> string -> option pyobj)
    (columns : list string) (df : list series) (recs : list tuple) : Prop :=
  List.length recs = List.length df
  /\ forall i row, nth_error df i = Some row ->
       exists t, nth_error recs i = Some t
                 /\ List.length t = List.length columns
                 /\ forall k c, nth_error columns k = Some c ->
                      nth_error t k = source i row c.

(** A text or [None], as [clean_value] leaves it. *)
Definition text_or_none (x : pyobj) : bool :=
  match x with
  | Scalar (CStr _ | CNone) => true
  | _ => false
  end.

(** A coordinate as the numeric column holds it: [None] or a number. *)
Definition number_or_none (x : pyobj) : bool :=
  match x with
  | Scalar (CNone | CNaN | CInt _ | CFloat _) => true
  | _ => false
  end.

Definition is_int_obj (x : pyobj) : bool :=
  match x with Scalar (CInt _) => true | _ => false end.

Definition holds (p : pyobj -> bool) (x : option pyobj) : bool :=
  match x with Some v => p v | None => false end.

(** A dealer record as the main loop of mainWithRadar.py builds it: one item
    per target column, the identifier a text, [user_id] an int, the cleaned
    columns a text or [None], the coordinates a number or [None]. *)
Definition dealer_record (t : tuple) : bool :=
  Nat.eqb (List.length t) MainWithRadar.EXPECTED_COLUMNS
  && holds text_or_none (item t 0)
  && holds is_int_obj (item t 1)
  && holds text_or_none (item t 4)
  && holds text_or_none (item t 5)
  && holds text_or_none (item t 6)
  && holds text_or_none (item t 7)
  && holds number_or_none (item t 17)
  && holds number_or_none (item t 18)
  && holds text_or_none (item t 19).

(** A numerics for the examples: it covers the ints below 10^16 in absolute
    value, the floats written without an exponent, and reads only plain
    decimal ints in a str. *)
Definition int_part (r : string) : option Z :=
  match index 0 "." r with
  | Some k => option_map Z.of_int (NilZero.int_of_string (substring 0 k r))
  | None => None
  end.

Definition read_int (s : string) : option num :=
  option_map (fun i => NInt (Z.of_int i)) (NilZero.int_of_string s).

Definition plain_numerics : numerics :=
  {| float_of_int := fun n => str_of_int n ++ ".0";
     int_of_float := int_part;
     float_of_str := read_int;
     numeric_of_str := read_int |}.

(** A dealer record with coordinates and no user ([user_id] 0), the request
    [upsert_radar_geofence] sends for it with the key "prj_live_sk_1", and
    the same record without a latitude. *)
Definition example_dealer : tuple :=
  [ Scalar (CStr "6f1c2d3e-0a4b-4c5d-8e9f-001122334455");
    Scalar (CInt 0);
    Scalar (CStr "Dealer");
    Scalar CNone;
    Scalar (CStr "Hill View Traders");
    Scalar (CStr "Kamrup");
    Scalar (CStr "Guwahati");
    Scalar (CStr "9000000001");
    Scalar (CStr "12 Station Road");
    Scalar (CInt 120);
    Scalar (CInt 80);
    StrList ["Star Cement"];
    Scalar CNone;
    Scalar CNone;
    Scalar (CStr "781001");
    Scalar CNone;
    Scalar CNone;
    Scalar (CFloat "26.1445");
    Scalar (CFloat "91.7362");
    Scalar (CStr "VERIFIED");
    Scalar CNone;
    Scalar (CStr "Hill View Traders");
    Scalar CNone;
    Scalar CNone;
    Scalar CNone ].

Definition example_members : list (string * pyobj) :=
  [ ("dealerId", Scalar (CStr "6f1c2d3e-0a4b-4c5d-8e9f-001122334455"));
    ("region", Scalar (CStr "Kamrup"));
    ("area", Scalar (CStr "Guwahati"));
    ("phoneNo", Scalar (CStr "9000000001"));
    ("verificationStatus", Scalar (CStr "VERIFIED")) ].

Definition example_request : request :=
  {| url := "https://api.radar.io/v1/geofences/dealer/dealer:6f1c2d3e-0a4b-4c5d-8e9f-001122334455";
     headers := [ ("Authorization", "prj_live_sk_1");
                  ("Content-Type", "application/x-www-form-urlencoded") ];
     data := [ ("description", Text "Hill View Traders");
               ("type", Text "circle");
               ("coordinates", JsonFloats [CFloat "91.7362"; CFloat "26.1445"]);
               ("radius", Text "50");
               ("tag", Text "dealer");
               ("externalId", Text "dealer:6f1c2d3e-0a4b-4c5d-8e9f-001122334455");
               ("metadata", JsonDict example_members) ] |}.

Definition example_response (_ : request) : response := Status 200 "{}".

(** A cleaned row of main.py and one of verifiedDealers.py. *)
Definition example_main_row : series :=
  [ ("user_id", CInt 7); ("type", CStr "Dealer"); ("parent_dealer_id", CNone);
    ("name", CStr "Hill View Traders"); ("region", CStr "Kamrup");
    ("area", CStr "Guwahati"); ("phone_no", CStr "9000000001");
    ("address", CStr "12 Station Road"); ("total_potential", CInt 120);
    ("best_potential", CInt 80); ("brand_selling", CStr "Star Cement");
    ("feedbacks", CNone); ("remarks", CNone); ("pinCode", CStr "781001");
    ("dateOfBirth", CNone); ("anniversaryDate", CNone);
    ("latitude", CFloat "26.1445"); ("longitude", CFloat "91.7362");
    ("verificationStatus", CStr "VERIFIED"); ("business_type", CNone);
    ("nameOfFirm", CStr "Hill View Traders"); ("underSalesPromoterName", CNone);
    ("gstin_no", CNone); ("pan_no", CNone) ].

Definition example_verified_row : series :=
  [ ("dealer_code", CStr "D-001"); ("dealer_category", CStr "A");
    ("is_subdealer", CBool false); ("dealer_party_name", CStr "Hill View Traders");
    ("zone", CStr "East"); ("area", CStr "Guwahati");
    ("contact_no1", CStr "9000000001"); ("contact_no2", CNone);
    ("email", CNone); ("address", CStr "12 Station Road");
    ("pin_code", CStr "781001"); ("related_sp_name", CNone);
    ("owner_proprietor_name", CNone); ("nature_of_firm", CNone);
    ("gst_no", CNone); ("pan_no", CNone) ].

End Spec.

(** ** The statement text and the rest of main.py *)
Module MainScript.
Import Py Pandas Pg.

Definition TARGET_TABLE : string := "dealers".

(** [f'"{col}"'] *)
Definition quoted (col : string) : string :=
  String dquote (col ++ String dquote EmptyString).

(** [", ".join([f'"{col}"' for col in columns])] *)
Definition column_list (columns : list string) : string :=
  String.concat ", " (map quoted columns).

(** [', '.join(['%s'] * n)] *)
Definition placeholders (n : nat) : string :=
  String.concat ", " (repeat "%s" n).

(** [f"INSERT INTO {table} ({column_list}) VALUES ({placeholders})"], with
    one placeholder per column. *)
Definition insert_query (table : string) (columns : list string) : string :=
  "INSERT INTO " ++ table ++ " (" ++ column_list columns ++ ") VALUES ("
  ++ placeholders (List.length columns) ++ ")".

(** Section 3c on the cleaned rows: the loop, then the insert when there is
    a record.  A KeyError of the loop is caught by the [except] of the
    block; nothing was opened by then. *)
Definition load (uuid4 : nat -> string) (df : list series) (e : env)
    (w : world) : world :=
  match Main.records uuid4 df with
  | None => w
  | Some [] => w
  | Some records_to_insert => fst (Main.insert_data_to_neon e records_to_insert w)
  end.

(** The block after [load_dotenv()]: without a [DATABASE_URL] the script
    exits at once. *)
Definition run (db_url : option string) (uuid4 : nat -> string) (df : list series)
    (e : env) (w : world) : world :=
  match db_url with
  | None => w
  | Some url => if str_truthy url then load uuid4 df e w else w
  end.

End MainScript.

(** ** The rest of mainWithRadar.py *)
Module RadarScript.
Import Py Pandas Pg.

(** [column.fillna('')] on a column of objects. *)
Definition fillna_empty (col : list cell) : list cell :=
  map (fun c => if isna c then CStr "" else c) col.

(** [df['phone_no'].apply(clean_value)] followed by [.fillna('')]. *)
Definition phone_col (N : numerics) (col : list cell) : list cell :=
  fillna_empty
    (Pandas.apply N (fun v => cell_of_text (MainWithRadar.clean_value v)) col).

Definition brand_list_or_none (brand_selling_value : cell) : pyobj :=
  if isna brand_selling_value || is_none brand_selling_value
     || String.eqb (lower (strip (str brand_selling_value))) "nan"
  then Scalar CNone
  else StrList [strip (str brand_selling_value)].

Definition data_tuple (new_dealer_uuid : string) (row : series) : option tuple :=
  match get row "brand_selling" with
  | None => None
  | Some brand_selling_value =>
      sequence
        [ Some (Scalar (CStr new_dealer_uuid));
          field row "user_id";
          field row "type";
          field row "parent_dealer_id";
          field row "name";
          field row "region";
          field row "area";
          field row "phone_no";
          field row "address";
          field row "total_potential";
          field row "best_potential";
          Some (brand_list_or_none brand_selling_value);
          field row "feedbacks";
          field row "remarks";
          field row "pinCode";
          field row "dateOfBirth";
          field row "anniversaryDate";
          field row "latitude";
          field row "longitude";
          field row "verificationStatus";
          field row "business_type";
          field row "nameOfFirm";
          field row "underSalesPromoterName";
          field row "gstin_no";
          field row "pan_no" ]
  end.

Fixpoint assemble (uuid4 : nat -> string) (index : nat) (rows : list series)
    (records_to_insert : list tuple) : option (list tuple) :=
  match rows with
  | [] => Some records_to_insert
  | row :: rest =>
      match data_tuple (uuid4 index) row with
      | None => None
      | Some t =>
          if negb (Nat.eqb (List.length t) MainWithRadar.EXPECTED_COLUMNS)
          then assemble uuid4 (S index) rest records_to_insert
          else assemble uuid4 (S index) rest (records_to_insert ++ [t])
      end
  end.

Definition records (uuid4 : nat -> string) (df : list series) : option (list tuple) :=
  assemble uuid4 0 df [].

(** Section 3c: the loop, then the insert with the Radar import. *)
Definition load (N : numerics) (uuid4 : nat -> string) (df : list series) (e : env)
    (respond : nat -> request -> response) (radar_key : option string)
    (w : world) : world :=
  match records uuid4 df with
  | None => w
  | Some [] => w
  | Some records_to_insert =>
      fst (MainWithRadar.insert_data_to_neon N e respond records_to_insert
             radar_key w)
  end.

(** The [success_count] the import prints. *)
Definition success_count (N : numerics) (respond : nat -> request -> response)
    (radar_key : string) (data_to_insert : list tuple) (w : world) : nat :=
  snd (fst (MainWithRadar.radar_import N respond radar_key 0 data_to_insert 0 w)).

End RadarScript.

(** ** The rest of tallyDealers.py *)
Module TallyScript.
Import Py Pandas Pg.

Definition TARGET_COLUMNS : list string :=
  [ "institution"; "name"; "alias";
    "address1"; "address2"; "address3"; "address4"; "address5";
    "bill_wise_details"; "phone"; "mobile"; "email";
    "group1"; "group2"; "group3"; "group4";
    "pan"; "tin"; "cst"; "cr_limit";
    "contact_person"; "state"; "pincode";
    "gst_reg_type"; "gst_no";
    "list_of_ledger"; "sd_ledger";
    "salesman_name"; "sales_promoter"; "security_blank_check_no";
    "destination"; "district"; "zone" ].

Definition EXPECTED_COLUMNS : nat := List.length TARGET_COLUMNS.

(** [df["cr_limit"].apply(clean_numeric)] *)
Definition cr_limit_col (N : numerics) (col : list cell) : list cell :=
  Pandas.apply N (TallyDealers.clean_numeric N) col.

(** [row.get(col)]: [None] for a label the row lacks. *)
Definition row_get (row : series) (col : string) : cell :=
  match get row col with
  | Some v => v
  | None => CNone
  end.

(** [tuple(row.get(col) for col in TARGET_COLUMNS)] *)
Definition data_tuple (row : series) : tuple :=
  map (fun col => Scalar (row_get row col)) TARGET_COLUMNS.

Fixpoint assemble (rows : list series) (records_to_insert : list tuple)
    : list tuple :=
  match rows with
  | [] => records_to_insert
  | row :: rest =>
      if Nat.eqb (List.length (data_tuple row)) EXPECTED_COLUMNS
      then assemble rest (records_to_insert ++ [data_tuple row])
      else assemble rest records_to_insert
  end.

Definition records (df : list series) : list tuple := assemble df [].

(** The end of the script: the insert when there is a record.  The result
    carries the exception that ends the script, if one does. *)
Definition load (df : list series) (e : env) (w : world) : world * option exn :=
  match records df with
  | [] => (w, None)
  | records_to_insert => TallyDealers.insert_data_to_neon e records_to_insert w
  end.

End TallyScript.

(** ** The rest of verifiedDealers.py *)
Module VerifiedScript.
Import Py Pandas Pg.

(** [insert_data_to_neon(data_to_insert, db_url)]: only [psycopg2.Error] is
    caught. *)
Definition insert_data_to_neon (e : env) (data_to_insert : list tuple)
    (w : world) : world * option exn :=
  let '(w1, conn, raised) :=
    match connect e w with
    | (w1, Some x) => (w1, false, Some x)
    | (w1, None) =>
        match execute_batch e default_page_size data_to_insert
                (set_autocommit false w1) with
        | (w2, Some x) => (w2, true, Some x)
        | (w2, None) => let '(w3, r) := commit e w2 in (w3, true, r)
        end
    end in
  let '(w2, escaping) :=
    match raised with
    | Some DbError => (if conn then rollback w1 else w1, None)
    | Some OtherError => (w1, Some OtherError)
    | None => (w1, None)
    end in
  (if conn then close w2 else w2, escaping).

(** The end of the script.  A KeyError of the loop ends the script before
    anything is opened. *)
Definition load (df : list series) (e : env) (w : world) : world * option exn :=
  match VerifiedDealers.records df with
  | None => (w, Some OtherError)
  | Some [] => (w, None)
  | Some records_to_insert => insert_data_to_neon e records_to_insert w
  end.

End VerifiedScript.

(** ** More vocabulary *)
Module Props.
Import Py Pandas Pg Spec.

(** How often a character occurs in a text. *)
Fixpoint count_char (c : ascii) (s : string) : nat :=
  match s with
  | EmptyString => 0
  | String d r => (if Ascii.eqb c d then 1 else 0) + count_char c r
  end.

(** How often the placeholder [%s] occurs in a text. *)
Fixpoint count_placeholders (s : string) : nat :=
  match s with
  | EmptyString => 0
  | String c r =>
      match r with
      | String d _ => if Ascii.eqb "%" c && Ascii.eqb "s" d then 1 else 0
      | EmptyString => 0
      end + count_placeholders r
  end.

(** Every character of the text is white space. *)
Fixpoint blank (s : string) : bool :=
  match s with
  | EmptyString => true
  | String c r => isspace c && blank r
  end.

(** A character of a decimal numeral: a digit or the minus sign. *)
Definition numeral_char (c : ascii) : bool :=
  let n := nat_of_ascii c in
  (Nat.leb 48 n && Nat.leb n 57) || Nat.eqb n 45.

Fixpoint numeral (s : string) : bool :=
  match s with
  | EmptyString => true
  | String c r => numeral_char c && numeral r
  end.

(** The records a log shows as sent, in order. *)
Definition sent_records (evs : list event) : list tuple :=
  concat (pages_sent evs).

(** The records a run sent are the first records of the batch, each once
    and in order; when the connection was opened and no page failed, they
    are the whole batch. *)
Definition sends_each_once (e : env) (page_size : nat) (data : list tuple)
    (w' : world) : Prop :=
  (exists rest, (sent_records (log w') ++ rest)%list = data)
  /\ (connect_error e = None ->
      first_page_error e 0 (List.length (paginate page_size data)) = None ->
      sent_records (log w') = data).

(** The run rolls back: the connection was opened and the first failure of
    the insert is a database error. *)
Definition rolled_back (page_size : nat) (e : env) (data : list tuple) : bool :=
  match connect_error e, first_error e (List.length (paginate page_size data)) with
  | None, Some DbError => true
  | _, _ => false
  end.

(** How a run of [insert_data_to_neon] ends, in the world [w'].
    - A connection that was opened is closed exactly once, and the close is
      the last thing the run does; without a connection there is no close
      and no rollback, only the failed connect.
    - There is exactly one rollback when the run rolls back and none
      otherwise; it comes after everything else and right before the
      close. *)
Definition orderly_end (page_size : nat) (e : env) (data : list tuple)
    (w' : world) : Prop :=
  count is_close (log w') = match connect_error e with None => 1 | Some _ => 0 end
  /\ count is_rollback (log w') = (if rolled_back page_size e data then 1 else 0)
  /\ (connect_error e = None ->
      exists before,
        log w' = (before ++ if rolled_back page_size e data
                            then [Rollback; Close] else [Close])%list)
  /\ (connect_error e <> None -> log w' = [Connect false]).

(** The record has both coordinates. *)
Definition has_coordinates (t : tuple) : bool :=
  match item t 17, item t 18 with
  | Some latitude, Some longitude =>
      negb (obj_is_none latitude) && negb (obj_is_none longitude)
  | _, _ => false
  end.

(** What [cr_limit] holds after the cleaning when the column has a number:
    the float of the cell, and NaN where [clean_numeric] gave [None]. *)
Definition cr_limit_stored (N : numerics) (c : cell) : cell :=
  match TallyDealers.clean_numeric N c with
  | CNone => CNaN
  | x => x
  end.

(** A row of tallyDealers.py that lacks the label "alias". *)
Definition example_tally_row : series :=
  [ ("institution", CStr "HQ"); ("name", CStr "Hill View Traders");
    ("cr_limit", CFloat "50000.0"); ("pincode", CStr "781001") ].

(** The created status of an answer: 200 or 201. *)
Definition created (r : Pg.response) : bool :=
  match r with
  | Pg.Status code _ => Nat.eqb code 200 || Nat.eqb code 201
  | Pg.Failure => false
  end.

End Props.

(* ================================================================== *)
(** * Part II: lemmas and theorems *)
(* ================================================================== *)

(** ** Texts: [strip], [lower] and the removal of a trailing ".0" *)
Section Texts.
Import Py Spec.

Lemma newline_isspace : isspace newline = true.
Proof. reflexivity. Qed.

Lemma last_char_cons (c : ascii) (r : string) :
  r <> EmptyString -> last_char (String c r) = last_char r.
Proof. destruct r; [congruence | reflexivity]. Qed.

Lemma rstrip_last_not_space (s : string) (c : ascii) :
  last_char (rstrip s) = Some c -> isspace c = false.
Proof.
  induction s as [|a r IH]; simpl; [discriminate|].
  destruct (rstrip r) as [|b r'] eqn:E.
  - destruct (isspace a) eqn:Ea; simpl; [discriminate|].
    intros H; injection H as <-; exact Ea.
  - intros H. apply IH. exact H.
Qed.

Lemma strip_last_not_space (s : string) (c : ascii) :
  last_char (strip s) = Some c -> isspace c = false.
Proof. apply rstrip_last_not_space. Qed.

Lemma strip_no_trailing_newline (s : string) :
  last_char (strip s) <> Some newline.
Proof.
  intros H. apply strip_last_not_space in H.
  rewrite newline_isspace in H. discriminate.
Qed.

(** [rstrip] leaves a text alone when its last character is no space. *)
Lemma rstrip_fixed (s : string) :
  (forall c, last_char s = Some c -> isspace c = false) -> rstrip s = s.
Proof.
  induction s as [|a r IH]; intros H; [reflexivity|].
  simpl. destruct r as [|b r'].
  - simpl. rewrite (H a eq_refl). reflexivity.
  - rewrite IH; [reflexivity|]. intros c Hc. apply H. exact Hc.
Qed.

Lemma rstrip_idempotent (s : string) : rstrip (rstrip s) = rstrip s.
Proof. apply rstrip_fixed. intros c. apply rstrip_last_not_space. Qed.

(** The first character of a text. *)
Lemma lstrip_head (s : string) (c : ascii) (r : string) :
  lstrip s = String c r -> isspace c = false.
Proof.
  induction s as [|a t IH]; simpl; [discriminate|].
  destruct (isspace a) eqn:Ea; [exact IH|].
  intros H; injection H as <- _; exact Ea.
Qed.

Lemma rstrip_head (s : string) (c : ascii) (r : string) :
  rstrip s = String c r -> exists r', s = String c r'.
Proof.
  destruct s as [|a t]; simpl; [discriminate|].
  destruct (rstrip t); [destruct (isspace a); [discriminate|]|];
    intros H; injection H as <- _; eauto.
Qed.

Lemma lstrip_fixed (s : string) :
  (forall c r, s = String c r -> isspace c = false) -> lstrip s = s.
Proof.
  destruct s as [|a t]; intros H; [reflexivity|].
  simpl. rewrite (H a t eq_refl). reflexivity.
Qed.

Lemma strip_idempotent (s : string) : strip (strip s) = strip s.
Proof.
  unfold strip at 1.
  rewrite lstrip_fixed.
  - apply rstrip_fixed. intros c. apply strip_last_not_space.
  - intros c r H. unfold strip in H.
    destruct (rstrip_head _ _ _ H) as [r' Hr'].
    exact (lstrip_head _ _ _ Hr').
Qed.

Lemma length_append (p q : string) :
  String.length (p ++ q) = String.length p + String.length q.
Proof. induction p; simpl; congruence. Qed.

Lemma append_empty_r (p : string) : p ++ "" = p.
Proof. induction p; simpl; congruence. Qed.

Lemma substring_0_append (p q : string) :
  substring 0 (String.length p) (p ++ q) = p.
Proof.
  induction p as [|c p IH]; simpl.
  - destruct q; reflexivity.
  - rewrite IH. reflexivity.
Qed.

Lemma substring_skip_append (p q : string) (n : nat) :
  substring (String.length p) n (p ++ q) = substring 0 n q.
Proof. induction p as [|c p IH]; simpl; [reflexivity | exact IH]. Qed.

Lemma substring_0_all (s : string) : substring 0 (String.length s) s = s.
Proof. induction s; simpl; congruence. Qed.

Lemma substring_split (s : string) (k : nat) :
  k <= String.length s ->
  s = substring 0 k s ++ substring k (String.length s - k) s.
Proof.
  revert k. induction s as [|c s IH]; intros k Hk.
  - simpl in Hk. assert (k = 0) by lia. subst. reflexivity.
  - destruct k as [|k].
    + simpl. rewrite substring_0_all. reflexivity.
    + simpl. simpl in Hk. rewrite <- IH by lia. reflexivity.
Qed.

Lemma ends_with_dot0_iff (s : string) :
  ends_with ".0" s = true <-> exists p, s = p ++ ".0".
Proof.
  unfold ends_with. simpl String.length. split.
  - intros H. apply andb_true_iff in H as [Hlen Heq].
    apply Nat.leb_le in Hlen. apply String.eqb_eq in Heq.
    exists (substring 0 (String.length s - 2) s).
    assert (Hs := substring_split s (String.length s - 2) ltac:(lia)).
    replace (String.length s - (String.length s - 2)) with 2 in Hs by lia.
    rewrite Heq in Hs. exact Hs.
  - intros [p ->]. rewrite length_append. simpl String.length.
    apply andb_true_iff. split; [apply Nat.leb_le; lia|].
    replace (String.length p + 2 - 2) with (String.length p) by lia.
    rewrite substring_skip_append. reflexivity.
Qed.

Lemma without_trailing_dot0_append (p : string) :
  without_trailing_dot0 (p ++ ".0") = p.
Proof.
  unfold without_trailing_dot0.
  replace (ends_with ".0" (p ++ ".0")) with true
    by (symmetry; apply ends_with_dot0_iff; eauto).
  rewrite length_append. simpl String.length.
  replace (String.length p + 2 - 2) with (String.length p) by lia.
  apply substring_0_append.
Qed.

Lemma match_dot0_end_some (s rest : string) :
  match_dot0_end s = Some rest ->
  s = ".0" ++ rest /\ (rest = "" \/ rest = String newline "").
Proof.
  destruct s as [|c1 [|c2 r]]; simpl; try discriminate.
  destruct (Ascii.eqb c1 ".") eqn:E1; [|discriminate].
  destruct (Ascii.eqb c2 "0") eqn:E2; [|discriminate].
  apply Ascii.eqb_eq in E1, E2. subst. simpl.
  destruct r as [|c [|d r']]; try discriminate.
  - intros H; injection H as <-. auto.
  - destruct (Ascii.eqb c newline) eqn:E; [|discriminate].
    apply Ascii.eqb_eq in E. subst.
    intros H; injection H as <-. auto.
Qed.

Lemma match_dot0_end_inside (c : ascii) (p : string) :
  match_dot0_end (String c (p ++ ".0")) = None.
Proof.
  destruct (match_dot0_end (String c (p ++ ".0"))) as [rest|] eqn:E; [|reflexivity].
  exfalso. apply match_dot0_end_some in E as [E H].
  simpl in E. injection E as -> E.
  destruct p as [|a [|b p']]; simpl in E.
  - discriminate.
  - injection E as _ E. destruct H as [-> | ->]; discriminate.
  - injection E as _ E. destruct H as [-> | ->]; try discriminate.
    injection E as _ E. destruct p'; discriminate.
Qed.

Lemma re_sub_dot0_append (p : string) : re_sub_dot0 (p ++ ".0") = p.
Proof.
  induction p as [|c p IH]; [reflexivity|].
  change (String c p ++ ".0") with (String c (p ++ ".0")).
  cbn [re_sub_dot0]. rewrite match_dot0_end_inside, IH. reflexivity.
Qed.

Lemma re_sub_dot0_fixed (s : string) :
  ends_with ".0" s = false -> last_char s <> Some newline -> re_sub_dot0 s = s.
Proof.
  induction s as [|c r IH]; intros He Hl; [reflexivity|].
  cbn [re_sub_dot0].
  destruct (match_dot0_end (String c r)) as [rest|] eqn:E.
  - exfalso. apply match_dot0_end_some in E as [E [-> | ->]].
    + rewrite E in He. discriminate.
    + rewrite E in Hl. apply Hl. reflexivity.
  - f_equal. apply IH.
    + destruct (ends_with ".0" r) eqn:Er; [|reflexivity].
      apply ends_with_dot0_iff in Er as [p ->].
      assert (ends_with ".0" (String c (p ++ ".0")) = true) as Ht
        by (apply ends_with_dot0_iff; exists (String c p); reflexivity).
      congruence.
    + destruct r as [|a r']; [discriminate|].
      rewrite <- (last_char_cons c); [exact Hl | discriminate].
Qed.

(** On a text that does not end in a newline, the substitution removes one
    trailing ".0" and nothing else. *)
Lemma re_sub_dot0_spec (s : string) :
  last_char s <> Some newline -> re_sub_dot0 s = without_trailing_dot0 s.
Proof.
  intros Hl. destruct (ends_with ".0" s) eqn:E.
  - apply ends_with_dot0_iff in E as [p ->].
    rewrite re_sub_dot0_append, without_trailing_dot0_append. reflexivity.
  - unfold without_trailing_dot0. rewrite E. apply re_sub_dot0_fixed; assumption.
Qed.

End Texts.

(** ** [clean_value] and [clean_boolean] *)
Section Cleaning.
Import Py Spec.

Lemma not_truthy_is_empty (s : string) : negb (str_truthy s) = String.eqb s "".
Proof. destruct s; reflexivity. Qed.

(** The four scripts carry the same [clean_value]. *)
Lemma clean_value_tally (v : cell) : TallyDealers.clean_value v = Main.clean_value v.
Proof.
  unfold TallyDealers.clean_value, Main.clean_value.
  rewrite not_truthy_is_empty, orb_comm. reflexivity.
Qed.

Lemma clean_value_verified (v : cell) : VerifiedDealers.clean_value v = Main.clean_value v.
Proof.
  unfold VerifiedDealers.clean_value, Main.clean_value.
  rewrite not_truthy_is_empty, orb_comm. reflexivity.
Qed.

Lemma clean_value_radar (v : cell) : MainWithRadar.clean_value v = Main.clean_value v.
Proof. reflexivity. Qed.

Lemma clean_value_main_contract (v : cell) : clean_value_contract Main.clean_value v.
Proof.
  unfold clean_value_contract, Main.clean_value, equal_ignoring_case.
  rewrite not_truthy_is_empty.
  change (lower "nan") with "nan".
  destruct (isna v); [split; [split|]; auto|].
  destruct (String.eqb_spec (strip (str v)) "") as [E | E].
  - split; [split|]; auto.
  - destruct (String.eqb_spec (lower (strip (str v))) "nan") as [L | L]; simpl.
    + split; [split|]; auto.
    + rewrite re_sub_dot0_spec by apply strip_no_trailing_newline.
      split; [|auto]. split; [discriminate|].
      intros [H | [H | H]]; [discriminate | contradiction | contradiction].
Qed.

(** The letters that [lower] sends to "n" and to "a". *)
Lemma lower_char_n (c : ascii) :
  lower_char c = "n"%char -> c = "n"%char \/ c = "N"%char.
Proof.
  destruct c as [[] [] [] [] [] [] [] []]; vm_compute; intros H;
    try discriminate H; auto.
Qed.

Lemma lower_char_a (c : ascii) :
  lower_char c = "a"%char -> c = "a"%char \/ c = "A"%char.
Proof.
  destruct c as [[] [] [] [] [] [] [] []]; vm_compute; intros H;
    try discriminate H; auto.
Qed.

(** "Equal to nan when case is ignored" names eight texts. *)
Lemma equal_nan_ignoring_case (s : string) :
  equal_ignoring_case s "nan" <->
  In s ["nan"; "naN"; "nAn"; "nAN"; "Nan"; "NaN"; "NAn"; "NAN"].
Proof.
  unfold equal_ignoring_case. change (lower "nan") with "nan". split.
  - destruct s as [|c1 [|c2 [|c3 [|c4 r]]]]; simpl; try discriminate.
    intros H. injection H as H1 H2 H3.
    apply lower_char_n in H1, H3. apply lower_char_a in H2.
    destruct H1 as [-> | ->], H2 as [-> | ->], H3 as [-> | ->]; simpl; tauto.
  - simpl. intros H.
    repeat (destruct H as [<- | H]; [reflexivity|]). contradiction.
Qed.

Lemma str_in_In (x : string) (l : list string) :
  VerifiedDealers.str_in x l = true <-> In x l.
Proof.
  unfold VerifiedDealers.str_in. rewrite existsb_exists. split.
  - intros [y [Hy E]]. apply String.eqb_eq in E. subst. exact Hy.
  - intros H. exists x. split; [exact H | apply String.eqb_refl].
Qed.

(** No missing value reads as one of the six boolean words. *)
Lemma isna_not_a_boolean_word (v : cell) :
  isna v = true ->
  VerifiedDealers.str_in (lower (strip (str v))) ["true"; "yes"; "1"] = false
  /\ VerifiedDealers.str_in (lower (strip (str v))) ["false"; "no"; "0"] = false.
Proof. destruct v; try discriminate; intros _; split; reflexivity. Qed.

Lemma isna_strip_not_dot0 (v : cell) : strip (str v) = ".0" -> isna v = false.
Proof.
  destruct v; try reflexivity; intros H; vm_compute in H; discriminate H.
Qed.

Lemma clean_value_main_of_stripped (v : cell) (t : string) :
  isna v = false -> strip (str v) = t -> t <> "" -> lower t <> "nan" ->
  Main.clean_value v = Some (without_trailing_dot0 t).
Proof.
  intros Hna Ht He Hl. unfold Main.clean_value.
  rewrite Hna, Ht, not_truthy_is_empty.
  destruct (String.eqb_spec t ""); [contradiction|].
  destruct (String.eqb_spec (lower t) "nan"); [contradiction|].
  simpl. f_equal. apply re_sub_dot0_spec. rewrite <- Ht.
  apply strip_no_trailing_newline.
Qed.

(** What [clean_value v = Some s] tells about [v]. *)
Lemma clean_value_main_some (v : cell) (s : string) :
  Main.clean_value v = Some s ->
  isna v = false /\ strip (str v) <> "" /\ lower (strip (str v)) <> "nan"
  /\ s = without_trailing_dot0 (strip (str v)).
Proof.
  unfold Main.clean_value. rewrite not_truthy_is_empty.
  destruct (isna v); [discriminate|].
  destruct (String.eqb_spec (strip (str v)) ""); [discriminate|].
  destruct (String.eqb_spec (lower (strip (str v))) "nan"); [discriminate|].
  simpl. intros H. injection H as <-.
  rewrite re_sub_dot0_spec by apply strip_no_trailing_newline. auto.
Qed.

(** A result that lost no ".0" is cleaned to itself. *)
Lemma clean_value_main_stable (v : cell) (s : string) :
  Main.clean_value v = Some s ->
  ends_with ".0" (strip (str v)) = false ->
  Main.clean_value (CStr s) = Some s.
Proof.
  intros H E. apply clean_value_main_some in H as (_ & Hne & Hnan & ->).
  unfold without_trailing_dot0. rewrite E.
  rewrite (clean_value_main_of_stripped (CStr (strip (str v))) (strip (str v)));
    try assumption; try reflexivity.
  - unfold without_trailing_dot0. rewrite E. reflexivity.
  - apply strip_idempotent.
Qed.

Lemma lstrip_length (s : string) : String.length (lstrip s) <= String.length s.
Proof.
  induction s as [|c r IH]; simpl; [lia|].
  destruct (isspace c); simpl; lia.
Qed.

Lemma rstrip_length (s : string) : String.length (rstrip s) <= String.length s.
Proof.
  induction s as [|c r IH]; simpl; [lia|].
  destruct (rstrip r); [destruct (isspace c)|]; simpl in *; lia.
Qed.

Lemma strip_length (s : string) : String.length (strip s) <= String.length s.
Proof.
  unfold strip. pose proof (rstrip_length (lstrip s)). pose proof (lstrip_length s). lia.
Qed.

Lemma strip_head (s : string) (c : ascii) (r : string) :
  strip s = String c r -> isspace c = false.
Proof.
  unfold strip. intros H. destruct (rstrip_head _ _ _ H) as [r' Hr'].
  exact (lstrip_head _ _ _ Hr').
Qed.

(** A text that starts and ends with no white space is its own [strip]. *)
Lemma strip_fixed (s : string) :
  (forall c r, s = String c r -> isspace c = false) ->
  (forall c, last_char s = Some c -> isspace c = false) ->
  strip s = s.
Proof.
  intros Hh Hl. unfold strip. rewrite (lstrip_fixed s Hh). apply rstrip_fixed. exact Hl.
Qed.

(** A result of [clean_value] does not start with white space. *)
Lemma clean_value_main_head (v : cell) (s : string) (c : ascii) (r : string) :
  Main.clean_value v = Some s -> s = String c r -> isspace c = false.
Proof.
  intros H E. apply clean_value_main_some in H as (_ & _ & _ & Hs).
  unfold without_trailing_dot0 in Hs.
  destruct (ends_with ".0" (strip (str v))) eqn:Ed.
  - apply ends_with_dot0_iff in Ed as [p Hp].
    assert (s = p) as ->.
    { rewrite Hs, Hp, length_append. simpl String.length.
      replace (String.length p + 2 - 2) with (String.length p) by lia.
      apply substring_0_append. }
    subst p. simpl in Hp. exact (strip_head _ _ _ Hp).
  - rewrite E in Hs. exact (strip_head _ _ _ (eq_sym Hs)).
Qed.

(** The texts [clean_value] maps to themselves. *)
Lemma clean_value_main_fixed (s : string) :
  Main.clean_value (CStr s) = Some s <->
  s <> "" /\ lower s <> "nan" /\ strip s = s /\ ends_with ".0" s = false.
Proof.
  split.
  - intros H. apply clean_value_main_some in H as (_ & Hne & Hnan & Hs).
    change (str (CStr s)) with s in *.
    assert (ends_with ".0" (strip s) = false) as Ed.
    { destruct (ends_with ".0" (strip s)) eqn:Ed; [|reflexivity].
      apply ends_with_dot0_iff in Ed as [p Hp].
      rewrite Hp, without_trailing_dot0_append in Hs. subst p.
      pose proof (strip_length s) as L. rewrite Hp, length_append in L.
      simpl in L. lia. }
    unfold without_trailing_dot0 in Hs. rewrite Ed in Hs.
    rewrite <- Hs in *. auto.
  - intros (Hne & Hnan & Hs & Ed).
    rewrite (clean_value_main_of_stripped (CStr s) s); auto.
    unfold without_trailing_dot0. rewrite Ed. reflexivity.
Qed.

End Cleaning.

(** ** The cleaning helpers: the stated properties *)
Section CleaningClaims.
Import Py Spec.

(** C2. In main.py, tallyDealers.py and verifiedDealers.py, [clean_value]
    returns [None] if and only if the value is missing for pandas (NA, NaN,
    NaT, None) or its [str] form, once stripped, is empty or equal to "nan"
    when case is ignored; for every other value it returns the stripped text
    with one trailing ".0" removed when there is one. *)
Theorem clean_value_none_or_trimmed (v : cell) :
  clean_value_contract Main.clean_value v
  /\ clean_value_contract TallyDealers.clean_value v
  /\ clean_value_contract VerifiedDealers.clean_value v.
Proof.
  pose proof (clean_value_main_contract v) as H.
  unfold clean_value_contract in *.
  rewrite clean_value_tally, clean_value_verified. auto.
Qed.

(** C6. [clean_boolean] returns [True] exactly when the stripped, lowered
    [str] form of the value is "true", "yes" or "1", [False] exactly when it
    is "false", "no" or "0", and [None] for a missing value and for every
    other value. *)
Theorem clean_boolean_by_word (v : cell) :
  let word := lower (strip (str v)) in
  (VerifiedDealers.clean_boolean v = Some true <-> In word ["true"; "yes"; "1"])
  /\ (VerifiedDealers.clean_boolean v = Some false <-> In word ["false"; "no"; "0"])
  /\ (isna v = true -> VerifiedDealers.clean_boolean v = None)
  /\ (VerifiedDealers.clean_boolean v = None <->
        ~ In word ["true"; "yes"; "1"] /\ ~ In word ["false"; "no"; "0"]).
Proof.
  intros word. unfold VerifiedDealers.clean_boolean. fold word.
  assert (In word ["true"; "yes"; "1"] -> ~ In word ["false"; "no"; "0"]) as Hdisj.
  { simpl. intros [<- | [<- | [<- | []]]] [H | [H | [H | []]]]; discriminate H. }
  destruct (isna v) eqn:Hna.
  - destruct (isna_not_a_boolean_word v Hna) as [H1 H2]. fold word in H1, H2.
    assert (~ In word ["true"; "yes"; "1"]) as N1
      by (intros H; apply str_in_In in H; congruence).
    assert (~ In word ["false"; "no"; "0"]) as N2
      by (intros H; apply str_in_In in H; congruence).
    repeat split; try discriminate; try tauto.
  - destruct (VerifiedDealers.str_in word ["true"; "yes"; "1"]) eqn:H1.
    + apply str_in_In in H1. pose proof (Hdisj H1).
      repeat split; try discriminate; try tauto.
    + assert (~ In word ["true"; "yes"; "1"]) as N1
        by (intros H; apply str_in_In in H; congruence).
      destruct (VerifiedDealers.str_in word ["false"; "no"; "0"]) eqn:H2.
      * apply str_in_In in H2.
        repeat split; try discriminate; try tauto.
      * assert (~ In word ["false"; "no"; "0"]) as N2
          by (intros H; apply str_in_In in H; congruence).
        repeat split; try discriminate; try tauto.
Qed.

(** C8. A value whose stripped [str] form is ".0" is cleaned to the empty
    text, not to [None]: a result of [clean_value] that is not [None] may be
    empty. *)
Theorem clean_value_of_dot0_is_empty (v : cell) :
  strip (str v) = ".0" ->
  Main.clean_value v = Some "" /\ VerifiedDealers.clean_value v = Some "".
Proof.
  intros H. rewrite clean_value_verified.
  assert (Main.clean_value v = Some "") as E.
  { rewrite (clean_value_main_of_stripped v ".0");
      [reflexivity | exact (isna_strip_not_dot0 v H) | exact H
      | discriminate | discriminate]. }
  auto.
Qed.

Lemma clean_value_of_dot0_example :
  Main.clean_value (CStr " .0 ") = Some ""
  /\ VerifiedDealers.clean_value (CStr " .0 ") = Some "".
Proof. apply (clean_value_of_dot0_is_empty (CStr " .0 ")). reflexivity. Defined.

(** C9, as stated, fails: "1.0.0" is cleaned to "1.0", and "1.0" is cleaned
    to "1". *)
Lemma clean_value_not_idempotent :
  Main.clean_value (CStr "1.0.0") = Some "1.0"
  /\ Main.clean_value (CStr "1.0") = Some "1"
  /\ TallyDealers.clean_value (CStr "1.0.0") = Some "1.0"
  /\ TallyDealers.clean_value (CStr "1.0") <> Some "1.0".
Proof. repeat split. discriminate. Qed.

(** C9, amended. A result [s] of [clean_value] is cleaned to itself exactly
    when it needs no more cleaning: it is not empty, is not "nan" in any
    case, does not end in white space and does not end in ".0".  This is so
    whenever the stripped [str] form of the value did not end in ".0", and
    also for a value such as "781001.0", whose result "781001" has nothing
    left to remove. *)
Theorem clean_value_idempotent_on_clean_results (v : cell) (s : string) :
  Main.clean_value v = Some s ->
  TallyDealers.clean_value v = Some s
  /\ (Main.clean_value (CStr s) = Some s <-> fully_clean s)
  /\ (TallyDealers.clean_value (CStr s) = Some s <-> fully_clean s)
  /\ (ends_with ".0" (strip (str v)) = false -> fully_clean s).
Proof.
  intros H. rewrite !clean_value_tally.
  assert (Main.clean_value (CStr s) = Some s <-> fully_clean s) as Hiff.
  { rewrite clean_value_main_fixed. unfold fully_clean, equal_ignoring_case.
    change (lower "nan") with "nan". split.
    - intros (Hne & Hnan & Hs & Ed). repeat split; auto.
      intros c Hc. rewrite <- Hs in Hc. exact (strip_last_not_space _ _ Hc).
    - intros (Hne & Hnan & Hl & Ed). repeat split; auto.
      apply strip_fixed; [|exact Hl].
      intros c r E. exact (clean_value_main_head v s c r H E). }
  split; [exact H|]. split; [exact Hiff|]. split; [exact Hiff|].
  intros E. apply Hiff. exact (clean_value_main_stable v s H E).
Qed.

Lemma clean_value_idempotent_example :
  TallyDealers.clean_value (CStr " 781001.0 ") = Some "781001"
  /\ (Main.clean_value (CStr "781001") = Some "781001" <-> fully_clean "781001")
  /\ (TallyDealers.clean_value (CStr "781001") = Some "781001" <-> fully_clean "781001")
  /\ (ends_with ".0" (strip (str (CStr " 781001.0 "))) = false -> fully_clean "781001").
Proof.
  apply (clean_value_idempotent_on_clean_results (CStr " 781001.0 ") "781001").
  reflexivity.
Defined.

End CleaningClaims.

(** ** Record assembly *)
Section Assembly.
Import Py Pandas Spec.

Lemma sequence_none {A : Type} (items : list (option A)) :
  In None items -> sequence items = None.
Proof.
  induction items as [|[x|] rest IH]; simpl; intros H; try reflexivity.
  - contradiction.
  - destruct H as [H | H]; [discriminate|]. rewrite (IH H). reflexivity.
Qed.

Lemma sequence_map_some {A B : Type} (f : A -> option B) (l : list A) :
  (forall a, In a l -> f a <> None) -> exists xs, sequence (map f l) = Some xs.
Proof.
  induction l as [|a l IH]; intros H; simpl; [eauto|].
  destruct (f a) as [x|] eqn:E; [|exfalso; apply (H a); simpl; auto].
  destruct IH as [xs ->]; [intros b Hb; apply H; simpl; auto|]. eauto.
Qed.

Lemma sequence_map_items {A B : Type} (f : A -> option B) (l : list A) (xs : list B) :
  sequence (map f l) = Some xs ->
  List.length xs = List.length l
  /\ forall k a, nth_error l k = Some a -> nth_error xs k = f a.
Proof.
  revert xs. induction l as [|a l IH]; simpl; intros xs H.
  - injection H as <-. split; [reflexivity|]. intros [|k] b; discriminate.
  - destruct (f a) as [x|] eqn:E; [|discriminate].
    destruct (sequence (map f l)) as [ys|] eqn:Es; [|discriminate].
    injection H as <-. destruct (IH ys eq_refl) as [Hl Hn].
    split; [simpl; congruence|].
    intros [|k] b; simpl; [intros Hb; injection Hb as <-; congruence | apply Hn].
Qed.

Lemma has_columns_get (labels : list string) (row : series) (c : string) :
  has_columns labels row = true -> In c labels -> get row c <> None.
Proof.
  unfold has_columns. rewrite forallb_forall. intros H Hc E.
  specialize (H c Hc). rewrite E in H. discriminate.
Qed.

(** The tuple display of main.py lists the sources of the target columns in
    the order of [TARGET_COLUMNS]. *)
Lemma main_data_tuple_by_column (uuid : string) (row : series) :
  Main.data_tuple uuid row
  = sequence (map (main_source uuid row) Main.TARGET_COLUMNS).
Proof.
  unfold Main.data_tuple.
  destruct (get row "brand_selling") as [b|] eqn:E.
  - cbn [map Main.TARGET_COLUMNS]. unfold main_source. cbn [String.eqb Ascii.eqb Bool.eqb].
    rewrite E. reflexivity.
  - symmetry. apply sequence_none. apply in_map_iff.
    exists "brand_selling". split.
    + unfold main_source. cbn [String.eqb Ascii.eqb Bool.eqb]. rewrite E. reflexivity.
    + unfold Main.TARGET_COLUMNS. simpl. auto 20.
Qed.

Lemma verified_data_tuple_by_column (row : series) :
  VerifiedDealers.data_tuple row
  = sequence (map (field row) VerifiedDealers.TARGET_COLUMNS).
Proof. reflexivity. Qed.

Lemma field_not_none (labels : list string) (row : series) (c : string) :
  has_columns labels row = true -> In c labels -> field row c <> None.
Proof.
  intros H Hc. unfold field.
  pose proof (has_columns_get labels row c H Hc).
  destruct (get row c); [discriminate | contradiction].
Qed.

Lemma main_source_not_none (uuid : string) (row : series) (c : string) :
  has_columns Main.DF_COLUMNS row = true ->
  In c Main.TARGET_COLUMNS -> main_source uuid row c <> None.
Proof.
  intros H Hc. unfold Main.TARGET_COLUMNS in Hc. simpl in Hc.
  assert (forall l, In l Main.DF_COLUMNS -> field row l <> None) as F
    by (intros l; apply field_not_none; exact H).
  assert (get row "brand_selling" <> None) as B
    by (apply (has_columns_get Main.DF_COLUMNS); [exact H | simpl; auto 20]).
  repeat (destruct Hc as [<- | Hc];
          [ unfold main_source; cbn [String.eqb Ascii.eqb Bool.eqb];
            first [ discriminate
                  | destruct (get row "brand_selling"); [discriminate | contradiction]
                  | apply F; simpl; auto 30 ] | ]).
  contradiction.
Qed.

Lemma main_data_tuple_ok (uuid : string) (row : series) :
  has_columns Main.DF_COLUMNS row = true ->
  exists t, Main.data_tuple uuid row = Some t
            /\ List.length t = Main.EXPECTED_COLUMNS
            /\ forall k c, nth_error Main.TARGET_COLUMNS k = Some c ->
                 nth_error t k = main_source uuid row c.
Proof.
  intros H. rewrite main_data_tuple_by_column.
  destruct (sequence_map_some (main_source uuid row) Main.TARGET_COLUMNS) as [t Ht].
  - intros c. apply main_source_not_none. exact H.
  - exists t. split; [exact Ht|]. apply sequence_map_items. exact Ht.
Qed.

Lemma verified_data_tuple_ok (row : series) :
  has_columns VerifiedDealers.TARGET_COLUMNS row = true ->
  exists t, VerifiedDealers.data_tuple row = Some t
            /\ List.length t = VerifiedDealers.EXPECTED_COLUMNS
            /\ forall k c, nth_error VerifiedDealers.TARGET_COLUMNS k = Some c ->
                 nth_error t k = field row c.
Proof.
  intros H. rewrite verified_data_tuple_by_column.
  destruct (sequence_map_some (field row) VerifiedDealers.TARGET_COLUMNS) as [t Ht].
  - intros c. apply field_not_none. exact H.
  - exists t. split; [exact Ht|]. apply sequence_map_items. exact Ht.
Qed.

(** The loop of main.py appends one tuple per row: the length check passes
    on every row. *)
Lemma main_assemble_appends (uuid4 : nat -> string) (rows : list series) :
  forall index acc,
  forallb (has_columns Main.DF_COLUMNS) rows = true ->
  exists ts, Main.assemble uuid4 index rows acc = Some (acc ++ ts)%list
             /\ List.length ts = List.length rows
             /\ forall i row, nth_error rows i = Some row ->
                  Main.data_tuple (uuid4 (index + i)) row = nth_error ts i.
Proof.
  induction rows as [|row rest IH]; intros index acc H.
  - exists []. simpl. rewrite app_nil_r. repeat split.
    intros [|i] r; discriminate.
  - simpl in H. apply andb_true_iff in H as [Hrow Hrest].
    destruct (main_data_tuple_ok (uuid4 index) row Hrow) as (t & Ht & Hlen & _).
    simpl. rewrite Ht, Hlen, Nat.eqb_refl. simpl.
    destruct (IH (S index) (acc ++ [t])%list Hrest) as (ts & -> & Hl & Hn).
    exists (t :: ts). rewrite <- app_assoc. simpl. repeat split.
    + congruence.
    + intros [|i] r; simpl.
      * intros E; injection E as <-. rewrite Nat.add_0_r. exact Ht.
      * intros E. rewrite <- (Hn i r E). f_equal. f_equal. lia.
Qed.

Lemma verified_assemble_appends (rows : list series) :
  forall acc,
  forallb (has_columns VerifiedDealers.TARGET_COLUMNS) rows = true ->
  exists ts, VerifiedDealers.assemble rows acc = Some (acc ++ ts)%list
             /\ List.length ts = List.length rows
             /\ forall i row, nth_error rows i = Some row ->
                  VerifiedDealers.data_tuple row = nth_error ts i.
Proof.
  induction rows as [|row rest IH]; intros acc H.
  - exists []. simpl. rewrite app_nil_r. repeat split.
    intros [|i] r; discriminate.
  - simpl in H. apply andb_true_iff in H as [Hrow Hrest].
    destruct (verified_data_tuple_ok row Hrow) as (t & Ht & Hlen & _).
    simpl. rewrite Ht, Hlen, Nat.eqb_refl.
    destruct (IH (acc ++ [t])%list Hrest) as (ts & -> & Hl & Hn).
    exists (t :: ts). rewrite <- app_assoc. simpl. repeat split.
    + congruence.
    + intros [|i] r; simpl.
      * intros E; injection E as <-. exact Ht.
      * apply Hn.
Qed.

(** C5. On a DataFrame whose rows carry the labels the loop reads, the
    record assembly of main.py and of verifiedDealers.py yields exactly one
    tuple per row, in order; each tuple has [EXPECTED_COLUMNS] items, item
    [k] being the value for the column [k] of [TARGET_COLUMNS]; the length
    check rejects no row, so as many records as rows reach the insert. *)
Theorem assembly_one_tuple_per_row (uuid4 : nat -> string)
    (df_main df_verified : list series) :
  forallb (has_columns Main.DF_COLUMNS) df_main = true ->
  forallb (has_columns VerifiedDealers.TARGET_COLUMNS) df_verified = true ->
  (exists recs,
     Main.records uuid4 df_main = Some recs
     /\ one_tuple_per_row (fun i => main_source (uuid4 i)) Main.TARGET_COLUMNS
          df_main recs)
  /\ (exists recs,
        VerifiedDealers.records df_verified = Some recs
        /\ one_tuple_per_row (fun _ => field) VerifiedDealers.TARGET_COLUMNS
             df_verified recs).
Proof.
  intros Hm Hv. split.
  - destruct (main_assemble_appends uuid4 df_main 0 [] Hm) as (ts & E & Hl & Hn).
    exists ts. split; [exact E|]. split; [exact Hl|].
    intros i row Hi. specialize (Hn i row Hi). simpl in Hn.
    assert (has_columns Main.DF_COLUMNS row = true) as Hrow.
    { rewrite forallb_forall in Hm. apply Hm. eapply nth_error_In. exact Hi. }
    destruct (main_data_tuple_ok (uuid4 i) row Hrow) as (t & Ht & Hlen & Hk).
    exists t. rewrite <- Hn. auto.
  - destruct (verified_assemble_appends df_verified [] Hv) as (ts & E & Hl & Hn).
    exists ts. split; [exact E|]. split; [exact Hl|].
    intros i row Hi. specialize (Hn i row Hi).
    assert (has_columns VerifiedDealers.TARGET_COLUMNS row = true) as Hrow.
    { rewrite forallb_forall in Hv. apply Hv. eapply nth_error_In. exact Hi. }
    destruct (verified_data_tuple_ok row Hrow) as (t & Ht & Hlen & Hk).
    exists t. rewrite <- Hn. auto.
Qed.

Lemma assembly_example :
  (exists recs,
     Main.records (fun _ => "6f1c2d3e-0a4b-4c5d-8e9f-001122334455") [example_main_row]
     = Some recs
     /\ one_tuple_per_row
          (fun i => main_source "6f1c2d3e-0a4b-4c5d-8e9f-001122334455")
          Main.TARGET_COLUMNS [example_main_row] recs)
  /\ (exists recs,
        VerifiedDealers.records [example_verified_row] = Some recs
        /\ one_tuple_per_row (fun _ => field) VerifiedDealers.TARGET_COLUMNS
             [example_verified_row] recs).
Proof.
  apply (assembly_one_tuple_per_row
           (fun _ => "6f1c2d3e-0a4b-4c5d-8e9f-001122334455")
           [example_main_row] [example_verified_row]);
    reflexivity.
Defined.

End Assembly.

(** ** Logs: counting and ordering *)
Section Logs.
Import Py Pg Spec.
Local Open Scope list_scope.

Lemma preceded_byb_sound (a b : event -> bool) (evs : list event) :
  forall seen, preceded_byb a b seen evs = true ->
  forall pre ev post, evs = pre ++ ev :: post -> b ev = true ->
  seen || existsb a pre = true.
Proof.
  induction evs as [|x r IH]; intros seen H pre ev post E Hb.
  - destruct pre; discriminate.
  - simpl in H. apply andb_true_iff in H as [Hx Hr].
    destruct pre as [|y pre']; simpl in E; injection E as -> ->.
    + rewrite Hb in Hx. subst. reflexivity.
    + specialize (IH _ Hr pre' ev post eq_refl Hb).
      simpl. rewrite orb_assoc. exact IH.
Qed.

Lemma preceded_by_check (a b : event -> bool) (evs : list event) :
  preceded_byb a b false evs = true -> preceded_by a b evs.
Proof.
  intros H pre ev post E Hb.
  exact (preceded_byb_sound a b evs false H pre ev post E Hb).
Qed.

Lemma never_after_check (a b : event -> bool) (evs : list event) :
  never_afterb a b evs = true -> never_after a b evs.
Proof.
  induction evs as [|x r IH]; intros H pre ev post E Ha.
  - destruct pre; discriminate.
  - simpl in H. apply andb_true_iff in H as [Hx Hr].
    destruct pre as [|y pre']; simpl in E; injection E as -> ->.
    + rewrite Ha in Hx. apply negb_true_iff in Hx. exact Hx.
    + exact (IH Hr pre' ev post eq_refl Ha).
Qed.

Lemma preceded_byb_seen (a b : event -> bool) (evs : list event) :
  preceded_byb a b true evs = true.
Proof.
  induction evs as [|x r IH]; [reflexivity|].
  simpl. rewrite IH. destruct (b x); reflexivity.
Qed.

Lemma preceded_byb_none (a b : event -> bool) (evs : list event) :
  forall seen, existsb b evs = false -> preceded_byb a b seen evs = true.
Proof.
  induction evs as [|x r IH]; intros seen H; [reflexivity|].
  simpl in *. apply orb_false_iff in H as [Hx Hr].
  rewrite Hx, IH by exact Hr. reflexivity.
Qed.

Lemma preceded_byb_app (a b : event -> bool) (l1 l2 : list event) :
  forall seen,
  preceded_byb a b seen (l1 ++ l2)
  = preceded_byb a b seen l1 && preceded_byb a b (seen || existsb a l1) l2.
Proof.
  induction l1 as [|x r IH]; intros seen; simpl.
  - rewrite orb_false_r. reflexivity.
  - rewrite IH, orb_assoc, andb_assoc. reflexivity.
Qed.

Lemma never_afterb_split (a b : event -> bool) (l1 l2 : list event) :
  existsb a l1 = false -> existsb b l2 = false ->
  never_afterb a b (l1 ++ l2) = true.
Proof.
  intros H1 H2. induction l1 as [|x r IH]; simpl.
  - induction l2 as [|y t IHt]; [reflexivity|].
    simpl in *. apply orb_false_iff in H2 as [Hy Ht].
    rewrite Ht, IHt by exact Ht. destruct (a y); reflexivity.
  - simpl in H1. apply orb_false_iff in H1 as [Hx Hr].
    rewrite Hx, IH by exact Hr. reflexivity.
Qed.

Lemma existsb_disjoint (q p : event -> bool) (l : list event) :
  forallb q l = true -> (forall x, q x = true -> p x = false) ->
  existsb p l = false.
Proof.
  intros H D. induction l as [|x r IH]; [reflexivity|].
  simpl in *. apply andb_true_iff in H as [Hx Hr].
  rewrite (D x Hx), IH by exact Hr. reflexivity.
Qed.

Lemma count_app (p : event -> bool) (l1 l2 : list event) :
  count p (l1 ++ l2) = count p l1 + count p l2.
Proof. unfold count. rewrite filter_app, length_app. reflexivity. Qed.

Lemma count_none (p : event -> bool) (l : list event) :
  existsb p l = false -> count p l = 0.
Proof.
  unfold count. induction l as [|x r IH]; [reflexivity|].
  simpl. intros H. apply orb_false_iff in H as [Hx Hr].
  rewrite Hx. exact (IH Hr).
Qed.

Lemma count_positive (p : event -> bool) (l : list event) :
  0 < count p l -> exists x, In x l /\ p x = true.
Proof.
  unfold count. induction l as [|x r IH]; simpl; [lia|].
  destruct (p x) eqn:E.
  - intros _. exists x. auto.
  - intros H. destruct (IH H) as [y [Hy Py]]. exists y. auto.
Qed.

Lemma pages_sent_app (l1 l2 : list event) :
  pages_sent (l1 ++ l2) = pages_sent l1 ++ pages_sent l2.
Proof.
  induction l1 as [|x r IH]; [reflexivity|].
  destruct x; simpl; rewrite IH; reflexivity.
Qed.

Lemma pages_sent_none (l : list event) :
  existsb is_execute l = false -> pages_sent l = [].
Proof.
  induction l as [|x r IH]; [reflexivity|].
  simpl. intros H. apply orb_false_iff in H as [Hx Hr].
  destruct x; try discriminate; exact (IH Hr).
Qed.

Lemma pages_sent_map (ok : bool) (pages : list (list tuple)) :
  pages_sent (map (fun pg => Execute pg ok) pages) = pages.
Proof. induction pages as [|pg r IH]; simpl; congruence. Qed.

Lemma forallb_execute_map (ok : bool) (pages : list (list tuple)) :
  forallb is_execute (map (fun pg => Execute pg ok) pages) = true.
Proof. induction pages as [|pg r IH]; simpl; auto. Qed.

End Logs.

(** ** The transaction *)
Section Transaction.
Import Py Pg Spec.
Local Open Scope list_scope.

Lemma paginate_from_concat {A : Type} (page_size : nat) (seq : list A) :
  forall room page,
  concat (paginate_from page_size room page seq) = rev page ++ seq.
Proof.
  induction seq as [|x rest IH]; intros room page; simpl.
  - destruct page; simpl; rewrite ?app_nil_r; reflexivity.
  - destruct room as [|room']; simpl; rewrite IH; simpl.
    + reflexivity.
    + rewrite <- app_assoc. reflexivity.
Qed.

Lemma paginate_concat {A : Type} (page_size : nat) (seq : list A) :
  concat (paginate page_size seq) = seq.
Proof. unfold paginate. rewrite paginate_from_concat. reflexivity. Qed.

(** Sending the pages with autocommit off: the pages before the first
    failure are staged, the table is untouched. *)
Lemma execute_pages_spec (e : env) (pages : list (list tuple)) :
  forall k w, autocommit w = false ->
  exists done failed rest,
    pages = done ++ failed ++ rest
    /\ log (fst (execute_pages e k pages w))
       = log w ++ map (fun pg => Execute pg true) done
               ++ map (fun pg => Execute pg false) failed
    /\ table (fst (execute_pages e k pages w)) = table w
    /\ staged (fst (execute_pages e k pages w)) = staged w ++ concat done
    /\ connected (fst (execute_pages e k pages w)) = connected w
    /\ autocommit (fst (execute_pages e k pages w)) = false
    /\ snd (execute_pages e k pages w) = first_page_error e k (List.length pages)
    /\ (snd (execute_pages e k pages w) = None -> failed = [] /\ rest = []).
Proof.
  induction pages as [|pg more IH]; intros k w Hw.
  - exists [], [], []. simpl. rewrite !app_nil_r. auto 10.
  - simpl. destruct (execute_error e k) as [x|] eqn:E.
    + exists [], [pg], more. simpl. rewrite app_nil_r.
      repeat split; auto; discriminate.
    + destruct (IH (S k) (write pg (record (Execute pg true) w)))
        as (done & failed & rest & Hp & Hlog & Ht & Hs & Hc & Ha & Hr & Hn).
      { unfold write. simpl. rewrite Hw. reflexivity. }
      exists (pg :: done), failed, rest.
      rewrite Hlog, Ht, Hs, Hc, Ha, Hr. unfold write. simpl. rewrite Hw. simpl.
      repeat split; auto;
        try (rewrite <- app_assoc; reflexivity);
        try (rewrite Hp; reflexivity);
        match goal with
        | H : _ = None |- _ => rewrite <- Hr in H; apply Hn in H; tauto
        end.
Qed.

(** The shared [try] block, from the start of a script. *)
Lemma try_block_spec (e : env) (page_size : nat) (rows data : list tuple) :
  exists w1 conn raised sent cm,
    try_block e page_size data (initial rows) = (w1, conn, raised)
    /\ raised = first_error e (List.length (paginate page_size data))
    /\ conn = match connect_error e with None => true | Some _ => false end
    /\ log w1 = (if conn then Connect true :: SetAutocommit false :: sent ++ cm
                 else [Connect false])
    /\ forallb is_execute sent = true
    /\ (exists rest, pages_sent sent ++ rest = paginate page_size data)
    /\ ((raised = None /\ cm = [Commit true])
        \/ (raised <> None /\ (cm = [] \/ cm = [Commit false])))
    /\ connected w1 = conn
    /\ table w1 = match raised with None => rows ++ data | Some _ => rows end
    /\ (raised = None -> staged w1 = [])
    /\ (conn = false -> staged w1 = []).
Proof.
  unfold try_block, first_error, connect.
  destruct (connect_error e) as [x|] eqn:Ec.
  - eexists _, _, _, [], []. split; [reflexivity|]. simpl.
    repeat split; auto; try discriminate; try congruence.
    + exists (paginate page_size data). reflexivity.
    + right. split; [discriminate | auto].
  - unfold execute_batch.
    match goal with
    | |- context [execute_pages e 0 ?pages ?w] =>
        destruct (execute_pages_spec e pages 0 w eq_refl)
          as (done & failed & rest & Hp & Hlog & Ht & Hs & Hc & Ha & Hr & Hn);
        destruct (execute_pages e 0 pages w) as [w2 r2] eqn:Ex
    end.
    simpl in Hlog, Ht, Hs, Hc, Ha, Hr, Hn. rewrite <- Hr.
    destruct r2 as [x|].
    + eexists _, _, _, (map (fun pg => Execute pg true) done
                        ++ map (fun pg => Execute pg false) failed), [].
      split; [reflexivity|]. rewrite app_nil_r.
      repeat split; auto; try discriminate; try congruence.
      * rewrite forallb_app, !forallb_execute_map. reflexivity.
      * exists rest. rewrite pages_sent_app, !pages_sent_map, <- app_assoc.
        symmetry. exact Hp.
      * right. split; [discriminate | auto].
    + destruct (Hn eq_refl) as [-> ->]. simpl in Hlog. rewrite !app_nil_r in *.
      unfold commit. destruct (commit_error e) as [x|] eqn:Em.
      * eexists _, _, _, (map (fun pg => Execute pg true) done), [Commit false].
        split; [reflexivity|]. simpl. rewrite Hlog.
        repeat split; auto; try discriminate; try congruence;
          first [ apply forallb_execute_map
                | exists []; rewrite pages_sent_map, app_nil_r; symmetry; exact Hp
                | right; split; [discriminate | auto] ].
      * eexists _, _, _, (map (fun pg => Execute pg true) done), [Commit true].
        split; [reflexivity|]. simpl. rewrite Hlog.
        repeat split; auto; try congruence;
          first [ apply forallb_execute_map
                | exists []; rewrite pages_sent_map, app_nil_r; symmetry; exact Hp
                | rewrite Ht, Hs; simpl; rewrite <- Hp, paginate_concat; reflexivity ].
Qed.

End Transaction.

(** ** The batch insert *)
Section Insert.
Import Py Pg Spec.
Local Open Scope list_scope.

Lemma main_insert_try_block (e : env) (data : list tuple) (w : world) :
  Main.insert_data_to_neon e data w
  = let '(w1, conn, raised) := try_block e default_page_size data w in
    let w2 := match raised with
              | Some DbError => if conn then rollback w1 else w1
              | Some OtherError => w1
              | None => w1
              end in
    (if conn then close w2 else w2, None).
Proof. reflexivity. Qed.

Lemma tally_insert_try_block (e : env) (data : list tuple) (w : world) :
  TallyDealers.insert_data_to_neon e data w
  = let '(w1, conn, raised) := try_block e 500 data w in
    let '(w2, escaping) :=
      match raised with
      | Some DbError => (if conn then rollback w1 else w1, None)
      | Some OtherError => (w1, Some OtherError)
      | None => (w1, None)
      end in
    (if conn then close w2 else w2, escaping).
Proof. reflexivity. Qed.

Lemma no_execute_is_autocommit_on (x : event) :
  is_execute x = true -> is_autocommit_on x = false.
Proof. destruct x; simpl; congruence. Qed.

Lemma no_execute_ends_transaction (x : event) :
  is_execute x = true -> ends_transaction x = false.
Proof. destruct x; simpl; congruence. Qed.

Lemma no_execute_is_commit (x : event) :
  is_execute x = true -> is_commit x = false.
Proof. destruct x; simpl; congruence. Qed.

Lemma no_execute_is_put (x : event) :
  is_execute x = true -> is_put x = false.
Proof. destruct x; simpl; congruence. Qed.

Lemma no_execute_is_connect (x : event) :
  is_execute x = true -> is_connect x = false.
Proof. destruct x; simpl; congruence. Qed.

(** The facts about a log of the shape
    [Connect true :: SetAutocommit false :: sent ++ tail], where [sent]
    holds page events only and [tail] none. *)
Lemma log_shape_facts (sent tail : list event) :
  forallb is_execute sent = true ->
  existsb is_execute tail = false ->
  existsb is_autocommit_on tail = false ->
  let evs := Connect true :: SetAutocommit false :: sent ++ tail in
  preceded_by is_autocommit_off is_execute evs
  /\ count is_autocommit_on evs = 0
  /\ never_after ends_transaction is_execute evs
  /\ count is_commit evs = count is_commit tail
  /\ count is_connect evs = 1 + count is_connect tail
  /\ pages_sent evs = pages_sent sent.
Proof.
  intros Hs Ht Ha evs. subst evs. repeat split.
  - apply preceded_by_check. simpl. apply preceded_byb_seen.
  - apply count_none. simpl. rewrite existsb_app, Ha, orb_false_r.
    apply (existsb_disjoint is_execute); [exact Hs | exact no_execute_is_autocommit_on].
  - apply never_after_check.
    change (Connect true :: SetAutocommit false :: sent ++ tail)
      with ((Connect true :: SetAutocommit false :: sent) ++ tail).
    apply never_afterb_split; [|exact Ht]. simpl.
    apply (existsb_disjoint is_execute); [exact Hs | exact no_execute_ends_transaction].
  - change (Connect true :: SetAutocommit false :: sent ++ tail)
      with ((Connect true :: SetAutocommit false :: sent) ++ tail).
    rewrite count_app. rewrite (count_none is_commit (_ :: _ :: sent)); [reflexivity|].
    simpl. apply (existsb_disjoint is_execute); [exact Hs | exact no_execute_is_commit].
  - change (Connect true :: SetAutocommit false :: sent ++ tail)
      with ([Connect true; SetAutocommit false] ++ sent ++ tail).
    rewrite !count_app. rewrite (count_none is_connect sent); [reflexivity|].
    apply (existsb_disjoint is_execute); [exact Hs | exact no_execute_is_connect].
  - simpl. rewrite pages_sent_app, (pages_sent_none tail Ht), app_nil_r. reflexivity.
Qed.

(** The insert of a script whose handlers roll back on a database error and
    close what was opened is all or nothing.  [w'] is the world after the
    handlers, given by cases on what the [try] block raised. *)
Lemma handlers_atomic (e : env) (page_size : nat) (rows data : list tuple)
    (w1 : world) (conn : bool) (raised : option exn) :
  try_block e page_size data (initial rows) = (w1, conn, raised) ->
  let w2 := match raised with
            | Some DbError => if conn then rollback w1 else w1
            | _ => w1
            end in
  atomic_insert page_size e rows data (if conn then close w2 else w2).
Proof.
  intros E.
  destruct (try_block_spec e page_size rows data)
    as (w1' & conn' & raised' & sent & cm & E' & Hr & Hc & Hlog & Hex & Hpg & Hcm
        & Hconn & Ht & Hst & Hst').
  rewrite E in E'. injection E' as <- <- <-.
  unfold atomic_insert. rewrite <- Hr.
  destruct (connect_error e) as [x|] eqn:Ec; subst conn.
  - (* the connection failed *)
    unfold first_error in Hr. rewrite Ec in Hr. subst raised.
    assert (w1 = match Some x with
                 | Some DbError => w1 | _ => w1 end) as Hw
      by (destruct x; reflexivity).
    rewrite <- Hw. rewrite Hlog, Ht, (Hst' eq_refl).
    repeat split; auto; try discriminate;
      first [ apply preceded_by_check; reflexivity
            | apply never_after_check; reflexivity
            | unfold count; simpl; lia ].
  - (* the connection is open *)
    assert (existsb is_execute cm = false /\ existsb is_autocommit_on cm = false
            /\ count is_commit cm <= 1) as (C1 & C2 & C3)
      by (destruct Hcm as [[_ ->] | [_ [-> | ->]]]; repeat split; unfold count; simpl; lia).
    destruct raised as [[|]|]; simpl; rewrite Hlog, Ht; simpl; rewrite <- !app_assoc.
    + (* a database error: rollback, then close *)
      destruct (log_shape_facts sent (cm ++ [Rollback] ++ [Close]) Hex)
        as (F1 & F2 & F3 & F4 & _).
      { rewrite existsb_app, C1. reflexivity. }
      { rewrite existsb_app, C2. reflexivity. }
      repeat split; auto.
      * rewrite F4, count_app. unfold count at 2. simpl. lia.
      * intros _ _. right. right. rewrite !in_app_iff. simpl. auto.
      * intros _. right. right. rewrite !in_app_iff. simpl. auto.
    + (* another exception: close *)
      destruct (log_shape_facts sent (cm ++ [Close]) Hex) as (F1 & F2 & F3 & F4 & _).
      { rewrite existsb_app, C1. reflexivity. }
      { rewrite existsb_app, C2. reflexivity. }
      repeat split; auto; try discriminate.
      * rewrite F4, count_app. unfold count at 2. simpl. lia.
      * intros _. right. right. rewrite !in_app_iff. simpl. auto.
    + (* committed: close *)
      destruct (log_shape_facts sent (cm ++ [Close]) Hex) as (F1 & F2 & F3 & F4 & _).
      { rewrite existsb_app, C1. reflexivity. }
      { rewrite existsb_app, C2. reflexivity. }
      repeat split; auto; try discriminate.
      * rewrite F4, count_app. unfold count at 2. simpl. lia.
      * intros _. right. right. rewrite !in_app_iff. simpl. auto.
Qed.

(** C1. From the start of a script and for every batch, the insert of
    main.py and of tallyDealers.py runs the pages of the batch in one
    transaction with autocommit off, and ends with the whole batch in the
    table when nothing failed and with the table as it was otherwise; after a
    database error on the open connection it rolls back; the connection, once
    opened, is closed in every case. *)
Theorem insert_all_or_nothing (e : env) (rows data : list tuple) :
  atomic_insert default_page_size e rows data
    (fst (Main.insert_data_to_neon e data (initial rows)))
  /\ atomic_insert 500 e rows data
       (fst (TallyDealers.insert_data_to_neon e data (initial rows))).
Proof.
  split.
  - rewrite main_insert_try_block.
    destruct (try_block e default_page_size data (initial rows))
      as [[w1 conn] raised] eqn:E.
    exact (handlers_atomic e default_page_size rows data w1 conn raised E).
  - rewrite tally_insert_try_block.
    destruct (try_block e 500 data (initial rows)) as [[w1 conn] raised] eqn:E.
    pose proof (handlers_atomic e 500 rows data w1 conn raised E) as H.
    destruct raised as [[|]|]; exact H.
Qed.

End Insert.

(** ** The geofence import after the insert *)
Section RadarImport.
Import Py Pg Spec.
Local Open Scope list_scope.

Lemma put_at_is_put (i : nat) (x : event) : is_put_at i x = true -> is_put x = true.
Proof. destruct x; simpl; congruence. Qed.

(** The loop leaves the table alone and logs PUTs only: at most one per
    index, each at an index from [i] on and for the record at that index. *)
Lemma radar_import_spec (N : numerics) (respond : nat -> request -> response)
    (k : string) (remaining : list tuple) :
  forall i c w,
  let w' := fst (fst (MainWithRadar.radar_import N respond k i remaining c w)) in
  table w' = table w /\ staged w' = staged w /\ connected w' = connected w
  /\ snd (MainWithRadar.radar_import N respond k i remaining c w) <> Some DbError
  /\ exists puts,
       log w' = log w ++ puts
       /\ forallb is_put puts = true
       /\ (forall j, count (is_put_at j) puts <= 1)
       /\ (forall j req, In (Put j req) puts ->
            i <= j
            /\ exists t, nth_error remaining (j - i) = Some t
                         /\ MainWithRadar.sent
                              (MainWithRadar.upsert_radar_geofence N (respond j) t k)
                            = Some req).
Proof.
  induction remaining as [|rec rest IH]; intros i c w; cbn zeta.
  - simpl. repeat split; try discriminate.
    exists []. rewrite app_nil_r. repeat split; auto; contradiction.
  - cbn [MainWithRadar.radar_import].
    set (a := MainWithRadar.upsert_radar_geofence N (respond i) rec k).
    set (w1 := match MainWithRadar.sent a with
               | Some req => record (Put i req) w
               | None => w
               end).
    assert (table w1 = table w /\ staged w1 = staged w /\ connected w1 = connected w
            /\ exists first, log w1 = log w ++ first
                 /\ forallb is_put first = true
                 /\ (forall j, count (is_put_at j) first <= (if Nat.eqb j i then 1 else 0))
                 /\ (forall j req, In (Put j req) first ->
                      j = i /\ MainWithRadar.sent a = Some req))
      as (T1 & S1 & C1 & first & L1 & P1 & N1 & M1).
    { subst w1. destruct (MainWithRadar.sent a) as [req|].
      - simpl. split; [reflexivity|]. split; [reflexivity|]. split; [reflexivity|].
        exists [Put i req]. split; [reflexivity|]. split; [reflexivity|]. split.
        + intros j. unfold count. simpl. destruct (Nat.eqb j i); simpl; lia.
        + intros j r [H | []]. injection H as <- <-. auto.
      - split; [reflexivity|]. split; [reflexivity|]. split; [reflexivity|].
        exists []. rewrite app_nil_r. split; [reflexivity|]. split; [reflexivity|].
        split.
        + intros j. unfold count. simpl. lia.
        + intros j r []. }
    assert (forall c',
      let r := MainWithRadar.radar_import N respond k (S i) rest c' w1 in
      table (fst (fst r)) = table w /\ staged (fst (fst r)) = staged w
      /\ connected (fst (fst r)) = connected w /\ snd r <> Some DbError
      /\ exists puts,
           log (fst (fst r)) = log w ++ puts
           /\ forallb is_put puts = true
           /\ (forall j, count (is_put_at j) puts <= 1)
           /\ (forall j req, In (Put j req) puts ->
                i <= j
                /\ exists t, nth_error (rec :: rest) (j - i) = Some t
                             /\ MainWithRadar.sent
                                  (MainWithRadar.upsert_radar_geofence N (respond j) t k)
                                = Some req)) as Hrec.
    { intros c'. cbn zeta.
      destruct (IH (S i) c' w1) as (T2 & S2 & C2 & R2 & puts & L2 & P2 & N2 & M2).
      rewrite T2, S2, C2, T1, S1, C1.
      split; [reflexivity|]. split; [reflexivity|]. split; [reflexivity|].
      split; [exact R2|].
      exists (first ++ puts). rewrite L2, L1, app_assoc.
      split; [reflexivity|]. split; [rewrite forallb_app, P1, P2; reflexivity|].
      split.
      - intros j. rewrite count_app. specialize (N1 j). specialize (N2 j).
        destruct (Nat.eqb j i) eqn:Ej; [|lia].
        apply Nat.eqb_eq in Ej. subst j.
        assert (count (is_put_at i) puts = 0) as Z; [|lia].
        destruct (count (is_put_at i) puts) as [|n] eqn:Ec; [reflexivity|].
        exfalso. destruct (count_positive (is_put_at i) puts) as [x [Hx Px]]; [lia|].
        destruct x; try discriminate. simpl in Px. apply Nat.eqb_eq in Px. subst.
        destruct (M2 _ _ Hx) as [Hle _]. lia.
      - intros j req H. apply in_app_iff in H as [H | H].
        + destruct (M1 _ _ H) as [-> Hs]. split; [lia|].
          exists rec. rewrite Nat.sub_diag. split; [reflexivity | exact Hs].
        + destruct (M2 _ _ H) as [Hle (t & Ht & Hs)]. split; [lia|].
          exists t. replace (j - i) with (S (j - S i)) by lia. auto. }
    destruct (MainWithRadar.result a) as [[|]|].
    + apply Hrec.
    + apply Hrec.
    + simpl. rewrite T1, S1, C1.
      split; [reflexivity|]. split; [reflexivity|]. split; [reflexivity|].
      split; [discriminate|].
      exists first. split; [exact L1|]. split; [exact P1|]. split.
      * intros j. specialize (N1 j). destruct (Nat.eqb j i); lia.
      * intros j req H. destruct (M1 _ _ H) as [-> Hs]. split; [lia|].
        exists rec. rewrite Nat.sub_diag. split; [reflexivity | exact Hs].
Qed.

End RadarImport.

(** ** mainWithRadar.py: the insert followed by the geofence import *)
Section RadarRun.
Import Py Pg Spec.
Local Open Scope list_scope.

Lemma radar_insert_try_block (N : numerics) (e : env)
    (respond : nat -> request -> response) (data : list tuple)
    (radar_key : option string) (w : world) :
  MainWithRadar.insert_data_to_neon N e respond data radar_key w
  = let '(w1, conn, raised) := try_block e default_page_size data w in
    let '(w2, raised') :=
      match raised with
      | Some x => (w1, Some x)
      | None =>
          match radar_key with
          | Some k =>
              if str_truthy k
              then let '(w4, _, r) :=
                     MainWithRadar.radar_import N respond k 0 data 0 w1 in (w4, r)
              else (w1, None)
          | None => (w1, None)
          end
      end in
    let w3 := match raised' with
              | Some DbError => if conn then rollback w2 else w2
              | _ => w2
              end in
    (if conn then close w3 else w3, None).
Proof.
  unfold MainWithRadar.insert_data_to_neon, try_block.
  destruct (connect e w) as [w1 [x|]]; [reflexivity|].
  destruct (execute_batch e default_page_size data (set_autocommit false w1))
    as [w2 [x|]]; [reflexivity|].
  destruct (commit e w2) as [w3 [x|]]; [reflexivity|].
  destruct radar_key as [k|]; [|reflexivity].
  destruct (str_truthy k); [|reflexivity].
  destruct (MainWithRadar.radar_import N respond k 0 data 0 w3) as [[w4 c] r].
  reflexivity.
Qed.

Ltac disjoint :=
  let x := fresh "x" in
  intros x; destruct x as [[]|[]|? []|[]| | |? ?]; simpl; congruence.

Ltac absent :=
  first [ apply (existsb_disjoint is_execute); [assumption | disjoint]
        | apply (existsb_disjoint is_put); [assumption | disjoint]
        | apply (existsb_disjoint (fun x => is_rollback x || is_close x));
          [assumption | disjoint] ].

(** The facts about a log of the shape
    [Connect true :: SetAutocommit false :: sent ++ cm ++ puts ++ fin]:
    pages, then the commit, then the PUTs, then rollback and close. *)
Lemma radar_log_facts (sent cm puts fin : list event) :
  forallb is_execute sent = true ->
  forallb is_put puts = true ->
  forallb (fun x => is_rollback x || is_close x) fin = true ->
  cm = [Commit true] \/ (puts = [] /\ (cm = [] \/ cm = [Commit false])) ->
  let evs := Connect true :: SetAutocommit false :: sent ++ cm ++ puts ++ fin in
  preceded_by is_commit_ok is_put evs
  /\ (forall i, count (is_put_at i) evs = count (is_put_at i) puts)
  /\ (forall i req, In (Put i req) evs -> In (Put i req) puts)
  /\ count is_connect evs = 1
  /\ count is_commit evs <= 1
  /\ pages_sent evs = pages_sent sent
  /\ existsb is_put evs = existsb is_put puts.
Proof.
  intros Hs Hp Hf Hcm evs. subst evs.
  assert (forall p, (p = is_put \/ p = is_connect \/ p = is_commit
                     \/ exists i, p = is_put_at i) ->
                    existsb p sent = false /\ existsb p fin = false) as Hno.
  { intros p [-> | [-> | [-> | [i ->]]]]; split; absent. }
  assert (existsb is_execute cm = false /\ existsb is_connect cm = false
          /\ count is_commit cm <= 1
          /\ forall i, existsb (is_put_at i) cm = false) as (X1 & X2 & X3 & X4)
    by (destruct Hcm as [-> | [_ [-> | ->]]]; repeat split; unfold count; simpl; lia).
  split; [|split; [|split; [|split; [|split; [|split]]]]].
  - apply preceded_by_check. simpl. rewrite preceded_byb_app.
    rewrite preceded_byb_none by (apply Hno; auto). simpl.
    destruct Hcm as [-> | [-> Hc]].
    + simpl. rewrite orb_true_r. apply preceded_byb_seen.
    + apply preceded_byb_none. simpl. rewrite existsb_app.
      rewrite (proj2 (Hno is_put (or_introl eq_refl))).
      destruct Hc as [-> | ->]; reflexivity.
  - intros i.
    change (Connect true :: SetAutocommit false :: sent ++ cm ++ puts ++ fin)
      with ([Connect true; SetAutocommit false] ++ sent ++ cm ++ puts ++ fin).
    rewrite !count_app.
    destruct (Hno (is_put_at i)) as [A B]; [eauto 6|].
    rewrite (count_none _ sent A), (count_none _ fin B), (count_none _ cm (X4 i)).
    unfold count at 1. simpl. lia.
  - intros i req H. simpl in H. destruct H as [H | [H | H]]; try discriminate.
    rewrite !in_app_iff in H. destruct H as [H | [H | [H | H]]].
    + rewrite forallb_forall in Hs. apply Hs in H. discriminate.
    + destruct Hcm as [-> | [_ [-> | ->]]]; simpl in H; intuition discriminate.
    + exact H.
    + rewrite forallb_forall in Hf. apply Hf in H. discriminate.
  - change (Connect true :: SetAutocommit false :: sent ++ cm ++ puts ++ fin)
      with ([Connect true; SetAutocommit false] ++ sent ++ cm ++ puts ++ fin).
    rewrite !count_app.
    destruct (Hno is_connect) as [A B]; [auto|].
    rewrite (count_none _ sent A), (count_none _ fin B), (count_none _ cm X2).
    rewrite (count_none is_connect puts) by absent.
    reflexivity.
  - change (Connect true :: SetAutocommit false :: sent ++ cm ++ puts ++ fin)
      with ([Connect true; SetAutocommit false] ++ sent ++ cm ++ puts ++ fin).
    rewrite !count_app.
    destruct (Hno is_commit) as [A B]; [auto|].
    rewrite (count_none _ sent A), (count_none _ fin B).
    rewrite (count_none is_commit puts) by absent.
    unfold count at 1. simpl. lia.
  - simpl. rewrite !pages_sent_app.
    rewrite (pages_sent_none cm X1).
    rewrite (pages_sent_none puts) by absent.
    rewrite (pages_sent_none fin) by absent.
    rewrite !app_nil_r. reflexivity.
  - simpl. rewrite !existsb_app.
    destruct (Hno is_put) as [A B]; [auto|]. rewrite A, B.
    replace (existsb is_put cm) with false
      by (destruct Hcm as [-> | [_ [-> | ->]]]; reflexivity).
    rewrite orb_false_r. reflexivity.
Qed.

Lemma radar_contract_from_shape (N : numerics) (e : env)
    (respond : nat -> request -> response) (rows data : list tuple)
    (radar_key : option string) (w' : world) (sent cm puts fin : list event) :
  log w' = Connect true :: SetAutocommit false :: sent ++ cm ++ puts ++ fin ->
  forallb is_execute sent = true ->
  forallb is_put puts = true ->
  forallb (fun x => is_rollback x || is_close x) fin = true ->
  cm = [Commit true] \/ (puts = [] /\ (cm = [] \/ cm = [Commit false])) ->
  (exists rest, pages_sent sent ++ rest = paginate default_page_size data) ->
  (forall j, count (is_put_at j) puts <= 1) ->
  (forall j req, In (Put j req) puts ->
     exists t k, nth_error data j = Some t /\ radar_key = Some k
                 /\ MainWithRadar.sent
                      (MainWithRadar.upsert_radar_geofence N (respond j) t k)
                    = Some req) ->
  (puts <> [] ->
     MainWithRadar.key_present radar_key = true
     /\ first_error e (List.length (paginate default_page_size data)) = None
     /\ table w' = rows ++ data) ->
  radar_after_commit N e respond rows data radar_key w'.
Proof.
  intros Hlog Hs Hp Hf Hcm Hpg Hone Hreq Hok.
  destruct (radar_log_facts sent cm puts fin Hs Hp Hf Hcm)
    as (F1 & F2 & F3 & F4 & F5 & F6 & F7).
  unfold radar_after_commit. rewrite Hlog.
  split; [exact F1|]. split.
  { rewrite F7. intros H. apply Hok. intros ->. discriminate H. }
  split; [intros i; rewrite F2; apply Hone|].
  split; [intros i req H; apply Hreq, F3, H|].
  split; [exact F4|]. split; [exact F5|].
  rewrite F6. exact Hpg.
Qed.

(** C3. In a run of mainWithRadar.py, a geofence PUT is sent only after the
    batch was committed and only with the Radar key present; the record at
    an index gets at most one PUT; nothing is sent again after a failure:
    one connect, at most one commit, each page at most once. *)
Theorem radar_put_only_after_commit (N : numerics) (e : env)
    (respond : nat -> request -> response) (rows data : list tuple)
    (radar_key : option string) :
  radar_after_commit N e respond rows data radar_key
    (fst (MainWithRadar.insert_data_to_neon N e respond data radar_key
            (initial rows))).
Proof.
  rewrite radar_insert_try_block.
  destruct (try_block_spec e default_page_size rows data)
    as (w1 & conn & raised & sent & cm & E & Hr & Hc & Hlog & Hex & Hpg & Hcm
        & Hconn & Ht & Hst & Hst').
  rewrite E.
  destruct (connect_error e) as [x|] eqn:Ec; subst conn.
  - (* the connection failed: the log is [Connect false] *)
    unfold first_error in Hr. rewrite Ec in Hr. subst raised.
    assert (log (if false then close w1 else w1) = [Connect false]) as L by exact Hlog.
    unfold radar_after_commit.
    replace (fst (let '(w2, raised') := (w1, Some x) in
                  let w3 := match raised' with
                            | Some DbError => if false then rollback w2 else w2
                            | _ => w2
                            end in
                  (if false then close w3 else w3, None))) with w1
      by (destruct x; reflexivity).
    rewrite Hlog.
    split; [apply preceded_by_check; reflexivity|].
    split; [discriminate|].
    split; [intros i; unfold count; simpl; lia|].
    split; [intros i req [H | []]; discriminate H|].
    split; [reflexivity|].
    split; [unfold count; simpl; lia|].
    exists (paginate default_page_size data). reflexivity.
  - simpl in Hlog. destruct Hcm as [[-> ->] | [Hne Hcm]].
    + (* committed *)
      destruct radar_key as [k|]; [destruct (str_truthy k) eqn:Ek|].
      * (* the key is present: the import runs *)
        destruct (radar_import_spec N respond k data 0 0 w1)
          as (T & S & C & R & puts & L & P & One & Req).
        destruct (MainWithRadar.radar_import N respond k 0 data 0 w1)
          as [[w4 c] r] eqn:Er.
        simpl in T, S, C, R, L.
        assert (fst (let w3 := match r with
                               | Some DbError => rollback w4
                               | _ => w4
                               end in (close w3, @None exn)) = close w4) as Hw
          by (destruct r as [[|]|]; [contradiction | reflexivity | reflexivity]).
        cbn beta iota zeta. cbn beta iota zeta in Hw. rewrite Hw.
        apply (radar_contract_from_shape N e respond rows data (Some k) (close w4)
                 sent [Commit true] puts [Close]); auto.
        -- simpl. rewrite L, Hlog. simpl. rewrite <- !app_assoc. reflexivity.
        -- intros j req H. destruct (Req j req H) as (_ & t & Ht' & Hs).
           rewrite Nat.sub_0_r in Ht'. exists t, k. auto.
        -- intros _. simpl. rewrite Ek, <- Hr, T, Ht. auto.
      * (* the key is empty *)
        apply (radar_contract_from_shape N e respond rows data (Some k) _
                 sent [Commit true] [] [Close]); auto;
          first [ simpl; rewrite Hlog; simpl; rewrite <- !app_assoc; reflexivity
                | intros j; unfold count; simpl; lia
                | intros j req []
                | congruence ].
      * (* no key *)
        apply (radar_contract_from_shape N e respond rows data None _
                 sent [Commit true] [] [Close]); auto;
          first [ simpl; rewrite Hlog; simpl; rewrite <- !app_assoc; reflexivity
                | intros j; unfold count; simpl; lia
                | intros j req []
                | congruence ].
    + (* the insert failed *)
      destruct raised as [[|]|]; [| |congruence].
      * apply (radar_contract_from_shape N e respond rows data radar_key _
                 sent cm [] [Rollback; Close]); auto;
          first [ simpl; rewrite Hlog; simpl; rewrite <- !app_assoc; reflexivity
                | intros j; unfold count; simpl; lia
                | intros j req []
                | congruence ].
      * apply (radar_contract_from_shape N e respond rows data radar_key _
                 sent cm [] [Close]); auto;
          first [ simpl; rewrite Hlog; simpl; rewrite <- !app_assoc; reflexivity
                | intros j; unfold count; simpl; lia
                | intros j req []
                | congruence ].
Qed.

End RadarRun.

(** ** The geofence upsert *)
Section Upsert.
Import Py Pg Spec.
Local Open Scope list_scope.

(** What a call that sent a request did: the items were there, the
    coordinates were not [None], and the request is built from them. *)
Lemma upsert_sent_inv (N : numerics) (respond : request -> response)
    (t : tuple) (key : string) (req : request) :
  MainWithRadar.sent (MainWithRadar.upsert_radar_geofence N respond t key) = Some req ->
  exists dealer_id user_id name region area phone_no latitude longitude status
         user_truthy lng lat,
    item t 0 = Some dealer_id /\ item t 1 = Some user_id /\ item t 4 = Some name
    /\ item t 5 = Some region /\ item t 6 = Some area /\ item t 7 = Some phone_no
    /\ item t 17 = Some latitude /\ item t 18 = Some longitude
    /\ item t 19 = Some status
    /\ obj_is_none latitude = false /\ obj_is_none longitude = false
    /\ obj_truthy user_id = Some user_truthy
    /\ obj_float N longitude = Some lng /\ obj_float N latitude = Some lat
    /\ url req = ("https://api.radar.io/v1/geofences/dealer/dealer:"
                  ++ obj_str dealer_id)%string
    /\ data req =
       [ ("description", Text (slice_to 120 (obj_str name)));
         ("type", Text "circle");
         ("coordinates", JsonFloats [lng; lat]);
         ("radius", Text "50");
         ("tag", Text "dealer");
         ("externalId", Text ("dealer:" ++ obj_str dealer_id)%string);
         ("metadata",
          JsonDict (MainWithRadar.metadata_of dealer_id user_id region area
                      phone_no status user_truthy)) ].
Proof.
  unfold MainWithRadar.upsert_radar_geofence.
  destruct (item t 0) as [x0|]; [|destruct (item t 1), (item t 4), (item t 5),
    (item t 6), (item t 7), (item t 17), (item t 18), (item t 19); discriminate].
  destruct (item t 1) as [x1|]; [|destruct (item t 4), (item t 5),
    (item t 6), (item t 7), (item t 17), (item t 18), (item t 19); discriminate].
  destruct (item t 4) as [x4|]; [|destruct (item t 5),
    (item t 6), (item t 7), (item t 17), (item t 18), (item t 19); discriminate].
  destruct (item t 5) as [x5|]; [|destruct
    (item t 6), (item t 7), (item t 17), (item t 18), (item t 19); discriminate].
  destruct (item t 6) as [x6|];
    [|destruct (item t 7), (item t 17), (item t 18), (item t 19); discriminate].
  destruct (item t 7) as [x7|];
    [|destruct (item t 17), (item t 18), (item t 19); discriminate].
  destruct (item t 17) as [x17|]; [|destruct (item t 18), (item t 19); discriminate].
  destruct (item t 18) as [x18|]; [|destruct (item t 19); discriminate].
  destruct (item t 19) as [x19|]; [|discriminate].
  destruct (obj_is_none x17) eqn:E17; [discriminate|].
  destruct (obj_is_none x18) eqn:E18; [discriminate|].
  cbn [orb].
  destruct (obj_truthy x1) as [ut|] eqn:Et;
    [|destruct (obj_float N x18), (obj_float N x17); discriminate].
  destruct (obj_float N x18) as [lng|] eqn:Elng;
    [|destruct (obj_float N x17); discriminate].
  destruct (obj_float N x17) as [lat|] eqn:Elat; [|discriminate].
  destruct (forallb _ _); [|discriminate].
  match goal with
  | |- context [respond ?r] => destruct (respond r)
  end; cbn [MainWithRadar.sent]; intros H; injection H as <-;
    exists x0, x1, x4, x5, x6, x7, x17, x18, x19, ut, lng, lat;
    cbn [url data]; repeat split; first [reflexivity | assumption].
Qed.

Lemma metadata_values_not_none (dealer_id user_id region area phone_no status : pyobj)
    (user_truthy : bool) (k : string) (v : pyobj) :
  In (k, v) (MainWithRadar.metadata_of dealer_id user_id region area phone_no status
               user_truthy) ->
  obj_is_none v = false.
Proof.
  unfold MainWithRadar.metadata_of. intros H. apply filter_In in H as [_ H].
  simpl in H. apply negb_true_iff in H. exact H.
Qed.

Lemma metadata_without_user (dealer_id user_id region area phone_no status : pyobj) :
  ~ In "userId"
      (map fst (MainWithRadar.metadata_of dealer_id user_id region area phone_no
                  status false)).
Proof.
  unfold MainWithRadar.metadata_of. intros H.
  apply in_map_iff in H as [[k v] [Hk H]]. simpl in Hk. subst k.
  apply filter_In in H as [H Hv]. simpl in H, Hv.
  destruct H as [H | [H | [H | [H | [H | [H | []]]]]]]; try discriminate H.
  injection H as <-. discriminate Hv.
Qed.

Lemma text_or_none_serializable (x : pyobj) :
  text_or_none x = true -> MainWithRadar.serializable x = true.
Proof. destruct x as [[]|]; simpl; congruence. Qed.

Lemma forallb_filter {A : Type} (p f : A -> bool) (l : list A) :
  forallb p l = true -> forallb p (filter f l) = true.
Proof.
  induction l as [|x r IH]; [reflexivity|].
  simpl. intros H. apply andb_true_iff in H as [Hx Hr].
  destruct (f x); simpl; [rewrite Hx|]; auto.
Qed.

Lemma metadata_serializable (dealer_id user_id region area phone_no status : pyobj)
    (user_truthy : bool) :
  text_or_none region = true -> text_or_none area = true ->
  text_or_none phone_no = true -> text_or_none status = true ->
  forallb (fun kv => MainWithRadar.serializable (snd kv))
    (MainWithRadar.metadata_of dealer_id user_id region area phone_no status
       user_truthy) = true.
Proof.
  intros H1 H2 H3 H4. unfold MainWithRadar.metadata_of. apply forallb_filter.
  simpl.
  rewrite (text_or_none_serializable region H1), (text_or_none_serializable area H2),
    (text_or_none_serializable phone_no H3), (text_or_none_serializable status H4).
  destruct user_truthy; reflexivity.
Qed.

Lemma number_as_float (N : numerics) (x : pyobj) :
  number_or_none x = true -> obj_is_none x = false ->
  exists f, obj_float N x = Some f.
Proof. destruct x as [[]|]; simpl; try discriminate; eauto. Qed.

(** The two ways a call on a dealer record goes. *)
Lemma upsert_on_dealer_record (N : numerics) (respond : request -> response)
    (t : tuple) (key : string) (id name latitude longitude : pyobj) :
  dealer_record t = true ->
  column MainWithRadar.TARGET_COLUMNS t "id" = Some id ->
  column MainWithRadar.TARGET_COLUMNS t "name" = Some name ->
  column MainWithRadar.TARGET_COLUMNS t "latitude" = Some latitude ->
  column MainWithRadar.TARGET_COLUMNS t "longitude" = Some longitude ->
  let a := MainWithRadar.upsert_radar_geofence N respond t key in
  (obj_is_none latitude = false /\ obj_is_none longitude = false ->
   exists req lng lat,
     MainWithRadar.sent a = Some req
     /\ obj_float N longitude = Some lng /\ obj_float N latitude = Some lat
     /\ url req = ("https://api.radar.io/v1/geofences/dealer/dealer:" ++ obj_str id)%string
     /\ form_field "type" (data req) = Some (Text "circle")
     /\ form_field "radius" (data req) = Some (Text "50")
     /\ form_field "coordinates" (data req) = Some (JsonFloats [lng; lat])
     /\ form_field "externalId" (data req) = Some (Text ("dealer:" ++ obj_str id)%string)
     /\ form_field "tag" (data req) = Some (Text "dealer")
     /\ form_field "description" (data req)
        = Some (Text (substring 0 120 (obj_str name))))
  /\ (obj_is_none latitude = true \/ obj_is_none longitude = true ->
      a = {| MainWithRadar.sent := None;
             MainWithRadar.result := MainWithRadar.Returned false |}).
Proof.
  intros H Hid Hname Hlat Hlon.
  unfold dealer_record in H. repeat rewrite andb_true_iff in H.
  destruct H as (((((((((Hlen & H0) & H1) & H4) & H5) & H6) & H7) & H17) & H18) & H19).
  apply Nat.eqb_eq in Hlen.
  destruct t as [|x0 t]; [discriminate Hlen|].
  destruct t as [|x1 t]; [discriminate Hlen|].
  destruct t as [|x2 t]; [discriminate Hlen|].
  destruct t as [|x3 t]; [discriminate Hlen|].
  destruct t as [|x4 t]; [discriminate Hlen|].
  destruct t as [|x5 t]; [discriminate Hlen|].
  destruct t as [|x6 t]; [discriminate Hlen|].
  destruct t as [|x7 t]; [discriminate Hlen|].
  destruct t as [|x8 t]; [discriminate Hlen|].
  destruct t as [|x9 t]; [discriminate Hlen|].
  destruct t as [|x10 t]; [discriminate Hlen|].
  destruct t as [|x11 t]; [discriminate Hlen|].
  destruct t as [|x12 t]; [discriminate Hlen|].
  destruct t as [|x13 t]; [discriminate Hlen|].
  destruct t as [|x14 t]; [discriminate Hlen|].
  destruct t as [|x15 t]; [discriminate Hlen|].
  destruct t as [|x16 t]; [discriminate Hlen|].
  destruct t as [|x17 t]; [discriminate Hlen|].
  destruct t as [|x18 t]; [discriminate Hlen|].
  destruct t as [|x19 t]; [discriminate Hlen|].
  destruct t as [|x20 t]; [discriminate Hlen|].
  destruct t as [|x21 t]; [discriminate Hlen|].
  destruct t as [|x22 t]; [discriminate Hlen|].
  destruct t as [|x23 t]; [discriminate Hlen|].
  destruct t as [|x24 t]; [discriminate Hlen|].
  destruct t as [|x25 t]; [|discriminate Hlen].
  cbv in Hid. cbv in Hname. cbv in Hlat. cbv in Hlon.
  injection Hid as <-. injection Hname as <-.
  injection Hlat as <-. injection Hlon as <-.
  cbn [holds item nth_error] in H0, H1, H4, H5, H6, H7, H17, H18, H19.
  cbv zeta. unfold MainWithRadar.upsert_radar_geofence. cbn [item nth_error].
  split.
  - intros [E17 E18]. rewrite E17, E18. cbn [orb].
    destruct x1 as [[| | | | |n| | |]|]; try discriminate H1.
    cbn [obj_truthy truthy].
    destruct (number_as_float N x18 H18 E18) as [lng Elng].
    destruct (number_as_float N x17 H17 E17) as [lat Elat].
    rewrite Elng, Elat.
    rewrite (metadata_serializable x0 (Scalar (CInt n)) x5 x6 x7 x19 _ H5 H6 H7 H19).
    match goal with
    | |- context [respond ?r] => destruct (respond r)
    end; eexists _, lng, lat; cbn [MainWithRadar.sent url data];
      repeat split; reflexivity.
  - intros [E | E]; rewrite E; [|rewrite orb_true_r]; reflexivity.
Qed.


(** C4. For a dealer record, [upsert_radar_geofence] reads the identifier,
    the name and the coordinates at the positions [TARGET_COLUMNS] gives
    them.  When neither coordinate is [None] it sends one PUT that describes
    a circle of radius 50 at [longitude, latitude], with the external
    identifier "dealer:<id>", the tag "dealer" and, as description, the first
    120 characters of [str(name)]; when a coordinate is [None] it sends
    nothing and returns [False]. *)
Theorem upsert_sends_circle_or_skips (N : numerics) (respond : request -> response)
    (t : tuple) (key : string) (id name latitude longitude : pyobj) :
  dealer_record t = true ->
  column MainWithRadar.TARGET_COLUMNS t "id" = Some id ->
  column MainWithRadar.TARGET_COLUMNS t "name" = Some name ->
  column MainWithRadar.TARGET_COLUMNS t "latitude" = Some latitude ->
  column MainWithRadar.TARGET_COLUMNS t "longitude" = Some longitude ->
  let a := MainWithRadar.upsert_radar_geofence N respond t key in
  (obj_is_none latitude = false /\ obj_is_none longitude = false ->
   exists req lng lat,
     MainWithRadar.sent a = Some req
     /\ obj_float N longitude = Some lng /\ obj_float N latitude = Some lat
     /\ url req = ("https://api.radar.io/v1/geofences/dealer/dealer:" ++ obj_str id)%string
     /\ form_field "type" (data req) = Some (Text "circle")
     /\ form_field "radius" (data req) = Some (Text "50")
     /\ form_field "coordinates" (data req) = Some (JsonFloats [lng; lat])
     /\ form_field "externalId" (data req) = Some (Text ("dealer:" ++ obj_str id)%string)
     /\ form_field "tag" (data req) = Some (Text "dealer")
     /\ form_field "description" (data req)
        = Some (Text (substring 0 120 (obj_str name))))
  /\ (obj_is_none latitude = true \/ obj_is_none longitude = true ->
      a = {| MainWithRadar.sent := None;
             MainWithRadar.result := MainWithRadar.Returned false |}).
Proof. exact (upsert_on_dealer_record N respond t key id name latitude longitude). Qed.

Lemma upsert_example :
  (obj_is_none (Scalar (CFloat "26.1445")) = false
   /\ obj_is_none (Scalar (CFloat "91.7362")) = false ->
   exists req lng lat,
     MainWithRadar.sent
       (MainWithRadar.upsert_radar_geofence plain_numerics example_response
          example_dealer "prj_live_sk_1") = Some req
     /\ obj_float plain_numerics (Scalar (CFloat "91.7362")) = Some lng
     /\ obj_float plain_numerics (Scalar (CFloat "26.1445")) = Some lat
     /\ url req = "https://api.radar.io/v1/geofences/dealer/dealer:6f1c2d3e-0a4b-4c5d-8e9f-001122334455"
     /\ form_field "type" (data req) = Some (Text "circle")
     /\ form_field "radius" (data req) = Some (Text "50")
     /\ form_field "coordinates" (data req) = Some (JsonFloats [lng; lat])
     /\ form_field "externalId" (data req)
        = Some (Text "dealer:6f1c2d3e-0a4b-4c5d-8e9f-001122334455")
     /\ form_field "tag" (data req) = Some (Text "dealer")
     /\ form_field "description" (data req) = Some (Text "Hill View Traders"))
  /\ (obj_is_none (Scalar (CFloat "26.1445")) = true
      \/ obj_is_none (Scalar (CFloat "91.7362")) = true ->
      MainWithRadar.upsert_radar_geofence plain_numerics example_response
        example_dealer "prj_live_sk_1"
      = {| MainWithRadar.sent := None;
           MainWithRadar.result := MainWithRadar.Returned false |}).
Proof.
  apply (upsert_sends_circle_or_skips plain_numerics example_response example_dealer
           "prj_live_sk_1"
           (Scalar (CStr "6f1c2d3e-0a4b-4c5d-8e9f-001122334455"))
           (Scalar (CStr "Hill View Traders"))
           (Scalar (CFloat "26.1445")) (Scalar (CFloat "91.7362")));
    reflexivity.
Defined.

(** C10. The metadata of every geofence PUT holds no [None]: the keys whose
    value is [None] are dropped before the request, and a [user_id] of 0
    leaves no "userId" key. *)
Theorem metadata_never_holds_none (N : numerics) (respond : request -> response)
    (t : tuple) (key : string) (req : request) (members : list (string * pyobj)) :
  MainWithRadar.sent (MainWithRadar.upsert_radar_geofence N respond t key) = Some req ->
  form_field "metadata" (data req) = Some (JsonDict members) ->
  (forall k v, In (k, v) members -> obj_is_none v = false)
  /\ (item t 1 = Some (Scalar (CInt 0)) -> ~ In "userId" (map fst members)).
Proof.
  intros Hs Hm.
  destruct (upsert_sent_inv N respond t key req Hs)
    as (x0 & x1 & x4 & x5 & x6 & x7 & x17 & x18 & x19 & ut & lng & lat
        & _ & I1 & _ & _ & _ & _ & _ & _ & _ & _ & _ & Et & _ & _ & _ & Hd).
  rewrite Hd in Hm. cbn in Hm. injection Hm as <-.
  split.
  - intros k v H. exact (metadata_values_not_none _ _ _ _ _ _ _ _ _ H).
  - intros Hu. rewrite Hu in I1. injection I1 as <-.
    cbn in Et. injection Et as <-.
    exact (metadata_without_user x0 (Scalar (CInt 0)) x5 x6 x7 x19).
Qed.

Lemma metadata_example :
  (forall k v, In (k, v) example_members -> obj_is_none v = false)
  /\ (item example_dealer 1 = Some (Scalar (CInt 0)) ->
      ~ In "userId" (map fst example_members)).
Proof.
  apply (metadata_never_holds_none plain_numerics example_response example_dealer
           "prj_live_sk_1" example_request example_members);
    reflexivity.
Defined.

End Upsert.

(** ** Numeric coercion *)
Section Numeric.
Import Py Pandas Spec.
Local Open Scope list_scope.

Variable N : numerics.

Lemma to_numeric1_missing (c : cell) : isna c = true -> to_numeric1 N c = NNaN.
Proof. destruct c; simpl; congruence. Qed.

Lemma to_numeric1_unparseable (s : string) :
  numeric_of_str N s = None -> to_numeric1 N (CStr s) = NNaN.
Proof. intros H. simpl. rewrite H. destruct s; reflexivity. Qed.

Lemma astype_int_nth (col : list cell) :
  forall out, astype_int N col = Some out ->
  forall i c, nth_error col i = Some c ->
  exists n, astype_int1 N c = Some n /\ nth_error out i = Some n.
Proof.
  induction col as [|x r IH]; intros out H i c Hi.
  - destruct i; discriminate.
  - simpl in H. destruct (astype_int1 N x) as [n|] eqn:Ex; [|discriminate].
    destruct (astype_int N r) as [ns|] eqn:Er; [|discriminate].
    injection H as <-. destruct i as [|i]; simpl in *.
    + injection Hi as <-. eauto.
    + exact (IH ns eq_refl i c Hi).
Qed.

(** A cell that [to_numeric] turns into NaN ends as the int 0, whenever the
    cast of the column goes through. *)
Lemma numeric_col_nan_is_zero (col : list cell) (out : list Z) :
  int_of_float N "0.0" = Some 0%Z ->
  Main.numeric_col N col = Some out ->
  forall i c, nth_error col i = Some c -> to_numeric1 N c = NNaN ->
  nth_error out i = Some 0%Z.
Proof.
  intros Hz H i c Hi Hc. unfold Main.numeric_col, to_numeric in H.
  destruct (forallb is_bool col) eqn:Eb.
  - rewrite forallb_forall in Eb. specialize (Eb c (nth_error_In _ _ Hi)).
    destruct c; discriminate.
  - destruct (forallb is_int (map (to_numeric1 N) col)) eqn:Ei.
    + rewrite forallb_forall in Ei.
      specialize (Ei (to_numeric1 N c) (in_map _ _ _ (nth_error_In _ _ Hi))).
      rewrite Hc in Ei. discriminate.
    + destruct (astype_int_nth _ _ H i (CFloat "0.0")) as (n & Hn & Ho).
      { unfold fillna0. rewrite !map_map.
        rewrite (map_nth_error _ _ _ Hi), Hc. reflexivity. }
      simpl in Hn. congruence.
Qed.

(** In main.py and mainWithRadar.py, in a column of [user_id],
    [total_potential] or [best_potential] that holds no date and no NaT (so
    that pandas does not hold it as datetime64), a cell that is missing for
    pandas or is a text [to_numeric] cannot read ends as the int 0, whenever
    the cast of the column goes through. *)
Lemma numeric_col_missing_is_zero (col : list cell) (out : list Z) (i : nat) (c : cell) :
  existsb is_datetime col = false ->
  int_of_float N "0.0" = Some 0%Z ->
  Main.numeric_col N col = Some out ->
  nth_error col i = Some c ->
  isna c = true \/ (exists s, c = CStr s /\ numeric_of_str N s = None) ->
  nth_error out i = Some 0%Z.
Proof.
  intros _ Hz H Hi Hc. apply (numeric_col_nan_is_zero col out Hz H i c Hi).
  destruct Hc as [Hc | [s [-> Hs]]].
  - apply to_numeric1_missing. exact Hc.
  - apply to_numeric1_unparseable. exact Hs.
Qed.

(** A column of coordinates that holds a float comes back from
    [numeric_float_col] as a float64 column: the lambda turns each NaN into
    [None], and the dtype inference of [Series.apply] stores each [None] as
    NaN again. *)
Lemma float_col_with_a_number (col : list cell) (r : string) :
  In (CFloat r) col ->
  Main.numeric_float_col N col = map (as_float N) (map (to_numeric1 N) col).
Proof.
  intros Hr. unfold Main.numeric_float_col, Pandas.apply, to_numeric.
  replace (forallb is_bool col) with false.
  2:{ symmetry. apply not_true_is_false. intros H. rewrite forallb_forall in H.
      specialize (H _ Hr). discriminate. }
  replace (forallb is_int (map (to_numeric1 N) col)) with false.
  2:{ symmetry. apply not_true_is_false. intros H. rewrite forallb_forall in H.
      specialize (H _ (in_map (to_numeric1 N) _ _ Hr)). discriminate. }
  set (ys := map (as_float N) (map (to_numeric1 N) col)).
  assert (forall y, In y ys -> exists x, y = as_float N x) as Hys.
  { intros y Hy. apply in_map_iff in Hy as [x [<- _]]. eauto. }
  assert (In (CFloat r) ys) as Hin
    by (apply in_map_iff; exists (NFloat r); split;
        [reflexivity | apply (in_map (to_numeric1 N) _ _ Hr)]).
  unfold maybe_convert_objects.
  replace (forallb plain_number (map (fun x => if isna x then CNone else x) ys))
    with true.
  2:{ symmetry. apply forallb_forall. intros z Hz.
      apply in_map_iff in Hz as [y [<- Hy]]. destruct (Hys y Hy) as [x ->].
      destruct x; reflexivity. }
  replace (existsb is_floating (map (fun x => if isna x then CNone else x) ys))
    with true.
  2:{ symmetry. apply existsb_exists. exists (CFloat r). split; [|reflexivity].
      apply in_map_iff. exists (CFloat r). auto. }
  simpl. rewrite map_map. rewrite <- (map_id ys) at 2.
  apply map_ext_in. intros y Hy. destruct (Hys y Hy) as [x ->].
  destruct x; reflexivity.
Qed.

Lemma float_col_missing_is_nan (col : list cell) (r : string) :
  In (CFloat r) col ->
  forall i c, nth_error col i = Some c -> to_numeric1 N c = NNaN ->
  nth_error (Main.numeric_float_col N col) i = Some CNaN.
Proof.
  intros Hr i c Hi Hc. rewrite (float_col_with_a_number col r Hr), map_map.
  rewrite (map_nth_error _ _ _ Hi), Hc. reflexivity.
Qed.

(** [None] is left only in a column without any number. *)
Lemma float_col_all_missing (col : list cell) :
  col <> [] -> (forall c, In c col -> to_numeric1 N c = NNaN) ->
  Main.numeric_float_col N col = map (fun _ => CNone) col.
Proof.
  intros Hne Hall. unfold Main.numeric_float_col, Pandas.apply, to_numeric.
  destruct col as [|c0 rest]; [congruence|].
  replace (forallb is_bool (c0 :: rest)) with false.
  2:{ symmetry. simpl. pose proof (Hall c0 (or_introl eq_refl)).
      destruct c0; try reflexivity; discriminate. }
  replace (forallb is_int (map (to_numeric1 N) (c0 :: rest))) with false.
  2:{ symmetry. simpl. rewrite (Hall c0 (or_introl eq_refl)). reflexivity. }
  assert (map (fun x => if isna x then CNone else x)
            (map (as_float N) (map (to_numeric1 N) (c0 :: rest)))
          = map (fun _ => CNone) (c0 :: rest)) as E.
  { rewrite !map_map. apply map_ext_in. intros c Hc. rewrite (Hall c Hc). reflexivity. }
  rewrite E. unfold maybe_convert_objects.
  replace (existsb is_floating (map (fun _ => CNone) (c0 :: rest))) with false.
  2:{ symmetry. generalize (c0 :: rest). intros l. induction l; simpl; auto. }
  replace (existsb is_integer (map (fun _ : cell => CNone) (c0 :: rest))) with false.
  2:{ symmetry. generalize (c0 :: rest). intros l. induction l; simpl; auto. }
  rewrite (andb_false_r (existsb is_none _)). cbn [orb].
  rewrite andb_false_r. reflexivity.
Qed.

(** C7, where the code departs from it: with one coordinate present, the
    empty latitude cell of the next row ends as NaN and not as [None], in
    main.py and in mainWithRadar.py alike. *)
Theorem latitude_missing_stays_nan :
  Main.numeric_float_col N [CFloat "26.1445"; CNone] = [CFloat "26.1445"; CNaN]
  /\ MainWithRadar.numeric_float_col N [CFloat "26.1445"; CNone]
     = [CFloat "26.1445"; CNaN].
Proof. split; reflexivity. Qed.

(** The record of such a row is not skipped by [upsert_radar_geofence]: a
    PUT goes out with NaN for both coordinates. *)
Lemma nan_coordinates_are_sent (respond : Pg.request -> Pg.response) (key : string)
    (t : tuple) :
  dealer_record t = true ->
  item t 17 = Some (Scalar CNaN) -> item t 18 = Some (Scalar CNaN) ->
  exists req,
    MainWithRadar.sent (MainWithRadar.upsert_radar_geofence N respond t key) = Some req
    /\ form_field "coordinates" (Pg.data req) = Some (Pg.JsonFloats [CNaN; CNaN]).
Proof.
  intros H H17 H18.
  assert (exists id name,
            column MainWithRadar.TARGET_COLUMNS t "id" = Some id
            /\ column MainWithRadar.TARGET_COLUMNS t "name" = Some name)
    as (id & name & Hid & Hname).
  { unfold dealer_record in H. repeat rewrite andb_true_iff in H.
    destruct H as (((((((((_ & H0) & _) & H4) & _) & _) & _) & _) & _) & _).
    change (column MainWithRadar.TARGET_COLUMNS t "id") with (item t 0).
    change (column MainWithRadar.TARGET_COLUMNS t "name") with (item t 4).
    destruct (item t 0); [|discriminate]. destruct (item t 4); [|discriminate].
    eauto. }
  destruct (upsert_on_dealer_record N respond t key id name
              (Scalar CNaN) (Scalar CNaN) H Hid Hname H17 H18) as [Hput _].
  destruct (Hput (conj eq_refl eq_refl))
    as (req & lng & lat & Hs & El & Ea & _ & _ & _ & Hc & _).
  simpl in El, Ea. injection El as <-. injection Ea as <-. eauto.
Qed.

End Numeric.

(** ** The scripts on concrete inputs *)
Section Examples.
Import Py Pandas Pg Spec.
Local Open Scope list_scope.

Example clean_pin_code : Main.clean_value (CFloat "781001.0") = Some "781001".
Proof. reflexivity. Qed.

Example clean_blank : Main.clean_value (CStr "   ") = None.
Proof. reflexivity. Qed.

Example clean_nan_text : TallyDealers.clean_value (CStr " NaN ") = None.
Proof. reflexivity. Qed.

Example clean_newline : VerifiedDealers.clean_value (CStr (String "7" (String newline "")))
                        = Some "7".
Proof. reflexivity. Qed.

Example boolean_words :
  map VerifiedDealers.clean_boolean
    [CBool true; CStr " YES "; CInt 0; CFloat "1.0"; CStr "maybe"; CNaN]
  = [Some true; Some true; Some false; None; None; None].
Proof. reflexivity. Qed.

Example numeric_col_example :
  Main.numeric_col plain_numerics [CInt 3; CStr "x"; CNone; CStr "12"]
  = Some [3; 0; 0; 12]%Z.
Proof. reflexivity. Qed.

Lemma numeric_col_missing_example : nth_error [3; 0; 0; 12]%Z 1 = Some 0%Z.
Proof.
  apply (numeric_col_missing_is_zero plain_numerics
           [CInt 3; CStr "x"; CNone; CStr "12"] [3; 0; 0; 12]%Z 1 (CStr "x"));
    [reflexivity | reflexivity | reflexivity | reflexivity
    | right; exists "x"; split; reflexivity].
Defined.

Lemma float_col_example :
  Main.numeric_float_col plain_numerics [CFloat "26.1445"; CStr "n/a"; CInt 91]
  = map (as_float plain_numerics)
      (map (to_numeric1 plain_numerics) [CFloat "26.1445"; CStr "n/a"; CInt 91]).
Proof.
  apply (float_col_with_a_number plain_numerics
           [CFloat "26.1445"; CStr "n/a"; CInt 91] "26.1445").
  simpl. auto.
Defined.

Example float_col_value :
  Main.numeric_float_col plain_numerics [CFloat "26.1445"; CStr "n/a"; CInt 91]
  = [CFloat "26.1445"; CNaN; CFloat "91.0"].
Proof. reflexivity. Qed.

(** A batch of three records in pages of two. *)
Example pages_of_two :
  paginate 2 [example_dealer; example_dealer; example_dealer]
  = [[example_dealer; example_dealer]; [example_dealer]].
Proof. reflexivity. Qed.

(** A database error on the insert: nothing reaches the table, and the log
    shows the rollback and the close. *)
Example insert_fails :
  let e := {| connect_error := None;
              execute_error := fun _ => Some DbError;
              commit_error := None |} in
  let w := fst (Main.insert_data_to_neon e [example_dealer] (initial [])) in
  table w = []
  /\ connected w = false
  /\ log w = [ Connect true; SetAutocommit false; Execute [example_dealer] false;
               Rollback; Close ].
Proof. repeat split. Qed.

(** A run of mainWithRadar.py with a key: the commit, then the PUT. *)
Example radar_run :
  let e := {| connect_error := None;
              execute_error := fun _ => None;
              commit_error := None |} in
  let w := fst (MainWithRadar.insert_data_to_neon plain_numerics e
                  (fun _ => example_response) [example_dealer]
                  (Some "prj_live_sk_1") (initial [])) in
  table w = [example_dealer]
  /\ log w = [ Connect true; SetAutocommit false; Execute [example_dealer] true;
               Commit true; Put 0 example_request; Close ].
Proof. repeat split. Qed.

End Examples.

(* ================================================================== *)
(** * Part III: the rest of the scripts *)
(* ================================================================== *)

(** ** The statement text *)
Section Statement.
Import Py Props.

Lemma count_char_app (c : ascii) (p q : string) :
  count_char c (p ++ q) = count_char c p + count_char c q.
Proof. induction p as [|d p IH]; simpl; [reflexivity | rewrite IH; lia]. Qed.

Lemma count_char_concat (c : ascii) (sep : string) (l : list string) :
  count_char c sep = 0 ->
  count_char c (String.concat sep l) = list_sum (map (count_char c) l).
Proof.
  intros Hs. induction l as [|x r IH]; [reflexivity|].
  destruct r as [|y r'].
  - simpl. lia.
  - change (String.concat sep (x :: y :: r'))
      with (x ++ sep ++ String.concat sep (y :: r')).
    rewrite !count_char_app, IH, Hs. reflexivity.
Qed.

Lemma count_percent_quoted (col : string) :
  count_char "%" (MainScript.quoted col) = count_char "%" col.
Proof.
  unfold MainScript.quoted. simpl. rewrite count_char_app. simpl. lia.
Qed.

Lemma count_percent_columns (columns : list string) :
  forallb (fun c => Nat.eqb (count_char "%" c) 0) columns = true ->
  count_char "%" (MainScript.column_list columns) = 0.
Proof.
  intros H. unfold MainScript.column_list.
  rewrite count_char_concat by reflexivity.
  induction columns as [|c r IH]; [reflexivity|].
  simpl in H. apply andb_true_iff in H as [Hc Hr]. apply Nat.eqb_eq in Hc.
  cbn [map list_sum fold_right]. fold (list_sum (map (count_char "%") (map MainScript.quoted r))).
  rewrite count_percent_quoted, Hc, (IH Hr). reflexivity.
Qed.

Lemma count_percent_placeholders (n : nat) :
  count_char "%" (MainScript.placeholders n) = n.
Proof.
  unfold MainScript.placeholders. rewrite count_char_concat by reflexivity.
  induction n as [|n IH]; [reflexivity|]. simpl. rewrite IH. reflexivity.
Qed.

(** A part without a percent sign adds no placeholder. *)
Lemma count_placeholders_skip (a b : string) :
  count_char "%" a = 0 -> count_placeholders (a ++ b) = count_placeholders b.
Proof.
  induction a as [|c r IH]; intros H; [reflexivity|].
  cbn [count_char] in H. destruct (Ascii.eqb "%" c) eqn:E; [discriminate|].
  change (String c r ++ b) with (String c (r ++ b)).
  cbn [count_placeholders]. rewrite E, (IH H). destruct (r ++ b); reflexivity.
Qed.

Lemma count_placeholders_one (rest : string) :
  count_placeholders ("%s" ++ rest) = 1 + count_placeholders rest.
Proof. simpl. destruct rest; reflexivity. Qed.

Lemma append_assoc (a b c : string) : (a ++ b) ++ c = a ++ b ++ c.
Proof. induction a as [|x a IH]; simpl; [reflexivity | rewrite IH; reflexivity]. Qed.

Lemma count_placeholders_values (n : nat) (rest : string) :
  count_placeholders (MainScript.placeholders n ++ rest) = n + count_placeholders rest.
Proof.
  unfold MainScript.placeholders.
  induction n as [|n IH]; [reflexivity|].
  destruct n as [|n].
  - exact (count_placeholders_one rest).
  - change (String.concat ", " (repeat "%s" (S (S n))))
      with ("%s" ++ ", " ++ String.concat ", " (repeat "%s" (S n))).
    rewrite !append_assoc, count_placeholders_one.
    rewrite (count_placeholders_skip ", ") by reflexivity.
    rewrite IH. reflexivity.
Qed.

(** The INSERT statement of main.py and mainWithRadar.py carries exactly
    one [%s] placeholder per column and no other percent sign, whatever the
    table and the columns are, as long as their names hold no percent sign:
    every parameter mark of the statement is a [%s], and a record with one
    value per column fills it. *)
Theorem insert_query_one_placeholder_per_column (table : string)
    (columns : list string) :
  count_char "%" table = 0 ->
  forallb (fun c => Nat.eqb (count_char "%" c) 0) columns = true ->
  count_placeholders (MainScript.insert_query table columns) = List.length columns
  /\ count_char "%" (MainScript.insert_query table columns) = List.length columns.
Proof.
  intros Ht Hc. unfold MainScript.insert_query. split.
  - rewrite (count_placeholders_skip "INSERT INTO ") by reflexivity.
    rewrite (count_placeholders_skip table) by exact Ht.
    rewrite (count_placeholders_skip " (") by reflexivity.
    rewrite (count_placeholders_skip (MainScript.column_list columns))
      by exact (count_percent_columns columns Hc).
    rewrite (count_placeholders_skip ") VALUES (") by reflexivity.
    rewrite count_placeholders_values. simpl. lia.
  - rewrite !count_char_app, Ht, (count_percent_columns columns Hc),
      count_percent_placeholders.
    simpl. lia.
Qed.

Lemma insert_query_dealers :
  count_placeholders (MainScript.insert_query MainScript.TARGET_TABLE Main.TARGET_COLUMNS)
  = List.length Main.TARGET_COLUMNS
  /\ count_char "%" (MainScript.insert_query MainScript.TARGET_TABLE Main.TARGET_COLUMNS)
     = List.length Main.TARGET_COLUMNS.
Proof.
  apply (insert_query_one_placeholder_per_column MainScript.TARGET_TABLE
           Main.TARGET_COLUMNS); reflexivity.
Defined.

End Statement.

(** ** The cleaned columns *)
Section Columns.
Import Py Pandas Spec Props.
Local Open Scope list_scope.

Variable N : numerics.

(** Results that name no number are stored as they are. *)
Lemma maybe_convert_objects_keeps (results : list cell) :
  (forall c, In c results -> is_floating c = false /\ is_integer c = false) ->
  maybe_convert_objects N results = results.
Proof.
  intros H. unfold maybe_convert_objects.
  assert (existsb is_floating results = false) as F.
  { apply not_true_is_false. intros E. apply existsb_exists in E as [c [Hc E]].
    destruct (H c Hc). congruence. }
  assert (existsb is_integer results = false) as I.
  { apply not_true_is_false. intros E. apply existsb_exists in E as [c [Hc E]].
    destruct (H c Hc). congruence. }
  rewrite F, I, andb_false_r. simpl. rewrite andb_false_r. reflexivity.
Qed.

Lemma apply_keeps (f : cell -> cell) (col : list cell) :
  (forall c, is_floating (f c) = false /\ is_integer (f c) = false) ->
  Pandas.apply N f col = map f col.
Proof.
  intros H. unfold Pandas.apply. apply maybe_convert_objects_keeps.
  intros c Hc. apply in_map_iff in Hc as [x [<- _]]. apply H.
Qed.

Lemma cell_of_text_no_number (r : option string) :
  is_floating (cell_of_text r) = false /\ is_integer (cell_of_text r) = false.
Proof. destruct r; split; reflexivity. Qed.

(** In mainWithRadar.py the phone column holds a text in every row: the
    cleaned phone number, and the empty text where [clean_value] gave
    [None]. *)
Theorem phone_col_is_text (col : list cell) :
  RadarScript.phone_col N col
  = map (fun v => CStr (match MainWithRadar.clean_value v with
                        | Some s => s
                        | None => ""
                        end)) col.
Proof.
  unfold RadarScript.phone_col.
  rewrite apply_keeps by (intros c; apply cell_of_text_no_number).
  unfold RadarScript.fillna_empty. rewrite map_map.
  apply map_ext. intros v. destruct (MainWithRadar.clean_value v); reflexivity.
Qed.

Lemma clean_numeric_is_float_or_none (c : cell) :
  TallyDealers.clean_numeric N c = CNone
  \/ TallyDealers.clean_numeric N c = CNaN
  \/ exists r, TallyDealers.clean_numeric N c = CFloat r.
Proof.
  unfold TallyDealers.clean_numeric. destruct (isna c); [auto|].
  destruct c; simpl; eauto.
  destruct (float_of_str N s) as [[n|r|]|]; simpl; eauto.
Qed.

(** In tallyDealers.py, a [cr_limit] column in which [clean_numeric] finds a
    number comes out as a float column: the cells for which [clean_numeric]
    returned [None] hold NaN. *)
Theorem cr_limit_missing_is_nan (col : list cell) (x : cell) (r : string) :
  In x col ->
  TallyDealers.clean_numeric N x = CFloat r ->
  TallyScript.cr_limit_col N col = map (cr_limit_stored N) col.
Proof.
  intros Hx Hr. unfold TallyScript.cr_limit_col, Pandas.apply, maybe_convert_objects.
  replace (forallb plain_number (map (TallyDealers.clean_numeric N) col)) with true.
  2:{ symmetry. apply forallb_forall. intros y Hy.
      apply in_map_iff in Hy as [c [<- _]].
      destruct (clean_numeric_is_float_or_none c) as [-> | [-> | [q ->]]]; reflexivity. }
  replace (existsb is_floating (map (TallyDealers.clean_numeric N) col)) with true.
  2:{ symmetry. apply existsb_exists. exists (CFloat r). split; [|reflexivity].
      rewrite <- Hr. apply in_map. exact Hx. }
  simpl. rewrite map_map. apply map_ext. intros c. unfold cr_limit_stored.
  destruct (clean_numeric_is_float_or_none c) as [-> | [-> | [q ->]]]; reflexivity.
Qed.

End Columns.

Lemma cr_limit_example :
  TallyScript.cr_limit_col Spec.plain_numerics [Py.CFloat "50000.0"; Py.CNone]
  = map (Props.cr_limit_stored Spec.plain_numerics) [Py.CFloat "50000.0"; Py.CNone].
Proof.
  apply (cr_limit_missing_is_nan Spec.plain_numerics
           [Py.CFloat "50000.0"; Py.CNone] (Py.CFloat "50000.0") "50000.0").
  - simpl. auto.
  - reflexivity.
Defined.

(** ** More on the cleaning of one value *)
Section Values.
Import Py Spec Props.

(** The brand cell becomes [None] exactly for a missing value and for a text
    that reads "nan"; every other cell becomes a list of one item, the
    stripped text: a blank cell gives the list of the empty text, where
    [clean_value] gives [None]. *)
Theorem brand_list_or_none_spec (v : cell) :
  (Main.brand_list_or_none v = Scalar CNone <->
     isna v = true \/ equal_ignoring_case (strip (str v)) "nan")
  /\ (Main.brand_list_or_none v = Scalar CNone
      \/ Main.brand_list_or_none v = StrList [strip (str v)])
  /\ RadarScript.brand_list_or_none v = Main.brand_list_or_none v
  /\ (blank (str v) = true ->
      Main.brand_list_or_none v = StrList [""] /\ Main.clean_value v = None).
Proof.
  unfold Main.brand_list_or_none, equal_ignoring_case.
  change (lower "nan") with "nan".
  assert (is_none v = true -> isna v = true) as Hn by (destruct v; simpl; congruence).
  split; [|split; [|split]].
  - destruct (isna v) eqn:Ea; simpl; [tauto|].
    destruct (is_none v) eqn:En; [specialize (Hn eq_refl); discriminate|]. simpl.
    destruct (String.eqb_spec (lower (strip (str v))) "nan") as [E | E].
    + tauto.
    + split; [discriminate|]. intros [H | H]; [discriminate | contradiction].
  - destruct (isna v || is_none v || String.eqb (lower (strip (str v))) "nan"); auto.
  - reflexivity.
  - intros Hb.
    assert (forall s, blank s = true -> strip s = "") as Hs.
    { intros s. unfold strip. induction s as [|c r IH]; simpl; [reflexivity|].
      intros H. apply andb_true_iff in H as [Hc Hr]. rewrite Hc. exact (IH Hr). }
    assert (isna v = false) as Ea
      by (destruct v; try reflexivity; vm_compute in Hb; discriminate Hb).
    assert (is_none v = false) as En by (destruct v; try reflexivity; discriminate Ea).
    unfold Main.clean_value. rewrite Ea, En, (Hs _ Hb). split; reflexivity.
Qed.

Lemma blank_lstrip (a t : string) : blank a = true -> lstrip (a ++ t) = lstrip t.
Proof.
  induction a as [|c r IH]; simpl; [reflexivity|].
  intros H. apply andb_true_iff in H as [Hc Hr]. rewrite Hc. exact (IH Hr).
Qed.

Lemma blank_rstrip_empty (b : string) : blank b = true -> rstrip b = "".
Proof.
  induction b as [|c r IH]; simpl; [reflexivity|].
  intros H. apply andb_true_iff in H as [Hc Hr]. rewrite (IH Hr), Hc. reflexivity.
Qed.

Lemma blank_rstrip (t b : string) : blank b = true -> rstrip (t ++ b) = rstrip t.
Proof.
  intros Hb. induction t as [|c r IH]; simpl.
  - apply blank_rstrip_empty. exact Hb.
  - rewrite IH. reflexivity.
Qed.

Lemma blank_lstrip_empty (b : string) : blank b = true -> lstrip b = "".
Proof.
  induction b as [|c r IH]; simpl; [reflexivity|].
  intros H. apply andb_true_iff in H as [Hc Hr]. rewrite Hc. exact (IH Hr).
Qed.

Lemma lstrip_app_blank (s b : string) :
  blank b = true ->
  lstrip (s ++ b) = if blank s then "" else (lstrip s ++ b)%string.
Proof.
  intros Hb. induction s as [|c r IH]; simpl.
  - apply blank_lstrip_empty. exact Hb.
  - destruct (isspace c); simpl; [exact IH | reflexivity].
Qed.

(** White space around a text does not change what [strip] leaves. *)
Lemma strip_padding (a s b : string) :
  blank a = true -> blank b = true -> strip (a ++ s ++ b) = strip s.
Proof.
  intros Ha Hb. unfold strip. rewrite (blank_lstrip a _ Ha), (lstrip_app_blank s b Hb).
  destruct (blank s) eqn:Es.
  - rewrite (blank_lstrip_empty s Es). reflexivity.
  - apply blank_rstrip. exact Hb.
Qed.

(** [clean_value] does not see the white space around a text: padding a
    text cell on either side leaves its cleaned value as it was. *)
Theorem clean_value_ignores_padding (a s b : string) :
  blank a = true -> blank b = true ->
  Main.clean_value (CStr (a ++ s ++ b)) = Main.clean_value (CStr s)
  /\ TallyDealers.clean_value (CStr (a ++ s ++ b)) = TallyDealers.clean_value (CStr s)
  /\ VerifiedDealers.clean_value (CStr (a ++ s ++ b))
     = VerifiedDealers.clean_value (CStr s)
  /\ VerifiedDealers.clean_boolean (CStr (a ++ s ++ b))
     = VerifiedDealers.clean_boolean (CStr s).
Proof.
  intros Ha Hb.
  unfold Main.clean_value, TallyDealers.clean_value, VerifiedDealers.clean_value,
    VerifiedDealers.clean_boolean.
  cbn [isna str]. rewrite (strip_padding a s b Ha Hb). auto.
Qed.

Lemma clean_value_padding_example :
  Main.clean_value (CStr ("  " ++ "781001.0" ++ " ")) = Main.clean_value (CStr "781001.0")
  /\ TallyDealers.clean_value (CStr ("  " ++ "781001.0" ++ " "))
     = TallyDealers.clean_value (CStr "781001.0")
  /\ VerifiedDealers.clean_value (CStr ("  " ++ "781001.0" ++ " "))
     = VerifiedDealers.clean_value (CStr "781001.0")
  /\ VerifiedDealers.clean_boolean (CStr ("  " ++ "781001.0" ++ " "))
     = VerifiedDealers.clean_boolean (CStr "781001.0").
Proof.
  apply (clean_value_ignores_padding "  " "781001.0" " "); reflexivity.
Defined.

(** Numerals: the decimal text of an int holds digits and a minus sign only. *)
Lemma numeral_uint (d : Decimal.uint) : numeral (NilEmpty.string_of_uint d) = true.
Proof. induction d; simpl; auto. Qed.

Lemma numeral_str_of_int (n : Z) :
  numeral (str_of_int n) = true /\ str_of_int n <> "".
Proof.
  unfold str_of_int, NilZero.string_of_int, NilZero.string_of_uint.
  destruct (Z.to_int n) as [d | d]; destruct d; simpl;
    rewrite ?numeral_uint; split; try reflexivity; discriminate.
Qed.

Lemma numeral_char_not_space (c : ascii) : numeral_char c = true -> isspace c = false.
Proof.
  destruct c as [[] [] [] [] [] [] [] []]; vm_compute; intros H;
    try discriminate H; reflexivity.
Qed.

Lemma numeral_char_lower (c : ascii) : numeral_char c = true -> lower_char c = c.
Proof.
  destruct c as [[] [] [] [] [] [] [] []]; vm_compute; intros H;
    try discriminate H; reflexivity.
Qed.

Lemma numeral_char_not_dot (c : ascii) :
  numeral_char c = true -> Ascii.eqb c "." = false.
Proof.
  destruct c as [[] [] [] [] [] [] [] []]; vm_compute; intros H;
    try discriminate H; reflexivity.
Qed.

Lemma numeral_strip (s : string) : numeral s = true -> strip s = s.
Proof.
  intros H. unfold strip.
  assert (lstrip s = s) as ->.
  { destruct s as [|c r]; [reflexivity|]. simpl in *.
    apply andb_true_iff in H as [Hc _]. rewrite (numeral_char_not_space c Hc).
    reflexivity. }
  induction s as [|c r IH]; [reflexivity|].
  simpl in *. apply andb_true_iff in H as [Hc Hr]. rewrite (IH Hr).
  destruct r; [rewrite (numeral_char_not_space c Hc)|]; reflexivity.
Qed.

Lemma numeral_lower (s : string) : numeral s = true -> lower s = s.
Proof.
  induction s as [|c r IH]; [reflexivity|].
  simpl. intros H. apply andb_true_iff in H as [Hc Hr].
  rewrite (numeral_char_lower c Hc), (IH Hr). reflexivity.
Qed.

Lemma numeral_re_sub (s : string) : numeral s = true -> re_sub_dot0 s = s.
Proof.
  induction s as [|c r IH]; [reflexivity|].
  intros H. simpl in H. apply andb_true_iff in H as [Hc Hr].
  cbn [re_sub_dot0].
  replace (match_dot0_end (String c r)) with (@None string).
  - rewrite (IH Hr). reflexivity.
  - unfold match_dot0_end. destruct r; [reflexivity|].
    rewrite (numeral_char_not_dot c Hc). reflexivity.
Qed.

(** An int cell is cleaned to its decimal text: it is never dropped and
    never altered. *)
Theorem clean_value_of_int (n : Z) :
  Main.clean_value (CInt n) = Some (str_of_int n)
  /\ TallyDealers.clean_value (CInt n) = Some (str_of_int n)
  /\ VerifiedDealers.clean_value (CInt n) = Some (str_of_int n).
Proof.
  rewrite clean_value_tally, clean_value_verified.
  assert (Main.clean_value (CInt n) = Some (str_of_int n)) as E; [|auto].
  destruct (numeral_str_of_int n) as [Hn He].
  unfold Main.clean_value. cbn [isna str].
  rewrite (numeral_strip _ Hn), (numeral_lower _ Hn), (numeral_re_sub _ Hn).
  destruct (str_of_int n) as [|c r] eqn:Es; [congruence|].
  cbn [str_truthy negb orb].
  replace (String.eqb (String c r) "nan") with false; [reflexivity|].
  symmetry. apply String.eqb_neq. intros H. rewrite H in Hn. discriminate Hn.
Qed.

End Values.

(** ** The insert in the other scripts *)
Section OtherInserts.
Import Py Pg Spec Props.
Local Open Scope list_scope.

Lemma verified_insert_try_block (e : env) (data : list tuple) (w : world) :
  VerifiedScript.insert_data_to_neon e data w
  = let '(w1, conn, raised) := try_block e default_page_size data w in
    let '(w2, escaping) :=
      match raised with
      | Some DbError => (if conn then rollback w1 else w1, None)
      | Some OtherError => (w1, Some OtherError)
      | None => (w1, None)
      end in
    (if conn then close w2 else w2, escaping).
Proof. reflexivity. Qed.

Lemma verified_insert_atomic (e : env) (rows data : list tuple) :
  atomic_insert default_page_size e rows data
    (fst (VerifiedScript.insert_data_to_neon e data (initial rows))).
Proof.
  rewrite verified_insert_try_block.
  destruct (try_block e default_page_size data (initial rows))
    as [[w1 conn] raised] eqn:E.
  pose proof (handlers_atomic e default_page_size rows data w1 conn raised E) as H.
  destruct raised as [[|]|]; exact H.
Qed.

Lemma main_insert_atomic (e : env) (rows data : list tuple) :
  atomic_insert default_page_size e rows data
    (fst (Main.insert_data_to_neon e data (initial rows))).
Proof.
  rewrite main_insert_try_block.
  destruct (try_block e default_page_size data (initial rows))
    as [[w1 conn] raised] eqn:E.
  exact (handlers_atomic e default_page_size rows data w1 conn raised E).
Qed.

Lemma tally_insert_atomic (e : env) (rows data : list tuple) :
  atomic_insert 500 e rows data
    (fst (TallyDealers.insert_data_to_neon e data (initial rows))).
Proof.
  rewrite tally_insert_try_block.
  destruct (try_block e 500 data (initial rows)) as [[w1 conn] raised] eqn:E.
  pose proof (handlers_atomic e 500 rows data w1 conn raised E) as H.
  destruct raised as [[|]|]; exact H.
Qed.

(** The insert of mainWithRadar.py is all or nothing on the table, whatever
    the geofencing API answers and whether or not the import raises. *)
Lemma radar_insert_atomic (N : numerics) (e : env)
    (respond : nat -> request -> response) (rows data : list tuple)
    (radar_key : option string) :
  atomic_insert default_page_size e rows data
    (fst (MainWithRadar.insert_data_to_neon N e respond data radar_key
            (initial rows))).
Proof.
  rewrite radar_insert_try_block.
  destruct (try_block e default_page_size data (initial rows))
    as [[w1 conn] raised] eqn:E.
  pose proof (handlers_atomic e default_page_size rows data w1 conn raised E) as H.
  destruct raised as [x|]; [destruct x; exact H|].
  destruct radar_key as [k|]; [|exact H].
  destruct (str_truthy k); [|exact H].
  (* the import ran: the world it leaves differs from [w1] by PUTs only *)
  destruct (try_block_spec e default_page_size rows data)
    as (w1' & conn' & raised' & sent & cm & E' & Hr & Hc & Hlog & Hex & Hpg & Hcm
        & Hconn & Ht & Hst & Hst').
  rewrite E in E'. injection E' as <- <- <-.
  assert (connect_error e = None) as Ec.
  { unfold first_error in Hr. destruct (connect_error e); [discriminate | reflexivity]. }
  rewrite Ec in Hc. subst conn.
  destruct Hcm as [[_ ->] | [Hne _]]; [|congruence].
  destruct (radar_import_spec N respond k data 0 0 w1)
    as (T & S & C & R & puts & L & P & _ & _).
  destruct (MainWithRadar.radar_import N respond k 0 data 0 w1) as [[w4 c] r] eqn:Er.
  simpl in T, S, C, R, L.
  assert (fst (let w3 := match r with
                         | Some DbError => rollback w4
                         | _ => w4
                         end in (close w3, @None exn)) = close w4) as Hw
    by (destruct r as [[|]|]; [contradiction | reflexivity | reflexivity]).
  cbn beta iota zeta. cbn beta iota zeta in Hw. rewrite Hw.
  assert (log (close w4)
          = Connect true :: SetAutocommit false :: sent ++ [Commit true] ++ puts ++ [Close])
    as Hl by (simpl; rewrite L, Hlog; simpl; rewrite <- !app_assoc; reflexivity).
  assert (existsb is_execute puts = false) as P1
    by (apply (existsb_disjoint is_put); [exact P | intros []; simpl; congruence]).
  assert (existsb is_autocommit_on puts = false) as P2
    by (apply (existsb_disjoint is_put); [exact P | intros []; simpl; congruence]).
  assert (existsb is_commit puts = false) as P3
    by (apply (existsb_disjoint is_put); [exact P | intros []; simpl; congruence]).
  destruct (log_shape_facts sent ([Commit true] ++ puts ++ [Close]) Hex)
    as (F1 & F2 & F3 & F4 & _).
  { simpl. rewrite existsb_app, P1. reflexivity. }
  { simpl. rewrite existsb_app, P2. reflexivity. }
  unfold atomic_insert. rewrite <- Hr, Hl.
  split; [simpl; rewrite T; exact Ht|].
  split; [reflexivity|]. split; [reflexivity|].
  split; [exact F1|]. split; [exact F2|]. split; [exact F3|].
  split.
  { rewrite F4.
    change ([Commit true] ++ puts ++ [Close]) with ([Commit true] ++ (puts ++ [Close])).
    rewrite !count_app, (count_none is_commit puts P3).
    unfold count. simpl. lia. }
  split; [discriminate|].
  intros _. simpl. right. right. apply in_or_app. right.
  right. apply in_or_app. right. left. reflexivity.
Qed.

(** What the [try] block leaves in the log holds no close and no rollback. *)
Lemma try_log_open (sent cm : list event) :
  forallb is_execute sent = true ->
  cm = [Commit true] \/ cm = [] \/ cm = [Commit false] ->
  count is_close (Connect true :: SetAutocommit false :: sent ++ cm) = 0
  /\ count is_rollback (Connect true :: SetAutocommit false :: sent ++ cm) = 0.
Proof.
  intros Hex Hcm.
  assert (existsb is_close sent = false) as S1
    by (apply (existsb_disjoint is_execute); [exact Hex | intros []; simpl; congruence]).
  assert (existsb is_rollback sent = false) as S2
    by (apply (existsb_disjoint is_execute); [exact Hex | intros []; simpl; congruence]).
  split; apply count_none; simpl; rewrite existsb_app;
    [rewrite S1 | rewrite S2]; destruct Hcm as [-> | [-> | ->]]; reflexivity.
Qed.

(** The handlers of the four scripts end a run in order.  [w'] is the world
    after the handlers, given by cases on what the [try] block raised. *)
Lemma handlers_orderly (e : env) (page_size : nat) (rows data : list tuple)
    (w1 : world) (conn : bool) (raised : option exn) :
  try_block e page_size data (initial rows) = (w1, conn, raised) ->
  let w2 := match raised with
            | Some DbError => if conn then rollback w1 else w1
            | _ => w1
            end in
  orderly_end page_size e data (if conn then close w2 else w2).
Proof.
  intros E.
  destruct (try_block_spec e page_size rows data)
    as (w1' & conn' & raised' & sent & cm & E' & Hr & Hc & Hlog & Hex & Hpg & Hcm & _).
  rewrite E in E'. injection E' as <- <- <-.
  assert (cm = [Commit true] \/ cm = [] \/ cm = [Commit false]) as Hcm'
    by (destruct Hcm as [[_ ->] | [_ [-> | ->]]]; auto).
  unfold orderly_end, rolled_back. rewrite <- Hr.
  destruct (connect_error e) as [x|] eqn:Ec; subst conn.
  - assert (match raised with
            | Some DbError => w1
            | _ => w1
            end = w1) as -> by (destruct raised as [[|]|]; reflexivity).
    cbv zeta. rewrite Hlog.
    split; [reflexivity|]. split; [reflexivity|].
    split; [discriminate | reflexivity].
  - destruct (try_log_open sent cm Hex Hcm') as [C1 C2]. rewrite <- Hlog in C1, C2.
    destruct raised as [[|]|]; cbv zeta; simpl log;
      rewrite ?count_app, C1, C2;
      (split; [reflexivity|]); (split; [reflexivity|]);
      (split; [intros _ | congruence]).
    + exists (log w1). rewrite <- app_assoc. reflexivity.
    + exists (log w1). reflexivity.
    + exists (log w1). reflexivity.
Qed.

Lemma radar_insert_orderly (N : numerics) (e : env)
    (respond : nat -> request -> response) (rows data : list tuple)
    (radar_key : option string) :
  orderly_end default_page_size e data
    (fst (MainWithRadar.insert_data_to_neon N e respond data radar_key
            (initial rows))).
Proof.
  rewrite radar_insert_try_block.
  destruct (try_block e default_page_size data (initial rows))
    as [[w1 conn] raised] eqn:E.
  pose proof (handlers_orderly e default_page_size rows data w1 conn raised E) as H.
  destruct raised as [x|]; [destruct x; exact H|].
  destruct radar_key as [k|]; [|exact H].
  destruct (str_truthy k); [|exact H].
  destruct (try_block_spec e default_page_size rows data)
    as (w1' & conn' & raised' & sent & cm & E' & Hr & Hc & Hlog & Hex & Hpg & Hcm & _).
  rewrite E in E'. injection E' as <- <- <-.
  assert (connect_error e = None) as Ec.
  { unfold first_error in Hr. destruct (connect_error e); [discriminate | reflexivity]. }
  rewrite Ec in Hc. subst conn.
  destruct Hcm as [[_ ->] | [Hne _]]; [|congruence].
  destruct (radar_import_spec N respond k data 0 0 w1)
    as (_ & _ & _ & R & puts & L & P & _).
  destruct (MainWithRadar.radar_import N respond k 0 data 0 w1) as [[w4 c] r] eqn:Er.
  simpl in R, L.
  assert (fst (let w3 := match r with
                         | Some DbError => rollback w4
                         | _ => w4
                         end in (close w3, @None exn)) = close w4) as Hw
    by (destruct r as [[|]|]; [contradiction | reflexivity | reflexivity]).
  cbn beta iota zeta. cbn beta iota zeta in Hw. rewrite Hw.
  destruct (try_log_open sent [Commit true] Hex (or_introl eq_refl)) as [C1 C2].
  rewrite <- Hlog in C1, C2.
  assert (count is_close puts = 0) as P1
    by (apply count_none, (existsb_disjoint is_put);
        [exact P | intros []; simpl; congruence]).
  assert (count is_rollback puts = 0) as P2
    by (apply count_none, (existsb_disjoint is_put);
        [exact P | intros []; simpl; congruence]).
  unfold orderly_end, rolled_back. rewrite <- Hr, Ec. simpl log.
  rewrite L, !count_app, C1, C2, P1, P2.
  split; [reflexivity|]. split; [reflexivity|].
  split; [intros _; exists (log w1 ++ puts); reflexivity | congruence].
Qed.

(** In all four scripts [insert_data_to_neon] ends in order: a connection
    that was opened is closed exactly once, as the last thing the run does;
    there is exactly one rollback after a database error on an open
    connection, right before the close, and none otherwise.  In
    verifiedDealers.py and in mainWithRadar.py, as in the two other
    scripts, the insert is moreover all or nothing: the table ends with the
    whole batch or as it was, in one transaction with autocommit off; in
    mainWithRadar.py this holds whatever the geofencing API answers. *)
Theorem insert_all_or_nothing_elsewhere (N : numerics) (e : env)
    (respond : nat -> request -> response) (rows data : list tuple)
    (radar_key : option string) :
  (atomic_insert default_page_size e rows data
     (fst (VerifiedScript.insert_data_to_neon e data (initial rows)))
   /\ atomic_insert default_page_size e rows data
        (fst (MainWithRadar.insert_data_to_neon N e respond data radar_key
                (initial rows))))
  /\ orderly_end default_page_size e data
       (fst (Main.insert_data_to_neon e data (initial rows)))
  /\ orderly_end 500 e data
       (fst (TallyDealers.insert_data_to_neon e data (initial rows)))
  /\ orderly_end default_page_size e data
       (fst (VerifiedScript.insert_data_to_neon e data (initial rows)))
  /\ orderly_end default_page_size e data
       (fst (MainWithRadar.insert_data_to_neon N e respond data radar_key
               (initial rows))).
Proof.
  split; [split; [apply verified_insert_atomic | apply radar_insert_atomic]|].
  split.
  { rewrite main_insert_try_block.
    destruct (try_block e default_page_size data (initial rows))
      as [[w1 conn] raised] eqn:E.
    exact (handlers_orderly e default_page_size rows data w1 conn raised E). }
  split.
  { rewrite tally_insert_try_block.
    destruct (try_block e 500 data (initial rows)) as [[w1 conn] raised] eqn:E.
    pose proof (handlers_orderly e 500 rows data w1 conn raised E) as H.
    destruct raised as [[|]|]; exact H. }
  split.
  { rewrite verified_insert_try_block.
    destruct (try_block e default_page_size data (initial rows))
      as [[w1 conn] raised] eqn:E.
    pose proof (handlers_orderly e default_page_size rows data w1 conn raised E) as H.
    destruct raised as [[|]|]; exact H. }
  apply radar_insert_orderly.
Qed.

End OtherInserts.

(** ** The records a run sends *)
Section SentRecords.
Import Py Pg Spec Props.
Local Open Scope list_scope.

Lemma try_block_sent (e : env) (page_size : nat) (rows data : list tuple)
    (w1 : world) (conn : bool) (raised : option exn) :
  try_block e page_size data (initial rows) = (w1, conn, raised) ->
  sends_each_once e page_size data w1.
Proof.
  unfold try_block, connect, sends_each_once, sent_records.
  destruct (connect_error e) as [x|] eqn:Ec.
  - intros H. injection H as <- _ _. simpl. split; [eauto | discriminate].
  - unfold execute_batch.
    match goal with
    | |- context [execute_pages e 0 ?pages ?w] =>
        destruct (execute_pages_spec e pages 0 w eq_refl)
          as (done & failed & rest & Hp & Hlog & _ & _ & _ & _ & Hr & Hn);
        destruct (execute_pages e 0 pages w) as [w2 r2] eqn:Ex
    end.
    simpl in Hlog, Hr, Hn.
    assert (concat (pages_sent (log w2)) ++ concat rest = data) as Hd.
    { rewrite Hlog. simpl. rewrite pages_sent_app, !pages_sent_map.
      rewrite <- concat_app, <- app_assoc, <- Hp. apply paginate_concat. }
    destruct r2 as [x|].
    + intros H. injection H as <- _ _. split; [eauto|].
      intros _ Hf. rewrite <- Hr in Hf. discriminate.
    + destruct (Hn eq_refl) as [-> ->]. simpl in Hd. rewrite app_nil_r in Hd.
      unfold commit. destruct (commit_error e); intros H; injection H as <- _ _;
        simpl; rewrite pages_sent_app; simpl; rewrite !app_nil_r;
        (split; [exists []; rewrite app_nil_r; exact Hd | intros _ _; exact Hd]).
Qed.

Lemma handlers_pages (w1 : world) (conn : bool) (raised : option exn) :
  pages_sent
    (log (if conn
          then close match raised with
                     | Some DbError => if conn then rollback w1 else w1
                     | _ => w1
                     end
          else match raised with
               | Some DbError => if conn then rollback w1 else w1
               | _ => w1
               end))
  = pages_sent (log w1).
Proof.
  destruct conn, raised as [[|]|]; simpl; rewrite ?pages_sent_app; simpl;
    rewrite ?app_nil_r; reflexivity.
Qed.

Lemma sends_each_once_pages (e : env) (page_size : nat) (data : list tuple)
    (w1 w' : world) :
  pages_sent (log w') = pages_sent (log w1) ->
  sends_each_once e page_size data w1 -> sends_each_once e page_size data w'.
Proof. unfold sends_each_once, sent_records. intros ->. auto. Qed.

(** In each of the four scripts, the records sent to the database are the
    first records of the batch, each once and in the order of the batch, and
    they are the whole batch when the connection was opened and no page
    failed: no record is sent twice, none is skipped before a failure. *)
Theorem every_record_sent_once (N : numerics) (e : env)
    (respond : nat -> request -> response) (rows data : list tuple)
    (radar_key : option string) :
  sends_each_once e default_page_size data
    (fst (Main.insert_data_to_neon e data (initial rows)))
  /\ sends_each_once e 500 data
       (fst (TallyDealers.insert_data_to_neon e data (initial rows)))
  /\ sends_each_once e default_page_size data
       (fst (VerifiedScript.insert_data_to_neon e data (initial rows)))
  /\ sends_each_once e default_page_size data
       (fst (MainWithRadar.insert_data_to_neon N e respond data radar_key
               (initial rows))).
Proof.
  split; [|split; [|split]].
  - rewrite main_insert_try_block.
    destruct (try_block e default_page_size data (initial rows))
      as [[w1 conn] raised] eqn:E.
    apply (sends_each_once_pages e _ data w1); [|exact (try_block_sent _ _ _ _ _ _ _ E)].
    apply handlers_pages.
  - rewrite tally_insert_try_block.
    destruct (try_block e 500 data (initial rows)) as [[w1 conn] raised] eqn:E.
    apply (sends_each_once_pages e _ data w1); [|exact (try_block_sent _ _ _ _ _ _ _ E)].
    pose proof (handlers_pages w1 conn raised) as H.
    destruct raised as [[|]|]; exact H.
  - rewrite verified_insert_try_block.
    destruct (try_block e default_page_size data (initial rows))
      as [[w1 conn] raised] eqn:E.
    apply (sends_each_once_pages e _ data w1); [|exact (try_block_sent _ _ _ _ _ _ _ E)].
    pose proof (handlers_pages w1 conn raised) as H.
    destruct raised as [[|]|]; exact H.
  - rewrite radar_insert_try_block.
    destruct (try_block e default_page_size data (initial rows))
      as [[w1 conn] raised] eqn:E.
    apply (sends_each_once_pages e _ data w1); [|exact (try_block_sent _ _ _ _ _ _ _ E)].
    pose proof (handlers_pages w1 conn raised) as H.
    destruct raised as [x|]; [destruct x; exact H|].
    destruct radar_key as [k|]; [|exact H].
    destruct (str_truthy k); [|exact H].
    destruct (radar_import_spec N respond k data 0 0 w1)
      as (_ & _ & _ & R & puts & L & P & _ & _).
    destruct (MainWithRadar.radar_import N respond k 0 data 0 w1) as [[w4 c] r] eqn:Er.
    simpl in R, L.
    assert (pages_sent puts = []) as Hp.
    { apply pages_sent_none.
      apply (existsb_disjoint is_put); [exact P | intros []; simpl; congruence]. }
    destruct conn, r as [[|]|]; try contradiction; simpl;
      rewrite ?pages_sent_app, L, pages_sent_app, Hp; simpl;
      rewrite ?app_nil_r; reflexivity.
Qed.

End SentRecords.

(** ** The loops and the end of the scripts *)
Section Loads.
Import Py Pandas Pg Spec Props.
Local Open Scope list_scope.

Lemma tally_tuple_length (row : series) :
  List.length (TallyScript.data_tuple row) = TallyScript.EXPECTED_COLUMNS.
Proof. unfold TallyScript.data_tuple. apply length_map. Qed.

Lemma tally_assemble_appends (rows : list series) :
  forall acc, TallyScript.assemble rows acc = acc ++ map TallyScript.data_tuple rows.
Proof.
  induction rows as [|row rest IH]; intros acc; cbn [TallyScript.assemble map].
  - rewrite app_nil_r. reflexivity.
  - rewrite tally_tuple_length, Nat.eqb_refl, IH, <- app_assoc. reflexivity.
Qed.

(** The loop of tallyDealers.py never fails and never skips: it builds one
    tuple per row, in order, each with one item per target column in the
    order of [TARGET_COLUMNS]; a label the row lacks gives [None]. *)
Theorem tally_one_tuple_per_row (df : list series) :
  one_tuple_per_row (fun _ row c => Some (Scalar (TallyScript.row_get row c)))
    TallyScript.TARGET_COLUMNS df (TallyScript.records df)
  /\ (forall row c, In row df -> get row c = None ->
      TallyScript.row_get row c = CNone).
Proof.
  unfold TallyScript.records. rewrite tally_assemble_appends. simpl.
  split; [split|].
  - apply length_map.
  - intros i row Hi. exists (TallyScript.data_tuple row).
    split; [apply map_nth_error; exact Hi|].
    split; [apply tally_tuple_length|].
    intros k c Hk. unfold TallyScript.data_tuple.
    apply (map_nth_error (fun col => Scalar (TallyScript.row_get row col))).
    exact Hk.
  - intros row c _ H. unfold TallyScript.row_get. rewrite H. reflexivity.
Qed.

(** The loop of mainWithRadar.py is the loop of main.py. *)
Lemma radar_assemble_is_main (uuid4 : nat -> string) (rows : list series) :
  forall index acc,
  RadarScript.assemble uuid4 index rows acc = Main.assemble uuid4 index rows acc.
Proof.
  induction rows as [|row rest IH]; intros index acc; [reflexivity|].
  simpl. change (RadarScript.data_tuple (uuid4 index) row)
    with (Main.data_tuple (uuid4 index) row).
  destruct (Main.data_tuple (uuid4 index) row) as [t|]; [|reflexivity].
  change MainWithRadar.EXPECTED_COLUMNS with Main.EXPECTED_COLUMNS.
  rewrite !IH. reflexivity.
Qed.

Lemma main_records_ok (uuid4 : nat -> string) (df : list series) :
  forallb (has_columns Main.DF_COLUMNS) df = true ->
  exists recs,
    Main.records uuid4 df = Some recs
    /\ one_tuple_per_row (fun i => main_source (uuid4 i)) Main.TARGET_COLUMNS df recs.
Proof.
  intros Hm.
  destruct (main_assemble_appends uuid4 df 0 [] Hm) as (ts & E & Hl & Hn).
  exists ts. split; [exact E|]. split; [exact Hl|].
  intros i row Hi. specialize (Hn i row Hi). simpl in Hn.
  assert (has_columns Main.DF_COLUMNS row = true) as Hrow.
  { rewrite forallb_forall in Hm. apply Hm. eapply nth_error_In. exact Hi. }
  destruct (main_data_tuple_ok (uuid4 i) row Hrow) as (t & Ht & Hlen & Hk).
  exists t. rewrite <- Hn. auto.
Qed.

Lemma verified_records_ok (df : list series) :
  forallb (has_columns VerifiedDealers.TARGET_COLUMNS) df = true ->
  exists recs,
    VerifiedDealers.records df = Some recs
    /\ one_tuple_per_row (fun _ => field) VerifiedDealers.TARGET_COLUMNS df recs.
Proof.
  intros Hv.
  destruct (verified_assemble_appends df [] Hv) as (ts & E & Hl & Hn).
  exists ts. split; [exact E|]. split; [exact Hl|].
  intros i row Hi. specialize (Hn i row Hi).
  assert (has_columns VerifiedDealers.TARGET_COLUMNS row = true) as Hrow.
  { rewrite forallb_forall in Hv. apply Hv. eapply nth_error_In. exact Hi. }
  destruct (verified_data_tuple_ok row Hrow) as (t & Ht & Hlen & Hk).
  exists t. rewrite <- Hn. auto.
Qed.

(** The end of main.py and of mainWithRadar.py, on cleaned rows.  Without a
    [DATABASE_URL], and for a sheet without rows, nothing is opened and
    nothing changes.  For a sheet with rows, the batch holds one record per
    row and the table ends with all of them or none. *)
Theorem main_run_inserts_every_row_or_none (N : numerics) (uuid4 : nat -> string)
    (df : list series) (e : env) (respond : nat -> request -> response)
    (radar_key : option string) (rows : list tuple) :
  forallb (has_columns Main.DF_COLUMNS) df = true ->
  MainScript.run None uuid4 df e (initial rows) = initial rows
  /\ MainScript.run (Some "") uuid4 df e (initial rows) = initial rows
  /\ (df = [] ->
      MainScript.load uuid4 df e (initial rows) = initial rows
      /\ RadarScript.load N uuid4 df e respond radar_key (initial rows) = initial rows)
  /\ (df <> [] ->
      exists recs,
        Main.records uuid4 df = Some recs
        /\ RadarScript.records uuid4 df = Some recs
        /\ one_tuple_per_row (fun i => main_source (uuid4 i)) Main.TARGET_COLUMNS
             df recs
        /\ atomic_insert default_page_size e rows recs
             (MainScript.load uuid4 df e (initial rows))
        /\ atomic_insert default_page_size e rows recs
             (RadarScript.load N uuid4 df e respond radar_key (initial rows))).
Proof.
  intros H. split; [reflexivity|]. split; [reflexivity|]. split.
  - intros ->. split; reflexivity.
  - intros Hne. destruct (main_records_ok uuid4 df H) as (recs & E & Hone).
    exists recs. split; [exact E|].
    assert (RadarScript.records uuid4 df = Some recs) as E'
      by (unfold RadarScript.records; rewrite radar_assemble_is_main; exact E).
    split; [exact E'|]. split; [exact Hone|].
    assert (recs <> []) as Hr.
    { destruct Hone as [Hl _]. destruct df; [congruence|].
      destruct recs; [discriminate Hl | discriminate]. }
    unfold MainScript.load, RadarScript.load. rewrite E, E'.
    destruct recs as [|t recs']; [congruence|].
    split; [apply main_insert_atomic | apply radar_insert_atomic].
Qed.

Lemma main_run_example :
  MainScript.run None (fun _ => "6f1c2d3e-0a4b-4c5d-8e9f-001122334455")
    [example_main_row]
    {| connect_error := None; execute_error := fun _ => None; commit_error := None |}
    (initial []) = initial []
  /\ MainScript.run (Some "") (fun _ => "6f1c2d3e-0a4b-4c5d-8e9f-001122334455")
       [example_main_row]
       {| connect_error := None; execute_error := fun _ => None; commit_error := None |}
       (initial []) = initial []
  /\ ([example_main_row] = [] ->
      MainScript.load (fun _ => "6f1c2d3e-0a4b-4c5d-8e9f-001122334455")
        [example_main_row]
        {| connect_error := None; execute_error := fun _ => None;
           commit_error := None |} (initial []) = initial []
      /\ RadarScript.load plain_numerics
           (fun _ => "6f1c2d3e-0a4b-4c5d-8e9f-001122334455") [example_main_row]
           {| connect_error := None; execute_error := fun _ => None;
              commit_error := None |}
           (fun _ => example_response) (Some "prj_live_sk_1") (initial [])
         = initial [])
  /\ ([example_main_row] <> [] ->
      exists recs,
        Main.records (fun _ => "6f1c2d3e-0a4b-4c5d-8e9f-001122334455")
          [example_main_row] = Some recs
        /\ RadarScript.records (fun _ => "6f1c2d3e-0a4b-4c5d-8e9f-001122334455")
             [example_main_row] = Some recs
        /\ one_tuple_per_row
             (fun i => main_source "6f1c2d3e-0a4b-4c5d-8e9f-001122334455")
             Main.TARGET_COLUMNS [example_main_row] recs
        /\ atomic_insert default_page_size
             {| connect_error := None; execute_error := fun _ => None;
                commit_error := None |} [] recs
             (MainScript.load (fun _ => "6f1c2d3e-0a4b-4c5d-8e9f-001122334455")
                [example_main_row]
                {| connect_error := None; execute_error := fun _ => None;
                   commit_error := None |} (initial []))
        /\ atomic_insert default_page_size
             {| connect_error := None; execute_error := fun _ => None;
                commit_error := None |} [] recs
             (RadarScript.load plain_numerics
                (fun _ => "6f1c2d3e-0a4b-4c5d-8e9f-001122334455") [example_main_row]
                {| connect_error := None; execute_error := fun _ => None;
                   commit_error := None |}
                (fun _ => example_response) (Some "prj_live_sk_1") (initial []))).
Proof.
  apply (main_run_inserts_every_row_or_none plain_numerics
           (fun _ => "6f1c2d3e-0a4b-4c5d-8e9f-001122334455") [example_main_row]
           {| connect_error := None; execute_error := fun _ => None;
              commit_error := None |}
           (fun _ => example_response) (Some "prj_live_sk_1") []).
  reflexivity.
Defined.

(** The end of tallyDealers.py and of verifiedDealers.py, on cleaned rows:
    a sheet without rows opens nothing; otherwise the batch holds one record
    per row and the table ends with all of them or none.  tallyDealers.py
    needs no label to be present. *)
Theorem other_runs_insert_every_row_or_none (df_tally df_verified : list series)
    (e : env) (rows : list tuple) :
  forallb (has_columns VerifiedDealers.TARGET_COLUMNS) df_verified = true ->
  (df_tally = [] -> TallyScript.load df_tally e (initial rows) = (initial rows, None))
  /\ (df_verified = [] ->
      VerifiedScript.load df_verified e (initial rows) = (initial rows, None))
  /\ (df_tally <> [] ->
      List.length (TallyScript.records df_tally) = List.length df_tally
      /\ atomic_insert 500 e rows (TallyScript.records df_tally)
           (fst (TallyScript.load df_tally e (initial rows))))
  /\ (df_verified <> [] ->
      exists recs,
        VerifiedDealers.records df_verified = Some recs
        /\ List.length recs = List.length df_verified
        /\ atomic_insert default_page_size e rows recs
             (fst (VerifiedScript.load df_verified e (initial rows)))).
Proof.
  intros H. split; [intros ->; reflexivity|]. split; [intros ->; reflexivity|]. split.
  - intros Hne.
    assert (List.length (TallyScript.records df_tally) = List.length df_tally) as Hl.
    { unfold TallyScript.records. rewrite tally_assemble_appends. simpl.
      apply length_map. }
    split; [exact Hl|]. unfold TallyScript.load.
    destruct (TallyScript.records df_tally) as [|t recs'] eqn:E.
    + destruct df_tally; [congruence | discriminate Hl].
    + apply tally_insert_atomic.
  - intros Hne. destruct (verified_records_ok df_verified H) as (recs & E & Hl & _).
    exists recs. split; [exact E|]. split; [exact Hl|].
    unfold VerifiedScript.load. rewrite E.
    destruct recs as [|t recs'].
    + destruct df_verified; [congruence | discriminate Hl].
    + apply verified_insert_atomic.
Qed.

Lemma other_runs_example :
  ([example_tally_row] = [] ->
   TallyScript.load [example_tally_row]
     {| connect_error := None; execute_error := fun _ => None; commit_error := None |}
     (initial []) = (initial [], None))
  /\ ([example_verified_row] = [] ->
      VerifiedScript.load [example_verified_row]
        {| connect_error := None; execute_error := fun _ => None;
           commit_error := None |} (initial []) = (initial [], None))
  /\ ([example_tally_row] <> [] ->
      List.length (TallyScript.records [example_tally_row])
      = List.length [example_tally_row]
      /\ atomic_insert 500
           {| connect_error := None; execute_error := fun _ => None;
              commit_error := None |} []
           (TallyScript.records [example_tally_row])
           (fst (TallyScript.load [example_tally_row]
                   {| connect_error := None; execute_error := fun _ => None;
                      commit_error := None |} (initial []))))
  /\ ([example_verified_row] <> [] ->
      exists recs,
        VerifiedDealers.records [example_verified_row] = Some recs
        /\ List.length recs = List.length [example_verified_row]
        /\ atomic_insert default_page_size
             {| connect_error := None; execute_error := fun _ => None;
                commit_error := None |} [] recs
             (fst (VerifiedScript.load [example_verified_row]
                     {| connect_error := None; execute_error := fun _ => None;
                        commit_error := None |} (initial [])))).
Proof.
  apply (other_runs_insert_every_row_or_none [example_tally_row] [example_verified_row]
           {| connect_error := None; execute_error := fun _ => None;
              commit_error := None |} []).
  reflexivity.
Defined.

End Loads.

(** ** What the geofence upsert returns, and the import as a whole *)
Section RadarResults.
Import Py Pg Spec Props.
Local Open Scope list_scope.

Variable N : numerics.

(** The two ends of a call: nothing was sent and the call did not return
    [True], or a request was sent and the call returned whether the answer
    was 200 or 201. *)
Lemma upsert_cases (respond : request -> response) (t : tuple) (key : string) :
  let a := MainWithRadar.upsert_radar_geofence N respond t key in
  (MainWithRadar.sent a = None
   /\ (MainWithRadar.result a = MainWithRadar.Returned false
       \/ MainWithRadar.result a = MainWithRadar.Raised))
  \/ (exists req, MainWithRadar.sent a = Some req
                  /\ MainWithRadar.result a = MainWithRadar.Returned (created (respond req))).
Proof.
  cbv zeta. unfold MainWithRadar.upsert_radar_geofence.
  destruct (item t 0), (item t 1), (item t 4), (item t 5), (item t 6), (item t 7),
    (item t 17) as [x17|], (item t 18) as [x18|], (item t 19); simpl; auto.
  destruct (obj_is_none x17 || obj_is_none x18); simpl; auto.
  destruct (obj_truthy p0), (obj_float N x18), (obj_float N x17); simpl; auto.
  destruct (forallb _ _); simpl; auto.
  right.
  match goal with
  | |- context [respond ?r] => exists r; destruct (respond r) eqn:E
  end; simpl; auto.
Qed.

(** On a dealer record the call returns: it sends a request exactly when
    the record has both coordinates. *)
Lemma upsert_dealer_record_sends (respond : request -> response) (t : tuple)
    (key : string) :
  dealer_record t = true ->
  MainWithRadar.result (MainWithRadar.upsert_radar_geofence N respond t key)
    <> MainWithRadar.Raised
  /\ (has_coordinates t = true ->
      exists req,
        MainWithRadar.sent (MainWithRadar.upsert_radar_geofence N respond t key)
        = Some req)
  /\ (has_coordinates t = false ->
      MainWithRadar.sent (MainWithRadar.upsert_radar_geofence N respond t key) = None).
Proof.
  intros H.
  assert (exists id name lat lon,
            column MainWithRadar.TARGET_COLUMNS t "id" = Some id
            /\ column MainWithRadar.TARGET_COLUMNS t "name" = Some name
            /\ item t 17 = Some lat /\ item t 18 = Some lon)
    as (id & name & lat & lon & Hid & Hname & H17 & H18).
  { pose proof H as H'. unfold dealer_record in H'. repeat rewrite andb_true_iff in H'.
    destruct H' as (((((((((_ & H0) & _) & H4) & _) & _) & _) & A17) & A18) & _).
    change (column MainWithRadar.TARGET_COLUMNS t "id") with (item t 0).
    change (column MainWithRadar.TARGET_COLUMNS t "name") with (item t 4).
    destruct (item t 0); [|discriminate]. destruct (item t 4); [|discriminate].
    destruct (item t 17); [|discriminate]. destruct (item t 18); [|discriminate].
    eauto 8. }
  destruct (upsert_on_dealer_record N respond t key id name lat lon H Hid Hname H17 H18)
    as [Hput Hskip].
  unfold has_coordinates. rewrite H17, H18.
  destruct (obj_is_none lat) eqn:E17; simpl.
  - rewrite (Hskip (or_introl eq_refl)). simpl.
    split; [discriminate|]. split; [discriminate | reflexivity].
  - destruct (obj_is_none lon) eqn:E18; simpl.
    + rewrite (Hskip (or_intror eq_refl)). simpl.
      split; [discriminate|]. split; [discriminate | reflexivity].
    + destruct (Hput (conj eq_refl eq_refl)) as (req & _ & _ & Hs & _).
      split; [|split; [eauto | discriminate]].
      destruct (upsert_cases respond t key) as [[Hn _] | [r [_ Hr]]];
        [congruence | rewrite Hr; discriminate].
Qed.

(** [upsert_radar_geofence] returns [True] exactly when it sent a request
    and the API answered 200 or 201; a failure of the HTTP call gives
    [False], not an exception.  On a dealer record it always returns, and it
    sends a request exactly when the record has both coordinates. *)
Theorem upsert_returns_true_when_created (respond : request -> response)
    (t : tuple) (key : string) :
  dealer_record t = true ->
  let a := MainWithRadar.upsert_radar_geofence N respond t key in
  (MainWithRadar.result a = MainWithRadar.Returned true <->
     exists req code text,
       MainWithRadar.sent a = Some req /\ respond req = Status code text
       /\ (code = 200 \/ code = 201))
  /\ (forall req, MainWithRadar.sent a = Some req -> respond req = Failure ->
      MainWithRadar.result a = MainWithRadar.Returned false)
  /\ MainWithRadar.result a <> MainWithRadar.Raised
  /\ (has_coordinates t = true <-> MainWithRadar.sent a <> None).
Proof.
  intros H. cbv zeta.
  destruct (upsert_dealer_record_sends respond t key H) as (Hr & Hy & Hn).
  destruct (upsert_cases respond t key) as [[Hs Hres] | [req [Hs Hres]]];
    cbv zeta in Hs, Hres.
  - split; [|split; [|split]].
    + split.
      * intros E. destruct Hres as [E' | E']; congruence.
      * intros (r & c & x & E & _). congruence.
    + intros r E. congruence.
    + exact Hr.
    + split; [intros Hc; destruct (Hy Hc); congruence | congruence].
  - split; [|split; [|split]].
    + rewrite Hres, Hs. split.
      * intros E. injection E as E. unfold created in E.
        destruct (respond req) as [code text|] eqn:Er; [|discriminate].
        exists req, code, text. split; [reflexivity|]. split; [exact Er|].
        apply orb_true_iff in E as [E | E]; apply Nat.eqb_eq in E; auto.
      * intros (r & c & x & E & Er & Ec). injection E as <-. rewrite Er. simpl.
        destruct Ec as [-> | ->]; reflexivity.
    + intros r E Er. rewrite Hs in E. injection E as <-. rewrite Hres, Er. reflexivity.
    + exact Hr.
    + split; [congruence|]. intros _.
      destruct (has_coordinates t) eqn:Hc; [reflexivity|].
      rewrite (Hn eq_refl) in Hs. discriminate.
Qed.

(** The import over dealer records: it never raises, and the record at an
    index gets one PUT if it has both coordinates and none otherwise. *)
Lemma radar_import_complete (respond : nat -> request -> response) (k : string)
    (remaining : list tuple) :
  forall i c w,
  forallb dealer_record remaining = true ->
  snd (MainWithRadar.radar_import N respond k i remaining c w) = None
  /\ exists puts,
       log (fst (fst (MainWithRadar.radar_import N respond k i remaining c w)))
       = log w ++ puts
       /\ forallb is_put puts = true
       /\ forall j, count (is_put_at j) puts
                    = match nth_error remaining (j - i) with
                      | Some t => if Nat.leb i j && has_coordinates t then 1 else 0
                      | None => 0
                      end.
Proof.
  induction remaining as [|rec rest IH]; intros i c w H.
  - simpl. split; [reflexivity|]. exists []. rewrite app_nil_r.
    split; [reflexivity|]. split; [reflexivity|].
    intros j. destruct (j - i); reflexivity.
  - simpl in H. apply andb_true_iff in H as [Hrec Hrest].
    destruct (upsert_dealer_record_sends (respond i) rec k Hrec) as (Hr & Hy & Hn).
    cbn [MainWithRadar.radar_import].
    set (a := MainWithRadar.upsert_radar_geofence N (respond i) rec k) in *.
    set (w1 := match MainWithRadar.sent a with
               | Some req => record (Put i req) w
               | None => w
               end).
    assert (exists first,
              log w1 = log w ++ first /\ forallb is_put first = true
              /\ forall j, count (is_put_at j) first
                           = if Nat.eqb j i && has_coordinates rec then 1 else 0)
      as (first & L1 & P1 & C1).
    { subst w1. destruct (has_coordinates rec) eqn:Hc.
      - destruct (Hy eq_refl) as [req ->]. exists [Put i req].
        split; [reflexivity|]. split; [reflexivity|].
        intros j. unfold count. simpl. rewrite andb_true_r.
        destruct (Nat.eqb j i); reflexivity.
      - rewrite (Hn eq_refl). exists []. rewrite app_nil_r.
        split; [reflexivity|]. split; [reflexivity|].
        intros j. rewrite andb_false_r. reflexivity. }
    assert (forall c',
              snd (MainWithRadar.radar_import N respond k (S i) rest c' w1) = None
              /\ exists puts,
                   log (fst (fst (MainWithRadar.radar_import N respond k (S i) rest c' w1)))
                   = log w ++ puts
                   /\ forallb is_put puts = true
                   /\ forall j, count (is_put_at j) puts
                                = match nth_error (rec :: rest) (j - i) with
                                  | Some t =>
                                      if Nat.leb i j && has_coordinates t then 1 else 0
                                  | None => 0
                                  end) as Hnext.
    { intros c'. destruct (IH (S i) c' w1 Hrest) as (E & puts & L & P & C).
      split; [exact E|]. exists (first ++ puts).
      rewrite L, L1, app_assoc. split; [reflexivity|].
      split; [rewrite forallb_app, P1, P; reflexivity|].
      intros j. rewrite count_app, C1, C.
      destruct (Nat.lt_trichotomy j i) as [Hlt | [-> | Hgt]].
      - replace (Nat.eqb j i) with false by (symmetry; apply Nat.eqb_neq; lia).
        replace (j - S i) with 0 by lia. replace (j - i) with 0 by lia.
        replace (Nat.leb (S i) j) with false by (symmetry; apply Nat.leb_gt; lia).
        replace (Nat.leb i j) with false by (symmetry; apply Nat.leb_gt; lia).
        simpl. destruct rest; reflexivity.
      - rewrite Nat.eqb_refl, Nat.sub_diag, Nat.leb_refl.
        replace (i - S i) with 0 by lia.
        replace (Nat.leb (S i) i) with false by (symmetry; apply Nat.leb_gt; lia).
        simpl. destruct rest; simpl; lia.
      - replace (Nat.eqb j i) with false by (symmetry; apply Nat.eqb_neq; lia).
        replace (j - i) with (S (j - S i)) by lia.
        replace (Nat.leb (S i) j) with true by (symmetry; apply Nat.leb_le; lia).
        replace (Nat.leb i j) with true by (symmetry; apply Nat.leb_le; lia).
        reflexivity. }
    destruct (MainWithRadar.result a) as [[|]|]; [apply Hnext | apply Hnext | congruence].
Qed.

(** The count the import prints never exceeds the number of PUTs, and the
    number of PUTs never exceeds the number of records. *)
Lemma radar_import_counts (respond : nat -> request -> response) (k : string)
    (remaining : list tuple) :
  forall i c w,
  exists puts,
    log (fst (fst (MainWithRadar.radar_import N respond k i remaining c w)))
    = log w ++ puts
    /\ forallb is_put puts = true
    /\ snd (fst (MainWithRadar.radar_import N respond k i remaining c w))
       <= c + List.length puts
    /\ List.length puts <= List.length remaining
    /\ c <= snd (fst (MainWithRadar.radar_import N respond k i remaining c w)).
Proof.
  induction remaining as [|rec rest IH]; intros i c w.
  - exists []. simpl. rewrite app_nil_r. repeat split; lia.
  - cbn [MainWithRadar.radar_import].
    destruct (upsert_cases (respond i) rec k) as [[Hs Hres] | [req [Hs Hres]]];
      cbv zeta in Hs, Hres; rewrite Hs.
    + destruct Hres as [-> | ->].
      * destruct (IH (S i) c w) as (puts & L & P & A & B & C).
        exists puts. simpl. repeat split; auto; lia.
      * exists []. simpl. rewrite app_nil_r. repeat split; lia.
    + rewrite Hres.
      destruct (created (respond i req)).
      * destruct (IH (S i) (S c) (record (Put i req) w)) as (puts & L & P & A & B & C).
        exists (Put i req :: puts). rewrite L. simpl. rewrite <- app_assoc. simpl.
        repeat split; auto; lia.
      * destruct (IH (S i) c (record (Put i req) w)) as (puts & L & P & A & B & C).
        exists (Put i req :: puts). rewrite L. simpl. rewrite <- app_assoc. simpl.
        repeat split; auto; lia.
Qed.

(** The count of geofences the import reports is at most the number of PUTs
    it sent, which is at most the number of records; the import changes
    nothing in the table. *)
Theorem success_count_bounds (respond : nat -> request -> response) (k : string)
    (data : list tuple) (w : world) :
  let w' := fst (fst (MainWithRadar.radar_import N respond k 0 data 0 w)) in
  exists puts,
    log w' = log w ++ puts
    /\ forallb is_put puts = true
    /\ RadarScript.success_count N respond k data w <= List.length puts
    /\ List.length puts <= List.length data
    /\ table w' = table w.
Proof.
  cbv zeta. destruct (radar_import_counts respond k data 0 0 w)
    as (puts & L & P & A & B & _).
  destruct (radar_import_spec N respond k data 0 0 w) as (T & _).
  exists puts. unfold RadarScript.success_count. repeat split; auto.
Qed.

(** After a successful insert of dealer records with the key present, the
    import goes through the whole batch: the record at an index gets
    exactly one PUT when it has both coordinates and none when it lacks
    one, whatever the API answers. *)
Theorem every_located_record_gets_one_put (e : env)
    (respond : nat -> request -> response) (rows data : list tuple) (k : string)
    (i : nat) (t : tuple) :
  forallb dealer_record data = true ->
  first_error e (List.length (paginate default_page_size data)) = None ->
  str_truthy k = true ->
  nth_error data i = Some t ->
  count (is_put_at i)
    (log (fst (MainWithRadar.insert_data_to_neon N e respond data (Some k)
                 (initial rows))))
  = if has_coordinates t then 1 else 0.
Proof.
  intros Hd Hf Hk Hi. rewrite radar_insert_try_block.
  destruct (try_block_spec e default_page_size rows data)
    as (w1 & conn & raised & sent & cm & E & Hr & Hc & Hlog & Hex & Hpg & Hcm
        & Hconn & Ht & Hst & Hst').
  rewrite E. rewrite Hf in Hr. subst raised.
  assert (connect_error e = None) as Ec.
  { unfold first_error in Hf. destruct (connect_error e); [discriminate | reflexivity]. }
  rewrite Ec in Hc. subst conn.
  destruct Hcm as [[_ ->] | [Hne _]]; [|congruence].
  rewrite Hk.
  destruct (radar_import_complete respond k data 0 0 w1 Hd) as (Hnone & puts & L & P & C).
  destruct (MainWithRadar.radar_import N respond k 0 data 0 w1) as [[w4 c] r] eqn:Er.
  simpl in Hnone, L. subst r. cbn beta iota zeta. simpl fst.
  assert (log (close w4)
          = Connect true :: SetAutocommit false :: sent ++ [Commit true] ++ puts ++ [Close])
    as Hl by (simpl; rewrite L, Hlog; simpl; rewrite <- !app_assoc; reflexivity).
  rewrite Hl.
  destruct (radar_log_facts sent [Commit true] puts [Close] Hex P eq_refl
              (or_introl eq_refl)) as (_ & F2 & _).
  rewrite F2, C, Nat.sub_0_r, Hi. reflexivity.
Qed.

End RadarResults.

Lemma upsert_result_example :
  let a := MainWithRadar.upsert_radar_geofence Spec.plain_numerics Spec.example_response
             Spec.example_dealer "prj_live_sk_1" in
  (MainWithRadar.result a = MainWithRadar.Returned true <->
     exists req code text,
       MainWithRadar.sent a = Some req /\ Spec.example_response req = Pg.Status code text
       /\ (code = 200 \/ code = 201))
  /\ (forall req, MainWithRadar.sent a = Some req ->
      Spec.example_response req = Pg.Failure ->
      MainWithRadar.result a = MainWithRadar.Returned false)
  /\ MainWithRadar.result a <> MainWithRadar.Raised
  /\ (Props.has_coordinates Spec.example_dealer = true <-> MainWithRadar.sent a <> None).
Proof.
  apply (upsert_returns_true_when_created Spec.plain_numerics Spec.example_response
           Spec.example_dealer "prj_live_sk_1").
  reflexivity.
Defined.

Lemma located_record_example :
  Spec.count (Spec.is_put_at 0)
    (Pg.log
       (fst (MainWithRadar.insert_data_to_neon Spec.plain_numerics
               {| Pg.connect_error := None; Pg.execute_error := fun _ => None;
                  Pg.commit_error := None |}
               (fun _ => Spec.example_response) [Spec.example_dealer]
               (Some "prj_live_sk_1") (Spec.initial []))))
  = if Props.has_coordinates Spec.example_dealer then 1 else 0.
Proof.
  apply (every_located_record_gets_one_put Spec.plain_numerics
           {| Pg.connect_error := None; Pg.execute_error := fun _ => None;
              Pg.commit_error := None |}
           (fun _ => Spec.example_response) [] [Spec.example_dealer]
           "prj_live_sk_1" 0 Spec.example_dealer); reflexivity.
Defined.
